(** * cardinal_pythonlib/text.py: escape codec and Unicode range expander

    A shallow embedding of [cardinal_pythonlib/text.py] and the properties
    its specification states about it.

    Python values are represented as follows.
    - A [str] is the list of its code points ([pystr]); a character is a
      code point, an integer.
    - An [int] is a [Z].
    - A raised exception is the [Err] branch of [result].
    - A [dict] is an association list in insertion order with distinct
      keys. *)

From Stdlib Require Import String Ascii.
From Stdlib Require Import ZArith List Bool Lia Sorted.
Import ListNotations.

Open Scope bool_scope.
Open Scope Z_scope.

(** ** Python strings *)

Definition char := Z.
Definition pystr := list char.

(** A string literal of the source, as the list of its code points. *)
Definition py (x : string) : pystr :=
  map (fun a => Z.of_N (N_of_ascii a)) (list_ascii_of_string x).
Arguments py x%_string.

Definition BACKSLASH : char := 92.
Definition LF : char := 10.
Definition CR : char := 13.
Definition TAB : char := 9.
Definition HYPHEN : char := 45.

(** Truth value of a string: [not s] holds for the empty string only. *)
Definition not_ (s : pystr) : bool :=
  match s with [] => true | _ => false end.

(** [s.replace(old, new)] where [old] is a single character, which is how
    the source calls it: every occurrence of [old] becomes [new]. *)
Definition replace (old : char) (new : pystr) (s : pystr) : pystr :=
  flat_map (fun c => if c =? old then new else [c]) s.

(** [s.split(sep)] for a single-character separator: the pieces between
    the occurrences of [sep]; there is always at least one piece. *)
Fixpoint split (sep : char) (s : pystr) : list pystr :=
  match s with
  | [] => [[]]
  | c :: r =>
      if c =? sep then [] :: split sep r
      else match split sep r with
           | p :: ps => (c :: p) :: ps
           | [] => [[c]]
           end
  end.

(** [sep.join(l)] with the empty separator. *)
Definition join (l : list pystr) : pystr := concat l.

(** ** Exceptions *)

Inductive exn : Type :=
| ValueError
| OverflowError
| IndexError
| KeyError (key : pystr).

Inductive result (A : Type) : Type :=
| OK (a : A)
| Err (e : exn).
Arguments OK {A} a.
Arguments Err {A} e.

Definition bind {A B : Type} (m : result A) (k : A -> result B) : result B :=
  match m with
  | OK a => k a
  | Err e => Err e
  end.

Notation "x <- m ;; k" := (bind m (fun x => k))
  (at level 61, m at next level, right associativity).
Notation "' p <- m ;; k" := (bind m (fun x => let p := x in k))
  (at level 61, p pattern, m at next level, right associativity).

(** A list comprehension [[f(x) for x in l]] whose body may raise: the
    elements are computed from left to right and the first exception ends
    the comprehension. *)
Fixpoint comprehension {A B : Type} (f : A -> result B) (l : list A)
  : result (list B) :=
  match l with
  | [] => OK []
  | x :: r => y <- f x ;; ys <- comprehension f r ;; OK (y :: ys)
  end.

(** A [for] loop over [l] with loop state [S] whose body may raise. *)
Fixpoint for_in {A S : Type} (body : A -> S -> result S) (l : list A) (st : S)
  : result S :=
  match l with
  | [] => OK st
  | x :: r => st' <- body x st ;; for_in body r st'
  end.

(** [s[i]] for a non-negative index. *)
Definition getitem (s : pystr) (i : nat) : result char :=
  match nth_error s i with
  | Some c => OK c
  | None => Err IndexError
  end.

(** [range(len(s))]. *)
Definition range_len (s : pystr) : list nat := seq 0 (length s).

(** [range(lo, hi)]: the integers from [lo] up to [hi - 1]; empty when
    [hi <= lo]. *)
Fixpoint range_from (n : nat) (lo : Z) : list Z :=
  match n with
  | O => []
  | S n' => lo :: range_from n' (lo + 1)
  end.

Definition range (lo hi : Z) : list Z := range_from (Z.to_nat (hi - lo)) lo.

(** ** Input support methods *)

Definition escape_newlines (s : pystr) : pystr :=
  if not_ s then s
  else
    let s := replace BACKSLASH (py "\\") s in
    let s := replace LF (py "\n") s in
    let s := replace CR (py "\r") s in
    s.

(** The state of the unescape loops: the destination string [d] and the
    flag [in_escape]. *)
Definition unescape_state : Type := pystr * bool.

Definition unescape_newlines_body (s : pystr) (i : nat) (st : unescape_state)
  : result unescape_state :=
  let '(d, in_escape) := st in
  c <- getitem s i ;;
  if in_escape then
    if c =? 114 (* r *) then OK (d ++ [CR], false)
    else if c =? 110 (* n *) then OK (d ++ [LF], false)
    else OK (d ++ [c], false)
  else
    if c =? BACKSLASH then OK (d, true)
    else OK (d ++ [c], in_escape).

(** The loop of [unescape_newlines], from the initial state. *)
Definition unescape_newlines_loop (s : pystr) : result unescape_state :=
  for_in (unescape_newlines_body s) (range_len s) ([], false).

Definition unescape_newlines (s : pystr) : result pystr :=
  if not_ s then OK s
  else
    '(d, _) <- unescape_newlines_loop s ;;
    OK d.

Definition escape_tabs_newlines (s : pystr) : pystr :=
  if not_ s then s
  else
    let s := replace BACKSLASH (py "\\") s in
    let s := replace LF (py "\n") s in
    let s := replace CR (py "\r") s in
    let s := replace TAB (py "\t") s in
    s.

Definition unescape_tabs_newlines_body (s : pystr) (i : nat)
  (st : unescape_state) : result unescape_state :=
  let '(d, in_escape) := st in
  c <- getitem s i ;;
  if in_escape then
    if c =? 114 (* r *) then OK (d ++ [CR], false)
    else if c =? 110 (* n *) then OK (d ++ [LF], false)
    else if c =? 116 (* t *) then OK (d ++ [TAB], false)
    else OK (d ++ [c], false)
  else
    if c =? BACKSLASH then OK (d, true)
    else OK (d ++ [c], in_escape).

Definition unescape_tabs_newlines_loop (s : pystr) : result unescape_state :=
  for_in (unescape_tabs_newlines_body s) (range_len s) ([], false).

Definition unescape_tabs_newlines (s : pystr) : result pystr :=
  if not_ s then OK s
  else
    '(d, _) <- unescape_tabs_newlines_loop s ;;
    OK d.

(** ** Built-in conversions used by the Unicode constants *)

(** [chr(i)]: the one-character string of code point [i].  An argument
    that does not fit a C [int] raises [OverflowError]; one outside
    [range(0x110000)] raises [ValueError]. *)
Definition chr (i : Z) : result pystr :=
  if (i <? -2147483648) || (2147483647 <? i) then Err OverflowError
  else if (i <? 0) || (0x10FFFF <? i) then Err ValueError
  else OK [i].

(** White space outside ASCII, which [int] treats as a space. *)
Definition unicode_isspace (c : char) : bool :=
  (c =? 0x85) || (c =? 0xA0) || (c =? 0x1680)
  || ((0x2000 <=? c) && (c <=? 0x200A))
  || (c =? 0x2028) || (c =? 0x2029) || (c =? 0x202F) || (c =? 0x205F)
  || (c =? 0x3000).

(** Code points of the digit zero of each decimal digit set outside ASCII
    (general category Nd, Unicode 14.0); the nine code points after each
    are the digits one to nine. *)
Definition decimal_zeros : list Z :=
  [
    0x0660; 0x06F0; 0x07C0; 0x0966; 0x09E6; 0x0A66; 0x0AE6; 0x0B66; 0x0BE6;
    0x0C66; 0x0CE6; 0x0D66; 0x0DE6; 0x0E50; 0x0ED0; 0x0F20; 0x1040; 0x1090;
    0x17E0; 0x1810; 0x1946; 0x19D0; 0x1A80; 0x1A90; 0x1B50; 0x1BB0; 0x1C40;
    0x1C50; 0xA620; 0xA8D0; 0xA900; 0xA9D0; 0xA9F0; 0xAA50; 0xABF0; 0xFF10;
    0x104A0; 0x10D30; 0x11066; 0x110F0; 0x11136; 0x111D0; 0x112F0; 0x11450;
    0x114D0; 0x11650; 0x116C0; 0x11730; 0x118E0; 0x11950; 0x11C50; 0x11D50;
    0x11DA0; 0x16A60; 0x16AC0; 0x16B50; 0x1D7CE; 0x1D7D8; 0x1D7E2; 0x1D7EC;
    0x1D7F6; 0x1E140; 0x1E2F0; 0x1E950; 0x1FBF0
  ].

(** The decimal value of a character outside ASCII, if it is a digit. *)
Definition unicode_todecimal (c : char) : option Z :=
  match find (fun z => (z <=? c) && (c <=? z + 9)) decimal_zeros with
  | Some z => Some (c - z)
  | None => None
  end.

(** The first step of [int] on a [str]: an ASCII string is taken as it is;
    otherwise white space becomes a space, a decimal digit its ASCII
    digit, and the string is cut after the first character that is
    neither, which is replaced by a question mark. *)
Fixpoint transform_decimal_and_space (s : pystr) : pystr :=
  match s with
  | [] => []
  | c :: r =>
      if c <? 127 then c :: transform_decimal_and_space r
      else if unicode_isspace c then 32 :: transform_decimal_and_space r
      else match unicode_todecimal c with
           | Some d => (48 + d) :: transform_decimal_and_space r
           | None => [63]
           end
  end.

Definition is_ascii (s : pystr) : bool := forallb (fun c => c <? 128) s.

Definition Py_ISSPACE (c : char) : bool :=
  ((9 <=? c) && (c <=? 13)) || (c =? 32).

Fixpoint skip_spaces (s : pystr) : pystr :=
  match s with
  | c :: r => if Py_ISSPACE c then skip_spaces r else s
  | [] => []
  end.

(** The value of a digit character in base 16. *)
Definition hex_digit (c : char) : option Z :=
  if (48 <=? c) && (c <=? 57) then Some (c - 48)
  else if (97 <=? c) && (c <=? 102) then Some (c - 87)
  else if (65 <=? c) && (c <=? 70) then Some (c - 55)
  else None.

(** Scan of the digits: single underscores may separate digits, none may
    end the number.  [acc] is [None] until a digit has been read.  The
    result is the value read and the rest of the input. *)
Fixpoint scan_digits (prev_underscore : bool) (acc : option Z) (s : pystr)
  : option (option Z * pystr) :=
  match s with
  | [] => if prev_underscore then None else Some (acc, [])
  | c :: r =>
      if c =? 95 then
        if prev_underscore then None else scan_digits true acc r
      else
        match hex_digit c with
        | Some d =>
            scan_digits false
              (Some (16 * match acc with Some a => a | None => 0 end + d)) r
        | None => if prev_underscore then None else Some (acc, s)
        end
  end.

(** [int(x, 16)] on a string: optional white space, an optional sign, an
    optional [0x] or [0X] prefix (after which one underscore is allowed),
    at least one hexadecimal digit, optional white space.  Anything else
    raises [ValueError]. *)
Definition int16 (x : pystr) : result Z :=
  let s := if is_ascii x then x else transform_decimal_and_space x in
  let s := skip_spaces s in
  let '(sign, s) :=
    match s with
    | c :: r =>
        if c =? 43 (* + *) then (1, r)
        else if c =? 45 (* - *) then (-1, r)
        else (1, s)
    | [] => (1, s)
    end in
  let s :=
    match s with
    | c0 :: c1 :: r =>
        if (c0 =? 48) && ((c1 =? 120) || (c1 =? 88)) (* 0x, 0X *) then
          match r with
          | c2 :: r' => if c2 =? 95 then r' else r
          | [] => r
          end
        else s
    | _ => s
    end in
  match s with
  | [] => Err ValueError
  | c :: _ =>
      if c =? 95 then Err ValueError
      else
        match scan_digits false None s with
        | Some (Some v, rest) =>
            match skip_spaces rest with
            | [] => OK (sign * v)
            | _ => Err ValueError
            end
        | _ => Err ValueError
        end
  end.

(** Unpacking of a list into two names: [first, last = l]. *)
Definition unpack2 {A : Type} (l : list A) : result (A * A) :=
  match l with
  | [a; b] => OK (a, b)
  | _ => Err ValueError
  end.

(** ** Dictionaries *)

Fixpoint str_eqb (a b : pystr) : bool :=
  match a, b with
  | [], [] => true
  | x :: a', y :: b' => (x =? y) && str_eqb a' b'
  | _, _ => false
  end.

Definition dict (V : Type) : Type := list (pystr * V).

(** [d[k]]. *)
Fixpoint dict_getitem {V : Type} (d : dict V) (k : pystr) : result V :=
  match d with
  | [] => Err (KeyError k)
  | (k', v) :: r => if str_eqb k' k then OK v else dict_getitem r k
  end.

(** [d[k] = v]: an existing key keeps its place, a new one goes last. *)
Fixpoint dict_setitem {V : Type} (k : pystr) (v : V) (d : dict V) : dict V :=
  match d with
  | [] => [(k, v)]
  | (k', v') :: r =>
      if str_eqb k' k then (k', v) :: r else (k', v') :: dict_setitem k v r
  end.

(** A dictionary display [{k1: v1, k2: v2, ...}]. *)
Definition dict_display {V : Type} (items : list (pystr * V)) : dict V :=
  fold_left (fun d kv => dict_setitem (fst kv) (snd kv) d) items [].

(** [d.items()]. *)
Definition items {V : Type} (d : dict V) : list (pystr * V) := d.

Definition keys {V : Type} (d : dict V) : list pystr := map fst d.

(** A dictionary comprehension [{k: f(v) for k, v in l}]. *)
Definition dict_comprehension {V W : Type} (f : V -> result W)
  (l : list (pystr * V)) : result (dict W) :=
  for_in (fun kv d => w <- f (snd kv) ;; OK (dict_setitem (fst kv) w d)) l [].

(** ** Unicode constants *)

(** An element of a source list: an integer or a hex range string. *)
Inductive src_item : Type :=
| SrcInt (i : Z)
| SrcStr (s : pystr).

(** One round of the loop of [_unicode_def_src_to_str]. *)
Definition _unicode_def_src_to_str_body (src : src_item)
  (charlist : list pystr) : result (list pystr) :=
  match src with
  | SrcInt i =>
      c <- chr i ;;
      OK (charlist ++ [c])
  | SrcStr s =>
      ints <- comprehension int16 (split HYPHEN s) ;;
      '(first, last) <- unpack2 ints ;;
      chars <- comprehension chr (range first (last + 1)) ;;
      OK (charlist ++ chars)
  end.

Definition _unicode_def_src_to_str (srclist : list src_item) : result pystr :=
  charlist <- for_in _unicode_def_src_to_str_body srclist [] ;;
  OK (join charlist).

Module CategoryTable.

(** A hex range string of the table. *)
Definition R (x : string) : src_item := SrcStr (py x).
Arguments R x%_string.

(** A single code point of the table. *)
Definition U (i : Z) : src_item := SrcInt i.

Definition category_items : list (pystr * list src_item) :=
  [
    (py "ASCII",
     [
      R "0000-007F"
     ]);
    (py "Alphabetic",
     [
      R "0041-005A"; R "0061-007A"; U 0x00AA; U 0x00B5; U 0x00BA;
      R "00C0-00D6"; R "00D8-00F6"; R "00F8-02C1"; R "02C6-02D1";
      R "02E0-02E4"; U 0x02EC; U 0x02EE; U 0x0345; R "0370-0374"; U 0x0376;
      U 0x0377; R "037A-037D"; U 0x037F; U 0x0386; R "0388-038A"; U 0x038C;
      R "038E-03A1"; R "03A3-03F5"; R "03F7-0481"; R "048A-052F";
      R "0531-0556"; U 0x0559; R "0561-0587"; R "05B0-05BD"; U 0x05BF;
      U 0x05C1; U 0x05C2; U 0x05C4; U 0x05C5; U 0x05C7; R "05D0-05EA";
      R "05F0-05F2"; R "0610-061A"; R "0620-0657"; R "0659-065F";
      R "066E-06D3"; R "06D5-06DC"; R "06E1-06E8"; R "06ED-06EF";
      R "06FA-06FC"; U 0x06FF; R "0710-073F"; R "074D-07B1"; R "07CA-07EA";
      U 0x07F4; U 0x07F5; U 0x07FA; R "0800-0817"; R "081A-082C";
      R "0840-0858"; R "08A0-08B4"; R "08B6-08BD"; R "08D4-08DF";
      R "08E3-08E9"; R "08F0-093B"; R "093D-094C"; R "094E-0950";
      R "0955-0963"; R "0971-0983"; R "0985-098C"; U 0x098F; U 0x0990;
      R "0993-09A8"; R "09AA-09B0"; U 0x09B2; R "09B6-09B9"; R "09BD-09C4";
      U 0x09C7; U 0x09C8; U 0x09CB; U 0x09CC; U 0x09CE; U 0x09D7; U 0x09DC;
      U 0x09DD; R "09DF-09E3"; U 0x09F0; U 0x09F1; R "0A01-0A03";
      R "0A05-0A0A"; U 0x0A0F; U 0x0A10; R "0A13-0A28"; R "0A2A-0A30";
      U 0x0A32; U 0x0A33; U 0x0A35; U 0x0A36; U 0x0A38; U 0x0A39;
      R "0A3E-0A42"; U 0x0A47; U 0x0A48; U 0x0A4B; U 0x0A4C; U 0x0A51;
      R "0A59-0A5C"; U 0x0A5E; R "0A70-0A75"; R "0A81-0A83"; R "0A85-0A8D";
      R "0A8F-0A91"; R "0A93-0AA8"; R "0AAA-0AB0"; U 0x0AB2; U 0x0AB3;
      R "0AB5-0AB9"; R "0ABD-0AC5"; R "0AC7-0AC9"; U 0x0ACB; U 0x0ACC;
      U 0x0AD0; R "0AE0-0AE3"; U 0x0AF9; R "0B01-0B03"; R "0B05-0B0C";
      U 0x0B0F; U 0x0B10; R "0B13-0B28"; R "0B2A-0B30"; U 0x0B32; U 0x0B33;
      R "0B35-0B39"; R "0B3D-0B44"; U 0x0B47; U 0x0B48; U 0x0B4B; U 0x0B4C;
      U 0x0B56; U 0x0B57; U 0x0B5C; U 0x0B5D; R "0B5F-0B63"; U 0x0B71;
      U 0x0B82; U 0x0B83; R "0B85-0B8A"; R "0B8E-0B90"; R "0B92-0B95";
      U 0x0B99; U 0x0B9A; U 0x0B9C; U 0x0B9E; U 0x0B9F; U 0x0BA3; U 0x0BA4;
      R "0BA8-0BAA"; R "0BAE-0BB9"; R "0BBE-0BC2"; R "0BC6-0BC8";
      R "0BCA-0BCC"; U 0x0BD0; U 0x0BD7; R "0C00-0C03"; R "0C05-0C0C";
      R "0C0E-0C10"; R "0C12-0C28"; R "0C2A-0C39"; R "0C3D-0C44";
      R "0C46-0C48"; R "0C4A-0C4C"; U 0x0C55; U 0x0C56; R "0C58-0C5A";
      R "0C60-0C63"; R "0C80-0C83"; R "0C85-0C8C"; R "0C8E-0C90";
      R "0C92-0CA8"; R "0CAA-0CB3"; R "0CB5-0CB9"; R "0CBD-0CC4";
      R "0CC6-0CC8"; R "0CCA-0CCC"; U 0x0CD5; U 0x0CD6; U 0x0CDE;
      R "0CE0-0CE3"; U 0x0CF1; U 0x0CF2; R "0D01-0D03"; R "0D05-0D0C";
      R "0D0E-0D10"; R "0D12-0D3A"; R "0D3D-0D44"; R "0D46-0D48";
      R "0D4A-0D4C"; U 0x0D4E; R "0D54-0D57"; R "0D5F-0D63"; R "0D7A-0D7F";
      U 0x0D82; U 0x0D83; R "0D85-0D96"; R "0D9A-0DB1"; R "0DB3-0DBB";
      U 0x0DBD; R "0DC0-0DC6"; R "0DCF-0DD4"; U 0x0DD6; R "0DD8-0DDF";
      U 0x0DF2; U 0x0DF3; R "0E01-0E3A"; R "0E40-0E46"; U 0x0E4D; U 0x0E81;
      U 0x0E82; U 0x0E84; U 0x0E87; U 0x0E88; U 0x0E8A; U 0x0E8D;
      R "0E94-0E97"; R "0E99-0E9F"; R "0EA1-0EA3"; U 0x0EA5; U 0x0EA7;
      U 0x0EAA; U 0x0EAB; R "0EAD-0EB9"; R "0EBB-0EBD"; R "0EC0-0EC4";
      U 0x0EC6; U 0x0ECD; R "0EDC-0EDF"; U 0x0F00; R "0F40-0F47";
      R "0F49-0F6C"; R "0F71-0F81"; R "0F88-0F97"; R "0F99-0FBC";
      R "1000-1036"; U 0x1038; R "103B-103F"; R "1050-1062"; R "1065-1068";
      R "106E-1086"; U 0x108E; U 0x109C; U 0x109D; R "10A0-10C5"; U 0x10C7;
      U 0x10CD; R "10D0-10FA"; R "10FC-1248"; R "124A-124D"; R "1250-1256";
      U 0x1258; R "125A-125D"; R "1260-1288"; R "128A-128D"; R "1290-12B0";
      R "12B2-12B5"; R "12B8-12BE"; U 0x12C0; R "12C2-12C5"; R "12C8-12D6";
      R "12D8-1310"; R "1312-1315"; R "1318-135A"; U 0x135F; R "1380-138F";
      R "13A0-13F5"; R "13F8-13FD"; R "1401-166C"; R "166F-167F";
      R "1681-169A"; R "16A0-16EA"; R "16EE-16F8"; R "1700-170C";
      R "170E-1713"; R "1720-1733"; R "1740-1753"; R "1760-176C";
      R "176E-1770"; U 0x1772; U 0x1773; R "1780-17B3"; R "17B6-17C8";
      U 0x17D7; U 0x17DC; R "1820-1877"; R "1880-18AA"; R "18B0-18F5";
      R "1900-191E"; R "1920-192B"; R "1930-1938"; R "1950-196D";
      R "1970-1974"; R "1980-19AB"; R "19B0-19C9"; R "1A00-1A1B";
      R "1A20-1A5E"; R "1A61-1A74"; U 0x1AA7; R "1B00-1B33"; R "1B35-1B43";
      R "1B45-1B4B"; R "1B80-1BA9"; R "1BAC-1BAF"; R "1BBA-1BE5";
      R "1BE7-1BF1"; R "1C00-1C35"; R "1C4D-1C4F"; R "1C5A-1C7D";
      R "1C80-1C88"; R "1CE9-1CEC"; R "1CEE-1CF3"; U 0x1CF5; U 0x1CF6;
      R "1D00-1DBF"; R "1DE7-1DF4"; R "1E00-1F15"; R "1F18-1F1D";
      R "1F20-1F45"; R "1F48-1F4D"; R "1F50-1F57"; U 0x1F59; U 0x1F5B;
      U 0x1F5D; R "1F5F-1F7D"; R "1F80-1FB4"; R "1FB6-1FBC"; U 0x1FBE;
      R "1FC2-1FC4"; R "1FC6-1FCC"; R "1FD0-1FD3"; R "1FD6-1FDB";
      R "1FE0-1FEC"; R "1FF2-1FF4"; R "1FF6-1FFC"; U 0x2071; U 0x207F;
      R "2090-209C"; U 0x2102; U 0x2107; R "210A-2113"; U 0x2115;
      R "2119-211D"; U 0x2124; U 0x2126; U 0x2128; R "212A-212D";
      R "212F-2139"; R "213C-213F"; R "2145-2149"; U 0x214E; R "2160-2188";
      R "24B6-24E9"; R "2C00-2C2E"; R "2C30-2C5E"; R "2C60-2CE4";
      R "2CEB-2CEE"; U 0x2CF2; U 0x2CF3; R "2D00-2D25"; U 0x2D27; U 0x2D2D;
      R "2D30-2D67"; U 0x2D6F; R "2D80-2D96"; R "2DA0-2DA6"; R "2DA8-2DAE";
      R "2DB0-2DB6"; R "2DB8-2DBE"; R "2DC0-2DC6"; R "2DC8-2DCE";
      R "2DD0-2DD6"; R "2DD8-2DDE"; R "2DE0-2DFF"; U 0x2E2F; R "3005-3007";
      R "3021-3029"; R "3031-3035"; R "3038-303C"; R "3041-3096";
      R "309D-309F"; R "30A1-30FA"; R "30FC-30FF"; R "3105-312D";
      R "3131-318E"; R "31A0-31BA"; R "31F0-31FF"; R "3400-4DB5";
      R "4E00-9FD5"; R "A000-A48C"; R "A4D0-A4FD"; R "A500-A60C";
      R "A610-A61F"; U 0xA62A; U 0xA62B; R "A640-A66E"; R "A674-A67B";
      R "A67F-A6EF"; R "A717-A71F"; R "A722-A788"; R "A78B-A7AE";
      R "A7B0-A7B7"; R "A7F7-A801"; R "A803-A805"; R "A807-A80A";
      R "A80C-A827"; R "A840-A873"; R "A880-A8C3"; U 0xA8C5; R "A8F2-A8F7";
      U 0xA8FB; U 0xA8FD; R "A90A-A92A"; R "A930-A952"; R "A960-A97C";
      R "A980-A9B2"; R "A9B4-A9BF"; U 0xA9CF; R "A9E0-A9E4"; R "A9E6-A9EF";
      R "A9FA-A9FE"; R "AA00-AA36"; R "AA40-AA4D"; R "AA60-AA76"; U 0xAA7A;
      R "AA7E-AABE"; U 0xAAC0; U 0xAAC2; R "AADB-AADD"; R "AAE0-AAEF";
      R "AAF2-AAF5"; R "AB01-AB06"; R "AB09-AB0E"; R "AB11-AB16";
      R "AB20-AB26"; R "AB28-AB2E"; R "AB30-AB5A"; R "AB5C-AB65";
      R "AB70-ABEA"; R "AC00-D7A3"; R "D7B0-D7C6"; R "D7CB-D7FB";
      R "F900-FA6D"; R "FA70-FAD9"; R "FB00-FB06"; R "FB13-FB17";
      R "FB1D-FB28"; R "FB2A-FB36"; R "FB38-FB3C"; U 0xFB3E; U 0xFB40;
      U 0xFB41; U 0xFB43; U 0xFB44; R "FB46-FBB1"; R "FBD3-FD3D";
      R "FD50-FD8F"; R "FD92-FDC7"; R "FDF0-FDFB"; R "FE70-FE74";
      R "FE76-FEFC"; R "FF21-FF3A"; R "FF41-FF5A"; R "FF66-FFBE";
      R "FFC2-FFC7"; R "FFCA-FFCF"; R "FFD2-FFD7"; R "FFDA-FFDC";
      R "10000-1000B"; R "1000D-10026"; R "10028-1003A"; U 0x1003C; U 0x1003D;
      R "1003F-1004D"; R "10050-1005D"; R "10080-100FA"; R "10140-10174";
      R "10280-1029C"; R "102A0-102D0"; R "10300-1031F"; R "10330-1034A";
      R "10350-1037A"; R "10380-1039D"; R "103A0-103C3"; R "103C8-103CF";
      R "103D1-103D5"; R "10400-1049D"; R "104B0-104D3"; R "104D8-104FB";
      R "10500-10527"; R "10530-10563"; R "10600-10736"; R "10740-10755";
      R "10760-10767"; R "10800-10805"; U 0x10808; R "1080A-10835"; U 0x10837;
      U 0x10838; U 0x1083C; R "1083F-10855"; R "10860-10876"; R "10880-1089E";
      R "108E0-108F2"; U 0x108F4; U 0x108F5; R "10900-10915"; R "10920-10939";
      R "10980-109B7"; U 0x109BE; U 0x109BF; R "10A00-10A03"; U 0x10A05;
      U 0x10A06; R "10A0C-10A13"; R "10A15-10A17"; R "10A19-10A33";
      R "10A60-10A7C"; R "10A80-10A9C"; R "10AC0-10AC7"; R "10AC9-10AE4";
      R "10B00-10B35"; R "10B40-10B55"; R "10B60-10B72"; R "10B80-10B91";
      R "10C00-10C48"; R "10C80-10CB2"; R "10CC0-10CF2"; R "11000-11045";
      R "11082-110B8"; R "110D0-110E8"; R "11100-11132"; R "11150-11172";
      U 0x11176; R "11180-111BF"; R "111C1-111C4"; U 0x111DA; U 0x111DC;
      R "11200-11211"; R "11213-11234"; U 0x11237; U 0x1123E; R "11280-11286";
      U 0x11288; R "1128A-1128D"; R "1128F-1129D"; R "1129F-112A8";
      R "112B0-112E8"; R "11300-11303"; R "11305-1130C"; U 0x1130F; U 0x11310;
      R "11313-11328"; R "1132A-11330"; U 0x11332; U 0x11333; R "11335-11339";
      R "1133D-11344"; U 0x11347; U 0x11348; U 0x1134B; U 0x1134C; U 0x11350;
      U 0x11357; R "1135D-11363"; R "11400-11441"; R "11443-11445";
      R "11447-1144A"; R "11480-114C1"; U 0x114C4; U 0x114C5; U 0x114C7;
      R "11580-115B5"; R "115B8-115BE"; R "115D8-115DD"; R "11600-1163E";
      U 0x11640; U 0x11644; R "11680-116B5"; R "11700-11719"; R "1171D-1172A";
      R "118A0-118DF"; U 0x118FF; R "11AC0-11AF8"; R "11C00-11C08";
      R "11C0A-11C36"; R "11C38-11C3E"; U 0x11C40; R "11C72-11C8F";
      R "11C92-11CA7"; R "11CA9-11CB6"; R "12000-12399"; R "12400-1246E";
      R "12480-12543"; R "13000-1342E"; R "14400-14646"; R "16800-16A38";
      R "16A40-16A5E"; R "16AD0-16AED"; R "16B00-16B36"; R "16B40-16B43";
      R "16B63-16B77"; R "16B7D-16B8F"; R "16F00-16F44"; R "16F50-16F7E";
      R "16F93-16F9F"; U 0x16FE0; R "17000-187EC"; R "18800-18AF2"; U 0x1B000;
      U 0x1B001; R "1BC00-1BC6A"; R "1BC70-1BC7C"; R "1BC80-1BC88";
      R "1BC90-1BC99"; U 0x1BC9E; R "1D400-1D454"; R "1D456-1D49C"; U 0x1D49E;
      U 0x1D49F; U 0x1D4A2; U 0x1D4A5; U 0x1D4A6; R "1D4A9-1D4AC";
      R "1D4AE-1D4B9"; U 0x1D4BB; R "1D4BD-1D4C3"; R "1D4C5-1D505";
      R "1D507-1D50A"; R "1D50D-1D514"; R "1D516-1D51C"; R "1D51E-1D539";
      R "1D53B-1D53E"; R "1D540-1D544"; U 0x1D546; R "1D54A-1D550";
      R "1D552-1D6A5"; R "1D6A8-1D6C0"; R "1D6C2-1D6DA"; R "1D6DC-1D6FA";
      R "1D6FC-1D714"; R "1D716-1D734"; R "1D736-1D74E"; R "1D750-1D76E";
      R "1D770-1D788"; R "1D78A-1D7A8"; R "1D7AA-1D7C2"; R "1D7C4-1D7CB";
      R "1E000-1E006"; R "1E008-1E018"; R "1E01B-1E021"; U 0x1E023; U 0x1E024;
      R "1E026-1E02A"; R "1E800-1E8C4"; R "1E900-1E943"; U 0x1E947;
      R "1EE00-1EE03"; R "1EE05-1EE1F"; U 0x1EE21; U 0x1EE22; U 0x1EE24;
      U 0x1EE27; R "1EE29-1EE32"; R "1EE34-1EE37"; U 0x1EE39; U 0x1EE3B;
      U 0x1EE42; U 0x1EE47; U 0x1EE49; U 0x1EE4B; R "1EE4D-1EE4F"; U 0x1EE51;
      U 0x1EE52; U 0x1EE54; U 0x1EE57; U 0x1EE59; U 0x1EE5B; U 0x1EE5D;
      U 0x1EE5F; U 0x1EE61; U 0x1EE62; U 0x1EE64; R "1EE67-1EE6A";
      R "1EE6C-1EE72"; R "1EE74-1EE77"; R "1EE79-1EE7C"; U 0x1EE7E;
      R "1EE80-1EE89"; R "1EE8B-1EE9B"; R "1EEA1-1EEA3"; R "1EEA5-1EEA9";
      R "1EEAB-1EEBB"; R "1F130-1F149"; R "1F150-1F169"; R "1F170-1F189";
      R "20000-2A6D6"; R "2A700-2B734"; R "2B740-2B81D"; R "2B820-2CEA1";
      R "2F800-2FA1D"
     ]);
    (py "Any",
     [
      R "0000-10FFFF"
     ]);
    (py "Default_Ignorable_Code_Point",
     [
      U 0x00AD; U 0x034F; U 0x061C; U 0x115F; U 0x1160; U 0x17B4; U 0x17B5;
      R "180B-180E"; R "200B-200F"; R "202A-202E"; R "2060-206F"; U 0x3164;
      R "FE00-FE0F"; U 0xFEFF; U 0xFFA0; R "FFF0-FFF8"; R "1BCA0-1BCA3";
      R "1D173-1D17A"; R "E0000-E0FFF"
     ]);
    (py "Lowercase",
     [
      R "0061-007A"; U 0x00AA; U 0x00B5; U 0x00BA; R "00DF-00F6";
      R "00F8-00FF"; U 0x0101; U 0x0103; U 0x0105; U 0x0107; U 0x0109;
      U 0x010B; U 0x010D; U 0x010F; U 0x0111; U 0x0113; U 0x0115; U 0x0117;
      U 0x0119; U 0x011B; U 0x011D; U 0x011F; U 0x0121; U 0x0123; U 0x0125;
      U 0x0127; U 0x0129; U 0x012B; U 0x012D; U 0x012F; U 0x0131; U 0x0133;
      U 0x0135; U 0x0137; U 0x0138; U 0x013A; U 0x013C; U 0x013E; U 0x0140;
      U 0x0142; U 0x0144; U 0x0146; U 0x0148; U 0x0149; U 0x014B; U 0x014D;
      U 0x014F; U 0x0151; U 0x0153; U 0x0155; U 0x0157; U 0x0159; U 0x015B;
      U 0x015D; U 0x015F; U 0x0161; U 0x0163; U 0x0165; U 0x0167; U 0x0169;
      U 0x016B; U 0x016D; U 0x016F; U 0x0171; U 0x0173; U 0x0175; U 0x0177;
      U 0x017A; U 0x017C; R "017E-0180"; U 0x0183; U 0x0185; U 0x0188;
      U 0x018C; U 0x018D; U 0x0192; U 0x0195; R "0199-019B"; U 0x019E;
      U 0x01A1; U 0x01A3; U 0x01A5; U 0x01A8; U 0x01AA; U 0x01AB; U 0x01AD;
      U 0x01B0; U 0x01B4; U 0x01B6; U 0x01B9; U 0x01BA; R "01BD-01BF";
      U 0x01C6; U 0x01C9; U 0x01CC; U 0x01CE; U 0x01D0; U 0x01D2; U 0x01D4;
      U 0x01D6; U 0x01D8; U 0x01DA; U 0x01DC; U 0x01DD; U 0x01DF; U 0x01E1;
      U 0x01E3; U 0x01E5; U 0x01E7; U 0x01E9; U 0x01EB; U 0x01ED; U 0x01EF;
      U 0x01F0; U 0x01F3; U 0x01F5; U 0x01F9; U 0x01FB; U 0x01FD; U 0x01FF;
      U 0x0201; U 0x0203; U 0x0205; U 0x0207; U 0x0209; U 0x020B; U 0x020D;
      U 0x020F; U 0x0211; U 0x0213; U 0x0215; U 0x0217; U 0x0219; U 0x021B;
      U 0x021D; U 0x021F; U 0x0221; U 0x0223; U 0x0225; U 0x0227; U 0x0229;
      U 0x022B; U 0x022D; U 0x022F; U 0x0231; R "0233-0239"; U 0x023C;
      U 0x023F; U 0x0240; U 0x0242; U 0x0247; U 0x0249; U 0x024B; U 0x024D;
      R "024F-0293"; R "0295-02B8"; U 0x02C0; U 0x02C1; R "02E0-02E4";
      U 0x0345; U 0x0371; U 0x0373; U 0x0377; R "037A-037D"; U 0x0390;
      R "03AC-03CE"; U 0x03D0; U 0x03D1; R "03D5-03D7"; U 0x03D9; U 0x03DB;
      U 0x03DD; U 0x03DF; U 0x03E1; U 0x03E3; U 0x03E5; U 0x03E7; U 0x03E9;
      U 0x03EB; U 0x03ED; R "03EF-03F3"; U 0x03F5; U 0x03F8; U 0x03FB;
      U 0x03FC; R "0430-045F"; U 0x0461; U 0x0463; U 0x0465; U 0x0467;
      U 0x0469; U 0x046B; U 0x046D; U 0x046F; U 0x0471; U 0x0473; U 0x0475;
      U 0x0477; U 0x0479; U 0x047B; U 0x047D; U 0x047F; U 0x0481; U 0x048B;
      U 0x048D; U 0x048F; U 0x0491; U 0x0493; U 0x0495; U 0x0497; U 0x0499;
      U 0x049B; U 0x049D; U 0x049F; U 0x04A1; U 0x04A3; U 0x04A5; U 0x04A7;
      U 0x04A9; U 0x04AB; U 0x04AD; U 0x04AF; U 0x04B1; U 0x04B3; U 0x04B5;
      U 0x04B7; U 0x04B9; U 0x04BB; U 0x04BD; U 0x04BF; U 0x04C2; U 0x04C4;
      U 0x04C6; U 0x04C8; U 0x04CA; U 0x04CC; U 0x04CE; U 0x04CF; U 0x04D1;
      U 0x04D3; U 0x04D5; U 0x04D7; U 0x04D9; U 0x04DB; U 0x04DD; U 0x04DF;
      U 0x04E1; U 0x04E3; U 0x04E5; U 0x04E7; U 0x04E9; U 0x04EB; U 0x04ED;
      U 0x04EF; U 0x04F1; U 0x04F3; U 0x04F5; U 0x04F7; U 0x04F9; U 0x04FB;
      U 0x04FD; U 0x04FF; U 0x0501; U 0x0503; U 0x0505; U 0x0507; U 0x0509;
      U 0x050B; U 0x050D; U 0x050F; U 0x0511; U 0x0513; U 0x0515; U 0x0517;
      U 0x0519; U 0x051B; U 0x051D; U 0x051F; U 0x0521; U 0x0523; U 0x0525;
      U 0x0527; U 0x0529; U 0x052B; U 0x052D; U 0x052F; R "0561-0587";
      R "13F8-13FD"; R "1C80-1C88"; R "1D00-1DBF"; U 0x1E01; U 0x1E03;
      U 0x1E05; U 0x1E07; U 0x1E09; U 0x1E0B; U 0x1E0D; U 0x1E0F; U 0x1E11;
      U 0x1E13; U 0x1E15; U 0x1E17; U 0x1E19; U 0x1E1B; U 0x1E1D; U 0x1E1F;
      U 0x1E21; U 0x1E23; U 0x1E25; U 0x1E27; U 0x1E29; U 0x1E2B; U 0x1E2D;
      U 0x1E2F; U 0x1E31; U 0x1E33; U 0x1E35; U 0x1E37; U 0x1E39; U 0x1E3B;
      U 0x1E3D; U 0x1E3F; U 0x1E41; U 0x1E43; U 0x1E45; U 0x1E47; U 0x1E49;
      U 0x1E4B; U 0x1E4D; U 0x1E4F; U 0x1E51; U 0x1E53; U 0x1E55; U 0x1E57;
      U 0x1E59; U 0x1E5B; U 0x1E5D; U 0x1E5F; U 0x1E61; U 0x1E63; U 0x1E65;
      U 0x1E67; U 0x1E69; U 0x1E6B; U 0x1E6D; U 0x1E6F; U 0x1E71; U 0x1E73;
      U 0x1E75; U 0x1E77; U 0x1E79; U 0x1E7B; U 0x1E7D; U 0x1E7F; U 0x1E81;
      U 0x1E83; U 0x1E85; U 0x1E87; U 0x1E89; U 0x1E8B; U 0x1E8D; U 0x1E8F;
      U 0x1E91; U 0x1E93; R "1E95-1E9D"; U 0x1E9F; U 0x1EA1; U 0x1EA3;
      U 0x1EA5; U 0x1EA7; U 0x1EA9; U 0x1EAB; U 0x1EAD; U 0x1EAF; U 0x1EB1;
      U 0x1EB3; U 0x1EB5; U 0x1EB7; U 0x1EB9; U 0x1EBB; U 0x1EBD; U 0x1EBF;
      U 0x1EC1; U 0x1EC3; U 0x1EC5; U 0x1EC7; U 0x1EC9; U 0x1ECB; U 0x1ECD;
      U 0x1ECF; U 0x1ED1; U 0x1ED3; U 0x1ED5; U 0x1ED7; U 0x1ED9; U 0x1EDB;
      U 0x1EDD; U 0x1EDF; U 0x1EE1; U 0x1EE3; U 0x1EE5; U 0x1EE7; U 0x1EE9;
      U 0x1EEB; U 0x1EED; U 0x1EEF; U 0x1EF1; U 0x1EF3; U 0x1EF5; U 0x1EF7;
      U 0x1EF9; U 0x1EFB; U 0x1EFD; R "1EFF-1F07"; R "1F10-1F15";
      R "1F20-1F27"; R "1F30-1F37"; R "1F40-1F45"; R "1F50-1F57";
      R "1F60-1F67"; R "1F70-1F7D"; R "1F80-1F87"; R "1F90-1F97";
      R "1FA0-1FA7"; R "1FB0-1FB4"; U 0x1FB6; U 0x1FB7; U 0x1FBE;
      R "1FC2-1FC4"; U 0x1FC6; U 0x1FC7; R "1FD0-1FD3"; U 0x1FD6; U 0x1FD7;
      R "1FE0-1FE7"; R "1FF2-1FF4"; U 0x1FF6; U 0x1FF7; U 0x2071; U 0x207F;
      R "2090-209C"; U 0x210A; U 0x210E; U 0x210F; U 0x2113; U 0x212F;
      U 0x2134; U 0x2139; U 0x213C; U 0x213D; R "2146-2149"; U 0x214E;
      R "2170-217F"; U 0x2184; R "24D0-24E9"; R "2C30-2C5E"; U 0x2C61;
      U 0x2C65; U 0x2C66; U 0x2C68; U 0x2C6A; U 0x2C6C; U 0x2C71; U 0x2C73;
      U 0x2C74; R "2C76-2C7D"; U 0x2C81; U 0x2C83; U 0x2C85; U 0x2C87;
      U 0x2C89; U 0x2C8B; U 0x2C8D; U 0x2C8F; U 0x2C91; U 0x2C93; U 0x2C95;
      U 0x2C97; U 0x2C99; U 0x2C9B; U 0x2C9D; U 0x2C9F; U 0x2CA1; U 0x2CA3;
      U 0x2CA5; U 0x2CA7; U 0x2CA9; U 0x2CAB; U 0x2CAD; U 0x2CAF; U 0x2CB1;
      U 0x2CB3; U 0x2CB5; U 0x2CB7; U 0x2CB9; U 0x2CBB; U 0x2CBD; U 0x2CBF;
      U 0x2CC1; U 0x2CC3; U 0x2CC5; U 0x2CC7; U 0x2CC9; U 0x2CCB; U 0x2CCD;
      U 0x2CCF; U 0x2CD1; U 0x2CD3; U 0x2CD5; U 0x2CD7; U 0x2CD9; U 0x2CDB;
      U 0x2CDD; U 0x2CDF; U 0x2CE1; U 0x2CE3; U 0x2CE4; U 0x2CEC; U 0x2CEE;
      U 0x2CF3; R "2D00-2D25"; U 0x2D27; U 0x2D2D; U 0xA641; U 0xA643;
      U 0xA645; U 0xA647; U 0xA649; U 0xA64B; U 0xA64D; U 0xA64F; U 0xA651;
      U 0xA653; U 0xA655; U 0xA657; U 0xA659; U 0xA65B; U 0xA65D; U 0xA65F;
      U 0xA661; U 0xA663; U 0xA665; U 0xA667; U 0xA669; U 0xA66B; U 0xA66D;
      U 0xA681; U 0xA683; U 0xA685; U 0xA687; U 0xA689; U 0xA68B; U 0xA68D;
      U 0xA68F; U 0xA691; U 0xA693; U 0xA695; U 0xA697; U 0xA699;
      R "A69B-A69D"; U 0xA723; U 0xA725; U 0xA727; U 0xA729; U 0xA72B;
      U 0xA72D; R "A72F-A731"; U 0xA733; U 0xA735; U 0xA737; U 0xA739;
      U 0xA73B; U 0xA73D; U 0xA73F; U 0xA741; U 0xA743; U 0xA745; U 0xA747;
      U 0xA749; U 0xA74B; U 0xA74D; U 0xA74F; U 0xA751; U 0xA753; U 0xA755;
      U 0xA757; U 0xA759; U 0xA75B; U 0xA75D; U 0xA75F; U 0xA761; U 0xA763;
      U 0xA765; U 0xA767; U 0xA769; U 0xA76B; U 0xA76D; R "A76F-A778";
      U 0xA77A; U 0xA77C; U 0xA77F; U 0xA781; U 0xA783; U 0xA785; U 0xA787;
      U 0xA78C; U 0xA78E; U 0xA791; R "A793-A795"; U 0xA797; U 0xA799;
      U 0xA79B; U 0xA79D; U 0xA79F; U 0xA7A1; U 0xA7A3; U 0xA7A5; U 0xA7A7;
      U 0xA7A9; U 0xA7B5; U 0xA7B7; R "A7F8-A7FA"; R "AB30-AB5A";
      R "AB5C-AB65"; R "AB70-ABBF"; R "FB00-FB06"; R "FB13-FB17";
      R "FF41-FF5A"; R "10428-1044F"; R "104D8-104FB"; R "10CC0-10CF2";
      R "118C0-118DF"; R "1D41A-1D433"; R "1D44E-1D454"; R "1D456-1D467";
      R "1D482-1D49B"; R "1D4B6-1D4B9"; U 0x1D4BB; R "1D4BD-1D4C3";
      R "1D4C5-1D4CF"; R "1D4EA-1D503"; R "1D51E-1D537"; R "1D552-1D56B";
      R "1D586-1D59F"; R "1D5BA-1D5D3"; R "1D5EE-1D607"; R "1D622-1D63B";
      R "1D656-1D66F"; R "1D68A-1D6A5"; R "1D6C2-1D6DA"; R "1D6DC-1D6E1";
      R "1D6FC-1D714"; R "1D716-1D71B"; R "1D736-1D74E"; R "1D750-1D755";
      R "1D770-1D788"; R "1D78A-1D78F"; R "1D7AA-1D7C2"; R "1D7C4-1D7C9";
      U 0x1D7CB; R "1E922-1E943"
     ]);
    (py "Noncharacter_Code_Point",
     [
      R "FDD0-FDEF"; U 0xFFFE; U 0xFFFF; U 0x1FFFE; U 0x1FFFF; U 0x2FFFE;
      U 0x2FFFF; U 0x3FFFE; U 0x3FFFF; U 0x4FFFE; U 0x4FFFF; U 0x5FFFE;
      U 0x5FFFF; U 0x6FFFE; U 0x6FFFF; U 0x7FFFE; U 0x7FFFF; U 0x8FFFE;
      U 0x8FFFF; U 0x9FFFE; U 0x9FFFF; U 0xAFFFE; U 0xAFFFF; U 0xBFFFE;
      U 0xBFFFF; U 0xCFFFE; U 0xCFFFF; U 0xDFFFE; U 0xDFFFF; U 0xEFFFE;
      U 0xEFFFF; U 0xFFFFE; U 0xFFFFF; U 0x10FFFE; U 0x10FFFF
     ]);
    (py "Uppercase",
     [
      R "0041-005A"; R "00C0-00D6"; R "00D8-00DE"; U 0x0100; U 0x0102;
      U 0x0104; U 0x0106; U 0x0108; U 0x010A; U 0x010C; U 0x010E; U 0x0110;
      U 0x0112; U 0x0114; U 0x0116; U 0x0118; U 0x011A; U 0x011C; U 0x011E;
      U 0x0120; U 0x0122; U 0x0124; U 0x0126; U 0x0128; U 0x012A; U 0x012C;
      U 0x012E; U 0x0130; U 0x0132; U 0x0134; U 0x0136; U 0x0139; U 0x013B;
      U 0x013D; U 0x013F; U 0x0141; U 0x0143; U 0x0145; U 0x0147; U 0x014A;
      U 0x014C; U 0x014E; U 0x0150; U 0x0152; U 0x0154; U 0x0156; U 0x0158;
      U 0x015A; U 0x015C; U 0x015E; U 0x0160; U 0x0162; U 0x0164; U 0x0166;
      U 0x0168; U 0x016A; U 0x016C; U 0x016E; U 0x0170; U 0x0172; U 0x0174;
      U 0x0176; U 0x0178; U 0x0179; U 0x017B; U 0x017D; U 0x0181; U 0x0182;
      U 0x0184; U 0x0186; U 0x0187; R "0189-018B"; R "018E-0191"; U 0x0193;
      U 0x0194; R "0196-0198"; U 0x019C; U 0x019D; U 0x019F; U 0x01A0;
      U 0x01A2; U 0x01A4; U 0x01A6; U 0x01A7; U 0x01A9; U 0x01AC; U 0x01AE;
      U 0x01AF; R "01B1-01B3"; U 0x01B5; U 0x01B7; U 0x01B8; U 0x01BC;
      U 0x01C4; U 0x01C7; U 0x01CA; U 0x01CD; U 0x01CF; U 0x01D1; U 0x01D3;
      U 0x01D5; U 0x01D7; U 0x01D9; U 0x01DB; U 0x01DE; U 0x01E0; U 0x01E2;
      U 0x01E4; U 0x01E6; U 0x01E8; U 0x01EA; U 0x01EC; U 0x01EE; U 0x01F1;
      U 0x01F4; R "01F6-01F8"; U 0x01FA; U 0x01FC; U 0x01FE; U 0x0200;
      U 0x0202; U 0x0204; U 0x0206; U 0x0208; U 0x020A; U 0x020C; U 0x020E;
      U 0x0210; U 0x0212; U 0x0214; U 0x0216; U 0x0218; U 0x021A; U 0x021C;
      U 0x021E; U 0x0220; U 0x0222; U 0x0224; U 0x0226; U 0x0228; U 0x022A;
      U 0x022C; U 0x022E; U 0x0230; U 0x0232; U 0x023A; U 0x023B; U 0x023D;
      U 0x023E; U 0x0241; R "0243-0246"; U 0x0248; U 0x024A; U 0x024C;
      U 0x024E; U 0x0370; U 0x0372; U 0x0376; U 0x037F; U 0x0386;
      R "0388-038A"; U 0x038C; U 0x038E; U 0x038F; R "0391-03A1";
      R "03A3-03AB"; U 0x03CF; R "03D2-03D4"; U 0x03D8; U 0x03DA; U 0x03DC;
      U 0x03DE; U 0x03E0; U 0x03E2; U 0x03E4; U 0x03E6; U 0x03E8; U 0x03EA;
      U 0x03EC; U 0x03EE; U 0x03F4; U 0x03F7; U 0x03F9; U 0x03FA;
      R "03FD-042F"; U 0x0460; U 0x0462; U 0x0464; U 0x0466; U 0x0468;
      U 0x046A; U 0x046C; U 0x046E; U 0x0470; U 0x0472; U 0x0474; U 0x0476;
      U 0x0478; U 0x047A; U 0x047C; U 0x047E; U 0x0480; U 0x048A; U 0x048C;
      U 0x048E; U 0x0490; U 0x0492; U 0x0494; U 0x0496; U 0x0498; U 0x049A;
      U 0x049C; U 0x049E; U 0x04A0; U 0x04A2; U 0x04A4; U 0x04A6; U 0x04A8;
      U 0x04AA; U 0x04AC; U 0x04AE; U 0x04B0; U 0x04B2; U 0x04B4; U 0x04B6;
      U 0x04B8; U 0x04BA; U 0x04BC; U 0x04BE; U 0x04C0; U 0x04C1; U 0x04C3;
      U 0x04C5; U 0x04C7; U 0x04C9; U 0x04CB; U 0x04CD; U 0x04D0; U 0x04D2;
      U 0x04D4; U 0x04D6; U 0x04D8; U 0x04DA; U 0x04DC; U 0x04DE; U 0x04E0;
      U 0x04E2; U 0x04E4; U 0x04E6; U 0x04E8; U 0x04EA; U 0x04EC; U 0x04EE;
      U 0x04F0; U 0x04F2; U 0x04F4; U 0x04F6; U 0x04F8; U 0x04FA; U 0x04FC;
      U 0x04FE; U 0x0500; U 0x0502; U 0x0504; U 0x0506; U 0x0508; U 0x050A;
      U 0x050C; U 0x050E; U 0x0510; U 0x0512; U 0x0514; U 0x0516; U 0x0518;
      U 0x051A; U 0x051C; U 0x051E; U 0x0520; U 0x0522; U 0x0524; U 0x0526;
      U 0x0528; U 0x052A; U 0x052C; U 0x052E; R "0531-0556"; R "10A0-10C5";
      U 0x10C7; U 0x10CD; R "13A0-13F5"; U 0x1E00; U 0x1E02; U 0x1E04;
      U 0x1E06; U 0x1E08; U 0x1E0A; U 0x1E0C; U 0x1E0E; U 0x1E10; U 0x1E12;
      U 0x1E14; U 0x1E16; U 0x1E18; U 0x1E1A; U 0x1E1C; U 0x1E1E; U 0x1E20;
      U 0x1E22; U 0x1E24; U 0x1E26; U 0x1E28; U 0x1E2A; U 0x1E2C; U 0x1E2E;
      U 0x1E30; U 0x1E32; U 0x1E34; U 0x1E36; U 0x1E38; U 0x1E3A; U 0x1E3C;
      U 0x1E3E; U 0x1E40; U 0x1E42; U 0x1E44; U 0x1E46; U 0x1E48; U 0x1E4A;
      U 0x1E4C; U 0x1E4E; U 0x1E50; U 0x1E52; U 0x1E54; U 0x1E56; U 0x1E58;
      U 0x1E5A; U 0x1E5C; U 0x1E5E; U 0x1E60; U 0x1E62; U 0x1E64; U 0x1E66;
      U 0x1E68; U 0x1E6A; U 0x1E6C; U 0x1E6E; U 0x1E70; U 0x1E72; U 0x1E74;
      U 0x1E76; U 0x1E78; U 0x1E7A; U 0x1E7C; U 0x1E7E; U 0x1E80; U 0x1E82;
      U 0x1E84; U 0x1E86; U 0x1E88; U 0x1E8A; U 0x1E8C; U 0x1E8E; U 0x1E90;
      U 0x1E92; U 0x1E94; U 0x1E9E; U 0x1EA0; U 0x1EA2; U 0x1EA4; U 0x1EA6;
      U 0x1EA8; U 0x1EAA; U 0x1EAC; U 0x1EAE; U 0x1EB0; U 0x1EB2; U 0x1EB4;
      U 0x1EB6; U 0x1EB8; U 0x1EBA; U 0x1EBC; U 0x1EBE; U 0x1EC0; U 0x1EC2;
      U 0x1EC4; U 0x1EC6; U 0x1EC8; U 0x1ECA; U 0x1ECC; U 0x1ECE; U 0x1ED0;
      U 0x1ED2; U 0x1ED4; U 0x1ED6; U 0x1ED8; U 0x1EDA; U 0x1EDC; U 0x1EDE;
      U 0x1EE0; U 0x1EE2; U 0x1EE4; U 0x1EE6; U 0x1EE8; U 0x1EEA; U 0x1EEC;
      U 0x1EEE; U 0x1EF0; U 0x1EF2; U 0x1EF4; U 0x1EF6; U 0x1EF8; U 0x1EFA;
      U 0x1EFC; U 0x1EFE; R "1F08-1F0F"; R "1F18-1F1D"; R "1F28-1F2F";
      R "1F38-1F3F"; R "1F48-1F4D"; U 0x1F59; U 0x1F5B; U 0x1F5D; U 0x1F5F;
      R "1F68-1F6F"; R "1FB8-1FBB"; R "1FC8-1FCB"; R "1FD8-1FDB";
      R "1FE8-1FEC"; R "1FF8-1FFB"; U 0x2102; U 0x2107; R "210B-210D";
      R "2110-2112"; U 0x2115; R "2119-211D"; U 0x2124; U 0x2126; U 0x2128;
      R "212A-212D"; R "2130-2133"; U 0x213E; U 0x213F; U 0x2145;
      R "2160-216F"; U 0x2183; R "24B6-24CF"; R "2C00-2C2E"; U 0x2C60;
      R "2C62-2C64"; U 0x2C67; U 0x2C69; U 0x2C6B; R "2C6D-2C70"; U 0x2C72;
      U 0x2C75; R "2C7E-2C80"; U 0x2C82; U 0x2C84; U 0x2C86; U 0x2C88;
      U 0x2C8A; U 0x2C8C; U 0x2C8E; U 0x2C90; U 0x2C92; U 0x2C94; U 0x2C96;
      U 0x2C98; U 0x2C9A; U 0x2C9C; U 0x2C9E; U 0x2CA0; U 0x2CA2; U 0x2CA4;
      U 0x2CA6; U 0x2CA8; U 0x2CAA; U 0x2CAC; U 0x2CAE; U 0x2CB0; U 0x2CB2;
      U 0x2CB4; U 0x2CB6; U 0x2CB8; U 0x2CBA; U 0x2CBC; U 0x2CBE; U 0x2CC0;
      U 0x2CC2; U 0x2CC4; U 0x2CC6; U 0x2CC8; U 0x2CCA; U 0x2CCC; U 0x2CCE;
      U 0x2CD0; U 0x2CD2; U 0x2CD4; U 0x2CD6; U 0x2CD8; U 0x2CDA; U 0x2CDC;
      U 0x2CDE; U 0x2CE0; U 0x2CE2; U 0x2CEB; U 0x2CED; U 0x2CF2; U 0xA640;
      U 0xA642; U 0xA644; U 0xA646; U 0xA648; U 0xA64A; U 0xA64C; U 0xA64E;
      U 0xA650; U 0xA652; U 0xA654; U 0xA656; U 0xA658; U 0xA65A; U 0xA65C;
      U 0xA65E; U 0xA660; U 0xA662; U 0xA664; U 0xA666; U 0xA668; U 0xA66A;
      U 0xA66C; U 0xA680; U 0xA682; U 0xA684; U 0xA686; U 0xA688; U 0xA68A;
      U 0xA68C; U 0xA68E; U 0xA690; U 0xA692; U 0xA694; U 0xA696; U 0xA698;
      U 0xA69A; U 0xA722; U 0xA724; U 0xA726; U 0xA728; U 0xA72A; U 0xA72C;
      U 0xA72E; U 0xA732; U 0xA734; U 0xA736; U 0xA738; U 0xA73A; U 0xA73C;
      U 0xA73E; U 0xA740; U 0xA742; U 0xA744; U 0xA746; U 0xA748; U 0xA74A;
      U 0xA74C; U 0xA74E; U 0xA750; U 0xA752; U 0xA754; U 0xA756; U 0xA758;
      U 0xA75A; U 0xA75C; U 0xA75E; U 0xA760; U 0xA762; U 0xA764; U 0xA766;
      U 0xA768; U 0xA76A; U 0xA76C; U 0xA76E; U 0xA779; U 0xA77B; U 0xA77D;
      U 0xA77E; U 0xA780; U 0xA782; U 0xA784; U 0xA786; U 0xA78B; U 0xA78D;
      U 0xA790; U 0xA792; U 0xA796; U 0xA798; U 0xA79A; U 0xA79C; U 0xA79E;
      U 0xA7A0; U 0xA7A2; U 0xA7A4; U 0xA7A6; U 0xA7A8; R "A7AA-A7AE";
      R "A7B0-A7B4"; U 0xA7B6; R "FF21-FF3A"; R "10400-10427"; R "104B0-104D3";
      R "10C80-10CB2"; R "118A0-118BF"; R "1D400-1D419"; R "1D434-1D44D";
      R "1D468-1D481"; U 0x1D49C; U 0x1D49E; U 0x1D49F; U 0x1D4A2; U 0x1D4A5;
      U 0x1D4A6; R "1D4A9-1D4AC"; R "1D4AE-1D4B5"; R "1D4D0-1D4E9"; U 0x1D504;
      U 0x1D505; R "1D507-1D50A"; R "1D50D-1D514"; R "1D516-1D51C"; U 0x1D538;
      U 0x1D539; R "1D53B-1D53E"; R "1D540-1D544"; U 0x1D546; R "1D54A-1D550";
      R "1D56C-1D585"; R "1D5A0-1D5B9"; R "1D5D4-1D5ED"; R "1D608-1D621";
      R "1D63C-1D655"; R "1D670-1D689"; R "1D6A8-1D6C0"; R "1D6E2-1D6FA";
      R "1D71C-1D734"; R "1D756-1D76E"; R "1D790-1D7A8"; U 0x1D7CA;
      R "1E900-1E921"; R "1F130-1F149"; R "1F150-1F169"; R "1F170-1F189"
     ]);
    (py "White_Space",
     [
      R "0009-000D"; U 0x0020; U 0x0085; U 0x00A0; U 0x1680; R "2000-200A";
      U 0x2028; U 0x2029; U 0x202F; U 0x205F; U 0x3000
     ]);
    (py "Latin",
     [
      R "0000-007F"; R "0080-00FF"; R "0100-017F"; R "0180-024F";
      R "0250-02AF"; R "02B0-02FF"; R "1D00-1D7F"; R "1D80-1DBF";
      R "1E00-1EFF"; R "2070-209F"; R "2100-214F"; R "2150-218F";
      R "2C60-2C7F"; R "A720-A7FF"; R "AB30-AB6F"; R "FB00-FB4F"; R "FF00-FFEF"
     ]);
    (py "Latin_Alphabetic",
     [
      R "0041-005A"; R "0061-007A"; U 0x00B5; R "00C0-00D6"; R "00D8-00F6";
      R "00F8-00FF"; R "0100-017F"; R "0180-024F"; R "1E00-1EFF";
      R "2C60-2C7F"; R "A720-A7AC"; R "A7B0-A7B7"; R "A7F7-A7FF";
      R "AB30-AB65"; R "FB00-FB06"; R "FF20-FF5F"
     ])
  ].

End CategoryTable.

Definition _UNICODE_CATEGORY_SRC : dict (list src_item) :=
  dict_display CategoryTable.category_items.

Definition get_unicode_category_strings : result (dict pystr) :=
  dict_comprehension _unicode_def_src_to_str (items _UNICODE_CATEGORY_SRC).

Definition get_unicode_characters (category : pystr) : result pystr :=
  definition_strings <- dict_getitem _UNICODE_CATEGORY_SRC category ;;
  _unicode_def_src_to_str definition_strings.

(** [len(s)]. *)
Definition len (s : pystr) : Z := Z.of_nat (length s).

(** ** Definitions used to state and prove the properties *)

(** The loop bodies as functions of the character read, without the
    indexing. *)
Definition unescape_newlines_step (st : unescape_state) (c : char)
  : unescape_state :=
  let '(d, in_escape) := st in
  if in_escape then
    if c =? 114 then (d ++ [CR], false)
    else if c =? 110 then (d ++ [LF], false)
    else (d ++ [c], false)
  else
    if c =? BACKSLASH then (d, true)
    else (d ++ [c], false).

Definition unescape_tabs_newlines_step (st : unescape_state) (c : char)
  : unescape_state :=
  let '(d, in_escape) := st in
  if in_escape then
    if c =? 114 then (d ++ [CR], false)
    else if c =? 110 then (d ++ [LF], false)
    else if c =? 116 then (d ++ [TAB], false)
    else (d ++ [c], false)
  else
    if c =? BACKSLASH then (d, true)
    else (d ++ [c], false).

(** What the successive replacements of the escape functions make of one
    character. *)
Definition escape_newlines_char (c : char) : pystr :=
  replace CR (py "\r") (replace LF (py "\n") (replace BACKSLASH (py "\\") [c])).

Definition escape_tabs_newlines_char (c : char) : pystr :=
  replace TAB (py "\t") (escape_newlines_char c).

(** The characters of one element of a source list: what one round of the
    loop appends to [charlist]. *)
Definition item_chars (src : src_item) : result (list pystr) :=
  _unicode_def_src_to_str_body src [].

(** A check that an element of a source list expands without raising. *)
Definition item_okb (src : src_item) : bool :=
  match src with
  | SrcInt i => (0 <=? i) && (i <=? 0x10FFFF)
  | SrcStr s =>
      match comprehension int16 (split HYPHEN s) with
      | OK [first; last] =>
          (last <? first) || ((0 <=? first) && (last <=? 0x10FFFF))
      | _ => false
      end
  end.

(** The value of a string of hexadecimal digits, as the specification
    reads a range endpoint: one digit at least and nothing but digits. *)
Fixpoint hex_digits_value (acc : Z) (s : pystr) : option Z :=
  match s with
  | [] => Some acc
  | c :: r =>
      match hex_digit c with
      | Some d => hex_digits_value (16 * acc + d) r
      | None => None
      end
  end.

Definition hex_value (s : pystr) : option Z :=
  match s with
  | [] => None
  | _ => hex_digits_value 0 s
  end.

(** The code points from [a] to [b], both included, in ascending order. *)
Definition codepoints (a b : Z) : pystr :=
  map (fun k => a + Z.of_nat k) (seq 0 (Z.to_nat (b - a + 1))).

(** A valid declaration and the inclusive interval of code points it
    declares: a representable single code point, or a range string made of
    two hexadecimal integers in order around one hyphen. *)
Inductive declares : src_item -> Z -> Z -> Prop :=
| declares_single (c : Z) :
    0 <= c <= 0x10FFFF -> declares (SrcInt c) c c
| declares_range (a b : pystr) (A B : Z) :
    hex_value a = Some A -> hex_value b = Some B ->
    A <= B -> B <= 0x10FFFF ->
    declares (SrcStr (a ++ HYPHEN :: b)) A B.

(** The expansion the specification gives for a list of intervals, and
    its length. *)
Definition expansion (bounds : list (Z * Z)) : pystr :=
  flat_map (fun ab => codepoints (fst ab) (snd ab)) bounds.

Definition expansion_length (bounds : list (Z * Z)) : Z :=
  fold_right (fun ab n => (snd ab - fst ab + 1) + n) 0 bounds.

(** A declaration on which the expander raises. *)
Inductive bad_item : src_item -> Prop :=
| bad_single (i : Z) :
    i < 0 \/ 0x10FFFF < i -> bad_item (SrcInt i)
| bad_pieces (s : pystr) :
    length (split HYPHEN s) <> 2%nat -> bad_item (SrcStr s)
| bad_integer (s p : pystr) :
    In p (split HYPHEN s) -> int16 p = Err ValueError -> bad_item (SrcStr s)
| bad_codepoint (s a b : pystr) (first last : Z) :
    split HYPHEN s = [a; b] -> int16 a = OK first -> int16 b = OK last ->
    first <= last -> first < 0 \/ 0x10FFFF < last ->
    bad_item (SrcStr s).

(** The string of a category declaration list; empty if the expander
    raises on it. *)
Definition category_string (v : list src_item) : pystr :=
  match _unicode_def_src_to_str v with
  | OK s => s
  | Err _ => []
  end.

(** The dictionary with the keys of [l], in order, and the values of [l]
    under [g]. *)
Definition mapped {V W : Type} (g : V -> W) (l : list (pystr * V)) : dict W :=
  map (fun kv => (fst kv, g (snd kv))) l.

(** The characters that the escape functions replace. *)
Definition is_special (c : char) : bool :=
  (c =? BACKSLASH) || (c =? LF) || (c =? CR).

Definition is_special_tabs (c : char) : bool :=
  is_special c || (c =? TAB).

(** What [unescape_newlines] makes of a TAB escaped by
    [escape_tabs_newlines]: the letter t. *)
Definition tab_to_t (c : char) : char := if c =? TAB then 116 else c.

(** The endpoints that one round of the expander's loop reads from a
    declaration: an integer is its own first and last code point; a range
    string gives the two integers of its two pieces. *)
Definition item_bounds (src : src_item) : option (Z * Z) :=
  match src with
  | SrcInt i => Some (i, i)
  | SrcStr s =>
      match comprehension int16 (split HYPHEN s) with
      | OK [first; last] => Some (first, last)
      | _ => None
      end
  end.

(** The characters of a declaration: the code points between its
    endpoints, none when the endpoints are inverted or unreadable. *)
Definition item_string (src : src_item) : pystr :=
  match item_bounds src with
  | Some (first, last) => codepoints first last
  | None => []
  end.

(** A declaration covers a code point that lies between its endpoints. *)
Definition covers (c : Z) (src : src_item) : Prop :=
  exists first last, item_bounds src = Some (first, last) /\ first <= c <= last.

(** A check that the declarations of a list are representable, in order
    and strictly above [lo] and above one another. *)
Fixpoint ascending_from (lo : Z) (l : list src_item) : bool :=
  match l with
  | [] => true
  | src :: r =>
      match item_bounds src with
      | Some (first, last) =>
          (lo <? first) && (first <=? last) && (last <=? 0x10FFFF)
          && ascending_from last r
      | None => false
      end
  end.

(** The exception [chr] raises on an integer that is no code point:
    [OverflowError] when the integer does not fit a C [int], [ValueError]
    otherwise. *)
Definition chr_exception (i : Z) : exn :=
  if (i <? -2147483648) || (2147483647 <? i) then OverflowError
  else ValueError.

(** The string that [int] parses: the argument if it is ASCII, its
    transform otherwise. *)
Definition ascii_form (x : pystr) : pystr :=
  if is_ascii x then x else transform_decimal_and_space x.

(** The three stages of [int16] after leading white space. *)
Definition parse_sign (s : pystr) : Z * pystr :=
  match s with
  | c :: r =>
      if c =? 43 then (1, r)
      else if c =? 45 then (-1, r)
      else (1, s)
  | [] => (1, s)
  end.

Definition strip_prefix (s : pystr) : pystr :=
  match s with
  | c0 :: c1 :: r =>
      if (c0 =? 48) && ((c1 =? 120) || (c1 =? 88)) then
        match r with
        | c2 :: r' => if c2 =? 95 then r' else r
        | [] => r
        end
      else s
  | _ => s
  end.

Definition parse_digits (sign : Z) (s : pystr) : result Z :=
  match s with
  | [] => Err ValueError
  | c :: _ =>
      if c =? 95 then Err ValueError
      else
        match scan_digits false None s with
        | Some (Some v, rest) =>
            match skip_spaces rest with
            | [] => OK (sign * v)
            | _ => Err ValueError
            end
        | _ => Err ValueError
        end
  end.

(** The grammar of an integer literal in base 16, on an ASCII string.
    After a first digit, [more_digits acc s v]: [s] is a sequence of
    digits, each possibly preceded by one underscore, and [v] is the value
    of the digits read after [acc]. *)
Inductive more_digits : Z -> pystr -> Z -> Prop :=
| more_end (acc : Z) : more_digits acc [] acc
| more_digit (acc : Z) (c : char) (d : Z) (s : pystr) (v : Z) :
    hex_digit c = Some d -> more_digits (16 * acc + d) s v ->
    more_digits acc (c :: s) v
| more_underscore (acc : Z) (c : char) (d : Z) (s : pystr) (v : Z) :
    hex_digit c = Some d -> more_digits (16 * acc + d) s v ->
    more_digits acc (95 :: c :: s) v.

(** An optional sign. *)
Inductive sign_of : pystr -> Z -> Prop :=
| sign_none : sign_of [] 1
| sign_plus : sign_of [43] 1
| sign_minus : sign_of [45] (-1).

(** An optional prefix [0x] or [0X], possibly followed by one
    underscore. *)
Inductive prefix16 : pystr -> Prop :=
| prefix_none : prefix16 []
| prefix_0x (c : char) : c = 120 \/ c = 88 -> prefix16 [48; c]
| prefix_0x_underscore (c : char) : c = 120 \/ c = 88 -> prefix16 [48; c; 95].

(** White space, a sign, a prefix, a digit and more digits, white space:
    the literal and its value. *)
Inductive int_literal : pystr -> Z -> Prop :=
| int_literal_intro (ws1 sg pfx ds ws2 : pystr) (sign : Z) (c : char)
    (d v : Z) :
    Forall (fun x => Py_ISSPACE x = true) ws1 ->
    sign_of sg sign ->
    prefix16 pfx ->
    hex_digit c = Some d ->
    more_digits d ds v ->
    Forall (fun x => Py_ISSPACE x = true) ws2 ->
    int_literal (ws1 ++ sg ++ pfx ++ (c :: ds) ++ ws2) (sign * v).

(** A declaration on which the expander raises, with the exception it
    raises, in terms of the grammar of integer literals. *)
Inductive declaration_error : src_item -> exn -> Prop :=
| error_single (i : Z) :
    i < 0 \/ 0x10FFFF < i ->
    declaration_error (SrcInt i) (chr_exception i)
| error_pieces (s : pystr) :
    length (split HYPHEN s) <> 2%nat ->
    declaration_error (SrcStr s) ValueError
| error_literal (s p : pystr) :
    In p (split HYPHEN s) ->
    (forall v, ~ int_literal (ascii_form p) v) ->
    declaration_error (SrcStr s) ValueError
| error_codepoint (s a b : pystr) (first last : Z) :
    split HYPHEN s = [a; b] ->
    int_literal (ascii_form a) first ->
    int_literal (ascii_form b) last ->
    first <= last ->
    first < 0 \/ 0x10FFFF < last ->
    declaration_error (SrcStr s)
      (if (0 <=? first) && (first <=? 0x10FFFF) then ValueError
       else chr_exception first).

(** A call raises. *)
Definition raises {A : Type} (r : result A) : Prop := exists e, r = Err e.

(** * Properties *)

(** ** The result monad and the loops *)

Lemma bind_OK {A B : Type} (m : result A) (k : A -> result B) (b : B) :
  bind m k = OK b -> exists a, m = OK a /\ k a = OK b.
Proof.
  destruct m as [a | e]; simpl; intros H.
  - exists a. split; [reflexivity | exact H].
  - discriminate H.
Qed.

Lemma getitem_middle (pre suf : pystr) (c : char) :
  getitem (pre ++ c :: suf) (length pre) = OK c.
Proof.
  unfold getitem. rewrite nth_error_app2 by apply Nat.le_refl.
  rewrite Nat.sub_diag. reflexivity.
Qed.

Section IndexLoop.

Variable body : pystr -> nat -> unescape_state -> result unescape_state.
Variable step : unescape_state -> char -> unescape_state.
Hypothesis body_step :
  forall s i st, body s i st = (c <- getitem s i ;; OK (step st c)).

(** Running the loop over the indexes of the rest of the string is
    folding [step] over the rest of the string. *)
Lemma for_in_suffix (suf pre : pystr) (st : unescape_state) :
  for_in (body (pre ++ suf)) (seq (length pre) (length suf)) st
  = OK (fold_left step suf st).
Proof.
  revert pre st. induction suf as [| c suf IH]; intros pre st.
  - reflexivity.
  - simpl. rewrite body_step, getitem_middle. simpl.
    specialize (IH (pre ++ [c]) (step st c)).
    rewrite <- app_assoc in IH. simpl in IH.
    rewrite length_app, Nat.add_comm in IH. exact IH.
Qed.

Lemma for_in_indexes (s : pystr) (st : unescape_state) :
  for_in (body s) (range_len s) st = OK (fold_left step s st).
Proof. exact (for_in_suffix s [] st). Qed.

End IndexLoop.

Lemma unescape_newlines_body_step (s : pystr) (i : nat) (st : unescape_state) :
  unescape_newlines_body s i st
  = (c <- getitem s i ;; OK (unescape_newlines_step st c)).
Proof.
  destruct st as [d in_escape]. unfold unescape_newlines_body.
  destruct (getitem s i) as [c | e]; simpl; [| reflexivity].
  destruct in_escape.
  - destruct (c =? 114); [reflexivity |]. destruct (c =? 110); reflexivity.
  - destruct (c =? BACKSLASH); reflexivity.
Qed.

Lemma unescape_tabs_newlines_body_step (s : pystr) (i : nat)
  (st : unescape_state) :
  unescape_tabs_newlines_body s i st
  = (c <- getitem s i ;; OK (unescape_tabs_newlines_step st c)).
Proof.
  destruct st as [d in_escape]. unfold unescape_tabs_newlines_body.
  destruct (getitem s i) as [c | e]; simpl; [| reflexivity].
  destruct in_escape.
  - destruct (c =? 114); [reflexivity |]. destruct (c =? 110); [reflexivity |].
    destruct (c =? 116); reflexivity.
  - destruct (c =? BACKSLASH); reflexivity.
Qed.

Lemma unescape_newlines_loop_fold (s : pystr) :
  unescape_newlines_loop s = OK (fold_left unescape_newlines_step s ([], false)).
Proof.
  apply for_in_indexes. exact unescape_newlines_body_step.
Qed.

Lemma unescape_tabs_newlines_loop_fold (s : pystr) :
  unescape_tabs_newlines_loop s
  = OK (fold_left unescape_tabs_newlines_step s ([], false)).
Proof.
  apply for_in_indexes. exact unescape_tabs_newlines_body_step.
Qed.

Lemma unescape_newlines_fold (s : pystr) :
  unescape_newlines s
  = OK (fst (fold_left unescape_newlines_step s ([], false))).
Proof.
  unfold unescape_newlines. destruct s as [| c s]; [reflexivity |].
  cbn [not_]. rewrite unescape_newlines_loop_fold. cbn [bind].
  destruct (fold_left _ _ _); reflexivity.
Qed.

Lemma unescape_tabs_newlines_fold (s : pystr) :
  unescape_tabs_newlines s
  = OK (fst (fold_left unescape_tabs_newlines_step s ([], false))).
Proof.
  unfold unescape_tabs_newlines. destruct s as [| c s]; [reflexivity |].
  cbn [not_]. rewrite unescape_tabs_newlines_loop_fold. cbn [bind].
  destruct (fold_left _ _ _); reflexivity.
Qed.

(** ** Replacement, character by character *)

Lemma replace_app (old : char) (new s t : pystr) :
  replace old new (s ++ t) = replace old new s ++ replace old new t.
Proof. unfold replace. apply flat_map_app. Qed.

Lemma replace_flat_map (old : char) (new : pystr) (f : char -> pystr)
  (s : pystr) :
  replace old new (flat_map f s) = flat_map (fun c => replace old new (f c)) s.
Proof.
  induction s as [| c s IH]; [reflexivity |].
  simpl. rewrite replace_app, IH. reflexivity.
Qed.

Lemma replace_singletons (old : char) (new s : pystr) :
  replace old new s = flat_map (fun c => replace old new [c]) s.
Proof.
  unfold replace. apply flat_map_ext. intros c. simpl.
  rewrite app_nil_r. reflexivity.
Qed.

Lemma replace_absent (old : char) (new s : pystr) :
  ~ In old s -> replace old new s = s.
Proof.
  induction s as [| c s IH]; intros Hn; [reflexivity |].
  unfold replace in *. simpl.
  destruct (Z.eqb_spec c old) as [-> | _].
  - exfalso. apply Hn. left. reflexivity.
  - simpl. f_equal. apply IH. intros Hin. apply Hn. right. exact Hin.
Qed.

Lemma in_replace (old : char) (new s : pystr) (x : char) :
  In x (replace old new s) -> In x new \/ (In x s /\ x <> old).
Proof.
  unfold replace. rewrite in_flat_map. intros (c & Hc & Hx).
  destruct (Z.eqb_spec c old) as [-> | Hne].
  - left. exact Hx.
  - right. destruct Hx as [<- | []]. split; assumption.
Qed.

Lemma escape_newlines_flat_map (s : pystr) :
  escape_newlines s = flat_map escape_newlines_char s.
Proof.
  unfold escape_newlines. destruct s as [| c s]; [reflexivity |].
  cbn [not_]. cbv zeta.
  rewrite (replace_singletons BACKSLASH), 2 replace_flat_map. reflexivity.
Qed.

Lemma escape_tabs_newlines_flat_map (s : pystr) :
  escape_tabs_newlines s = flat_map escape_tabs_newlines_char s.
Proof.
  unfold escape_tabs_newlines. destruct s as [| c s]; [reflexivity |].
  cbn [not_]. cbv zeta.
  rewrite (replace_singletons BACKSLASH), 3 replace_flat_map. reflexivity.
Qed.

(** The escape of one character, case by case. *)
Lemma escape_newlines_char_cases (c : char) :
  escape_newlines_char c =
    if c =? BACKSLASH then [BACKSLASH; BACKSLASH]
    else if c =? LF then [BACKSLASH; 110]
    else if c =? CR then [BACKSLASH; 114]
    else [c].
Proof.
  unfold escape_newlines_char, replace, BACKSLASH, LF, CR. simpl.
  destruct (Z.eqb_spec c 92) as [-> | H1]; [reflexivity |].
  simpl. destruct (Z.eqb_spec c 10) as [-> | H2]; [reflexivity |].
  simpl. destruct (Z.eqb_spec c 13) as [-> | H3]; reflexivity.
Qed.

Lemma escape_tabs_newlines_char_cases (c : char) :
  escape_tabs_newlines_char c =
    if c =? BACKSLASH then [BACKSLASH; BACKSLASH]
    else if c =? LF then [BACKSLASH; 110]
    else if c =? CR then [BACKSLASH; 114]
    else if c =? TAB then [BACKSLASH; 116]
    else [c].
Proof.
  unfold escape_tabs_newlines_char. rewrite escape_newlines_char_cases.
  unfold replace, BACKSLASH, LF, CR, TAB.
  destruct (Z.eqb_spec c 92) as [-> | H1]; [reflexivity |].
  destruct (Z.eqb_spec c 10) as [-> | H2]; [reflexivity |].
  destruct (Z.eqb_spec c 13) as [-> | H3]; [reflexivity |].
  simpl. destruct (Z.eqb_spec c 9) as [-> | H4]; reflexivity.
Qed.

(** ** Decoding an escaped character gives the character back *)

Lemma unescape_newlines_step_char (c : char) (d rest : pystr) :
  fold_left unescape_newlines_step (escape_newlines_char c ++ rest) (d, false)
  = fold_left unescape_newlines_step rest (d ++ [c], false).
Proof.
  rewrite escape_newlines_char_cases. unfold BACKSLASH, LF, CR.
  destruct (Z.eqb_spec c 92) as [-> | H1]; [reflexivity |].
  destruct (Z.eqb_spec c 10) as [-> | H2]; [reflexivity |].
  destruct (Z.eqb_spec c 13) as [-> | H3]; [reflexivity |].
  simpl. unfold BACKSLASH. destruct (Z.eqb_spec c 92); [lia | reflexivity].
Qed.

Lemma unescape_tabs_newlines_step_char (c : char) (d rest : pystr) :
  fold_left unescape_tabs_newlines_step
    (escape_tabs_newlines_char c ++ rest) (d, false)
  = fold_left unescape_tabs_newlines_step rest (d ++ [c], false).
Proof.
  rewrite escape_tabs_newlines_char_cases. unfold BACKSLASH, LF, CR, TAB.
  destruct (Z.eqb_spec c 92) as [-> | H1]; [reflexivity |].
  destruct (Z.eqb_spec c 10) as [-> | H2]; [reflexivity |].
  destruct (Z.eqb_spec c 13) as [-> | H3]; [reflexivity |].
  destruct (Z.eqb_spec c 9) as [-> | H4]; [reflexivity |].
  simpl. unfold BACKSLASH. destruct (Z.eqb_spec c 92); [lia | reflexivity].
Qed.

Lemma unescape_newlines_escaped (s d : pystr) :
  fold_left unescape_newlines_step (flat_map escape_newlines_char s) (d, false)
  = (d ++ s, false).
Proof.
  revert d. induction s as [| c s IH]; intros d.
  - simpl. rewrite app_nil_r. reflexivity.
  - simpl. rewrite unescape_newlines_step_char, IH, <- app_assoc. reflexivity.
Qed.

Lemma unescape_tabs_newlines_escaped (s d : pystr) :
  fold_left unescape_tabs_newlines_step
    (flat_map escape_tabs_newlines_char s) (d, false)
  = (d ++ s, false).
Proof.
  revert d. induction s as [| c s IH]; intros d.
  - simpl. rewrite app_nil_r. reflexivity.
  - simpl. rewrite unescape_tabs_newlines_step_char, IH, <- app_assoc.
    reflexivity.
Qed.

(** C1. Round trip: for every string [s], unescaping the escape of [s]
    returns [s], for [escape_newlines] with [unescape_newlines] and for
    [escape_tabs_newlines] with [unescape_tabs_newlines]. *)
Theorem escape_unescape_round_trip (s : pystr) :
  unescape_newlines (escape_newlines s) = OK s
  /\ unescape_tabs_newlines (escape_tabs_newlines s) = OK s.
Proof.
  split.
  - rewrite unescape_newlines_fold, escape_newlines_flat_map,
      unescape_newlines_escaped. reflexivity.
  - rewrite unescape_tabs_newlines_fold, escape_tabs_newlines_flat_map,
      unescape_tabs_newlines_escaped. reflexivity.
Qed.

(** ** No raw control character in the output *)

Lemma escape_newlines_char_safe (c x : char) :
  In x (escape_newlines_char c) -> x <> LF /\ x <> CR.
Proof.
  rewrite escape_newlines_char_cases. unfold BACKSLASH, LF, CR.
  destruct (Z.eqb_spec c 92); [simpl; lia |].
  destruct (Z.eqb_spec c 10); [simpl; lia |].
  destruct (Z.eqb_spec c 13); simpl; lia.
Qed.

Lemma escape_tabs_newlines_char_safe (c x : char) :
  In x (escape_tabs_newlines_char c) -> x <> LF /\ x <> CR /\ x <> TAB.
Proof.
  rewrite escape_tabs_newlines_char_cases. unfold BACKSLASH, LF, CR, TAB.
  destruct (Z.eqb_spec c 92); [simpl; lia |].
  destruct (Z.eqb_spec c 10); [simpl; lia |].
  destruct (Z.eqb_spec c 13); [simpl; lia |].
  destruct (Z.eqb_spec c 9); simpl; lia.
Qed.

(** C5. For every string [s], [escape_newlines s] contains no raw LF and
    no raw CR, and [escape_tabs_newlines s] contains no raw LF, CR or
    TAB. *)
Theorem escape_output_has_no_raw_control (s : pystr) :
  (~ In LF (escape_newlines s) /\ ~ In CR (escape_newlines s))
  /\ (~ In LF (escape_tabs_newlines s)
      /\ ~ In CR (escape_tabs_newlines s)
      /\ ~ In TAB (escape_tabs_newlines s)).
Proof.
  rewrite escape_newlines_flat_map, escape_tabs_newlines_flat_map.
  repeat split; intros Hin; apply in_flat_map in Hin;
    destruct Hin as (c & _ & Hx).
  - apply escape_newlines_char_safe in Hx. tauto.
  - apply escape_newlines_char_safe in Hx. tauto.
  - apply escape_tabs_newlines_char_safe in Hx. tauto.
  - apply escape_tabs_newlines_char_safe in Hx. tauto.
  - apply escape_tabs_newlines_char_safe in Hx. tauto.
Qed.

(** ** Strings that need no escaping *)

(** C9. [escape_newlines s = s] when [s] contains no backslash, LF or CR;
    [escape_tabs_newlines s = s] when [s] contains no TAB either; and the
    empty string is returned as it is by [escape_newlines] and by
    [unescape_newlines]. *)
Theorem escape_identity_without_special (s : pystr) :
  (~ In BACKSLASH s -> ~ In LF s -> ~ In CR s -> escape_newlines s = s)
  /\ (~ In BACKSLASH s -> ~ In LF s -> ~ In CR s -> ~ In TAB s ->
      escape_tabs_newlines s = s)
  /\ escape_newlines [] = []
  /\ unescape_newlines [] = OK [].
Proof.
  repeat split; try reflexivity.
  - intros Hb Hn Hr. unfold escape_newlines.
    destruct (not_ s); [reflexivity |]. cbv zeta.
    rewrite (replace_absent BACKSLASH) by assumption.
    rewrite (replace_absent LF) by assumption.
    apply replace_absent. assumption.
  - intros Hb Hn Hr Ht. unfold escape_tabs_newlines.
    destruct (not_ s); [reflexivity |]. cbv zeta.
    rewrite (replace_absent BACKSLASH) by assumption.
    rewrite (replace_absent LF) by assumption.
    rewrite (replace_absent CR) by assumption.
    apply replace_absent. assumption.
Qed.

Lemma escape_identity_without_special_witness :
  escape_newlines [97; TAB; 98] = [97; TAB; 98]
  /\ escape_tabs_newlines (py "a b") = py "a b".
Proof.
  split.
  - apply (proj1 (escape_identity_without_special [97; TAB; 98]));
      simpl; unfold BACKSLASH, LF, CR, TAB; lia.
  - apply (proj1 (proj2 (escape_identity_without_special (py "a b"))));
      simpl; unfold BACKSLASH, LF, CR, TAB; lia.
Defined.

(** ** A trailing backslash *)

Section TrailingBackslash.

Variable step : unescape_state -> char -> unescape_state.
Hypothesis step_escape :
  forall st c, snd (step st c) = true ->
               c = BACKSLASH /\ st = (fst (step st c), false).

(** A scan ends in escape state only on a string whose last character
    is a backslash read in normal state, and that backslash leaves the
    destination string as it was. *)
Lemma scan_ends_in_escape (s d : pystr) :
  fold_left step s ([], false) = (d, true) ->
  exists s', s = s' ++ [BACKSLASH]
             /\ fold_left step s' ([], false) = (d, false).
Proof.
  pattern s. apply rev_ind; clear s.
  - intros H. discriminate H.
  - intros c s' _ H. rewrite fold_left_app in H. simpl in H.
    destruct (step_escape (fold_left step s' ([], false)) c) as [-> Hst].
    + rewrite H. reflexivity.
    + exists s'. split; [reflexivity |]. rewrite Hst, H. reflexivity.
Qed.

End TrailingBackslash.

Lemma unescape_newlines_step_escape (st : unescape_state) (c : char) :
  snd (unescape_newlines_step st c) = true ->
  c = BACKSLASH /\ st = (fst (unescape_newlines_step st c), false).
Proof.
  destruct st as [d [|]]; simpl.
  - destruct (c =? 114); [discriminate |].
    destruct (c =? 110); discriminate.
  - destruct (Z.eqb_spec c BACKSLASH); [| discriminate].
    intros _. split; [assumption | reflexivity].
Qed.

Lemma unescape_tabs_newlines_step_escape (st : unescape_state) (c : char) :
  snd (unescape_tabs_newlines_step st c) = true ->
  c = BACKSLASH /\ st = (fst (unescape_tabs_newlines_step st c), false).
Proof.
  destruct st as [d [|]]; simpl.
  - destruct (c =? 114); [discriminate |].
    destruct (c =? 110); [discriminate |].
    destruct (c =? 116); discriminate.
  - destruct (Z.eqb_spec c BACKSLASH); [| discriminate].
    intros _. split; [assumption | reflexivity].
Qed.

(** C6. When the scan of the input ends in escape state, the input ends
    with a backslash that was read in normal state; the result is the
    destination string built before that backslash, the same as for the
    input without it, and no exception is raised.  So
    [unescape_newlines] of [abc] followed by one backslash is [abc].
    Neither unescape function raises on any input. *)
Theorem unescape_drops_trailing_backslash :
  (forall s d, unescape_newlines_loop s = OK (d, true) ->
     exists s', s = s' ++ [BACKSLASH]
                /\ unescape_newlines_loop s' = OK (d, false)
                /\ unescape_newlines s = OK d
                /\ unescape_newlines s' = OK d)
  /\ (forall s d, unescape_tabs_newlines_loop s = OK (d, true) ->
     exists s', s = s' ++ [BACKSLASH]
                /\ unescape_tabs_newlines_loop s' = OK (d, false)
                /\ unescape_tabs_newlines s = OK d
                /\ unescape_tabs_newlines s' = OK d)
  /\ unescape_newlines (py "abc\") = OK (py "abc")
  /\ (forall s, exists d, unescape_newlines s = OK d)
  /\ (forall s, exists d, unescape_tabs_newlines s = OK d).
Proof.
  split; [| split; [| split; [| split]]].
  - intros s d H. rewrite unescape_newlines_loop_fold in H.
    injection H as H.
    destruct (scan_ends_in_escape _ unescape_newlines_step_escape s d H)
      as (s' & -> & Hs').
    exists s'. rewrite unescape_newlines_loop_fold, !unescape_newlines_fold.
    rewrite H, Hs'. repeat split.
  - intros s d H. rewrite unescape_tabs_newlines_loop_fold in H.
    injection H as H.
    destruct (scan_ends_in_escape _ unescape_tabs_newlines_step_escape s d H)
      as (s' & -> & Hs').
    exists s'.
    rewrite unescape_tabs_newlines_loop_fold, !unescape_tabs_newlines_fold.
    rewrite H, Hs'. repeat split.
  - reflexivity.
  - intros s. rewrite unescape_newlines_fold. eexists. reflexivity.
  - intros s. rewrite unescape_tabs_newlines_fold. eexists. reflexivity.
Qed.

Lemma unescape_drops_trailing_backslash_witness :
  (unescape_newlines_loop (py "ab\n\") = OK (py "ab" ++ [LF], true)
   /\ exists s', py "ab\n\" = s' ++ [BACKSLASH]
                 /\ unescape_newlines_loop s' = OK (py "ab" ++ [LF], false)
                 /\ unescape_newlines (py "ab\n\") = OK (py "ab" ++ [LF])
                 /\ unescape_newlines s' = OK (py "ab" ++ [LF]))
  /\ (unescape_tabs_newlines_loop (py "a\tb\") = OK ([97; TAB; 98], true)
      /\ exists s', py "a\tb\" = s' ++ [BACKSLASH]
                    /\ unescape_tabs_newlines_loop s' = OK ([97; TAB; 98], false)
                    /\ unescape_tabs_newlines (py "a\tb\") = OK [97; TAB; 98]
                    /\ unescape_tabs_newlines s' = OK [97; TAB; 98]).
Proof.
  split; (split; [reflexivity |]).
  - apply (proj1 unescape_drops_trailing_backslash). reflexivity.
  - apply (proj1 (proj2 unescape_drops_trailing_backslash)). reflexivity.
Defined.

(** ** Comprehensions *)

Section Comprehension.

Context {A B : Type}.
Variable f : A -> result B.

Lemma comprehension_total (g : A -> B) (l : list A) :
  (forall x, In x l -> f x = OK (g x)) -> comprehension f l = OK (map g l).
Proof.
  induction l as [| x l IH]; intros H; [reflexivity |].
  simpl. rewrite (H x) by (left; reflexivity). simpl.
  rewrite IH by (intros y Hy; apply H; right; exact Hy). reflexivity.
Qed.

Lemma comprehension_OK (l : list A) (ys : list B) :
  comprehension f l = OK ys -> Forall2 (fun x y => f x = OK y) l ys.
Proof.
  revert ys. induction l as [| x l IH]; intros ys H; simpl in H.
  - injection H as <-. constructor.
  - apply bind_OK in H. destruct H as (y & Hy & H).
    apply bind_OK in H. destruct H as (ys' & Hys & H).
    injection H as <-. constructor; [exact Hy | apply IH; exact Hys].
Qed.

Lemma comprehension_raises (l : list A) :
  raises (comprehension f l) <-> Exists (fun x => raises (f x)) l.
Proof.
  induction l as [| x l IH]; simpl.
  - split; [intros [e H]; discriminate H | intros H; inversion H].
  - rewrite Exists_cons, <- IH. unfold raises.
    destruct (f x) as [y | e]; simpl.
    + destruct (comprehension f l) as [ys | e]; simpl.
      * split; [intros [e H]; discriminate H |].
        intros [[e H] | [e H]]; discriminate H.
      * split; [intros _; right; exists e; reflexivity |].
        intros _. exists e. reflexivity.
    + split; [intros _; left; exists e; reflexivity |].
      intros _. exists e. reflexivity.
Qed.

End Comprehension.

Lemma result_cases {A : Type} (r : result A) : (exists a, r = OK a) \/ raises r.
Proof.
  destruct r as [a | e]; [left; exists a | right; exists e]; reflexivity.
Qed.

Lemma raises_not_OK {A : Type} (r : result A) (a : A) :
  raises r -> r <> OK a.
Proof. intros [e ->]. discriminate. Qed.

(** ** [chr] and [range] *)

Lemma chr_representable (i : Z) : 0 <= i <= 0x10FFFF -> chr i = OK [i].
Proof.
  intros H. unfold chr.
  destruct (Z.ltb_spec i (-2147483648)); [lia |].
  destruct (Z.ltb_spec 2147483647 i); [lia |].
  destruct (Z.ltb_spec i 0); [lia |].
  destruct (Z.ltb_spec 0x10FFFF i); [lia | reflexivity].
Qed.

Lemma chr_raises (i : Z) : raises (chr i) <-> i < 0 \/ 0x10FFFF < i.
Proof.
  unfold raises, chr.
  destruct (Z.ltb_spec i (-2147483648)); simpl.
  - split; [lia | intros _; eexists; reflexivity].
  - destruct (Z.ltb_spec 2147483647 i); simpl.
    + split; [lia | intros _; eexists; reflexivity].
    + destruct (Z.ltb_spec i 0); simpl.
      * split; [lia | intros _; eexists; reflexivity].
      * destruct (Z.ltb_spec 0x10FFFF i); simpl.
        -- split; [lia | intros _; eexists; reflexivity].
        -- split; [intros [e H']; discriminate H' | lia].
Qed.

Lemma range_from_map (n : nat) (lo : Z) :
  range_from n lo = map (fun k => lo + Z.of_nat k) (seq 0 n).
Proof.
  revert lo. induction n as [| n IH]; intros lo; [reflexivity |].
  cbn [range_from seq map]. rewrite Z.add_0_r. f_equal.
  rewrite IH, <- seq_shift, map_map. apply map_ext. intros k. lia.
Qed.

Lemma range_codepoints (a b : Z) : range a (b + 1) = codepoints a b.
Proof.
  unfold range, codepoints.
  replace (b + 1 - a) with (b - a + 1) by lia. apply range_from_map.
Qed.

Lemma in_codepoints (a b x : Z) : In x (codepoints a b) <-> a <= x <= b.
Proof.
  unfold codepoints. rewrite in_map_iff. split.
  - intros (k & <- & Hk). apply in_seq in Hk. lia.
  - intros H. exists (Z.to_nat (x - a)). split; [lia |].
    apply in_seq. lia.
Qed.

Lemma length_codepoints (a b : Z) :
  a <= b + 1 -> len (codepoints a b) = b - a + 1.
Proof.
  intros H. unfold len, codepoints. rewrite length_map, length_seq. lia.
Qed.

Lemma nth_codepoints (a b : Z) (k : nat) :
  a + Z.of_nat k <= b -> nth_error (codepoints a b) k = Some (a + Z.of_nat k).
Proof.
  intros H. unfold codepoints.
  rewrite nth_error_map, nth_error_seq.
  destruct (Nat.ltb_spec k (Z.to_nat (b - a + 1))); [reflexivity | lia].
Qed.

Lemma comprehension_chr_codepoints (a b : Z) :
  0 <= a -> b <= 0x10FFFF ->
  comprehension chr (codepoints a b) = OK (map (fun c => [c]) (codepoints a b)).
Proof.
  intros Ha Hb. apply comprehension_total. intros x Hx.
  apply in_codepoints in Hx. apply chr_representable. lia.
Qed.

Lemma join_singletons (s : pystr) : join (map (fun c => [c]) s) = s.
Proof.
  unfold join. induction s as [| c s IH]; [reflexivity |].
  simpl. rewrite IH. reflexivity.
Qed.

(** ** The expander, one element at a time *)

Lemma body_item_chars (src : src_item) (charlist : list pystr) :
  _unicode_def_src_to_str_body src charlist
  = (chars <- item_chars src ;; OK (charlist ++ chars)).
Proof.
  unfold item_chars. destruct src as [i | s]; simpl.
  - destruct (chr i); reflexivity.
  - destruct (comprehension int16 (split HYPHEN s)) as [ints | e]; simpl;
      [| reflexivity].
    destruct (unpack2 ints) as [[first last] | e]; simpl; [| reflexivity].
    destruct (comprehension chr (range first (last + 1))); reflexivity.
Qed.

Lemma for_in_item_chars (l : list src_item) (charlist : list pystr) :
  for_in _unicode_def_src_to_str_body l charlist
  = (css <- comprehension item_chars l ;; OK (charlist ++ concat css)).
Proof.
  revert charlist. induction l as [| src l IH]; intros charlist; simpl.
  - rewrite app_nil_r. reflexivity.
  - rewrite body_item_chars.
    destruct (item_chars src) as [cs | e]; simpl; [| reflexivity].
    rewrite IH.
    destruct (comprehension item_chars l) as [css | e]; simpl; [| reflexivity].
    rewrite app_assoc. reflexivity.
Qed.

Lemma expander_item_chars (l : list src_item) :
  _unicode_def_src_to_str l
  = (css <- comprehension item_chars l ;; OK (join (concat css))).
Proof.
  unfold _unicode_def_src_to_str. rewrite for_in_item_chars.
  destruct (comprehension item_chars l); reflexivity.
Qed.

Lemma expander_raises (l : list src_item) :
  raises (_unicode_def_src_to_str l)
  <-> Exists (fun src => raises (item_chars src)) l.
Proof.
  rewrite expander_item_chars, <- comprehension_raises. unfold raises.
  destruct (comprehension item_chars l) as [css | e]; simpl.
  - split; intros [e H]; discriminate H.
  - split; intros _; exists e; reflexivity.
Qed.

Lemma item_chars_single (c : Z) :
  0 <= c <= 0x10FFFF -> item_chars (SrcInt c) = OK [[c]].
Proof.
  intros H. unfold item_chars. simpl. rewrite chr_representable by exact H.
  reflexivity.
Qed.

Lemma item_chars_range (s a b : pystr) (first last : Z) :
  split HYPHEN s = [a; b] -> int16 a = OK first -> int16 b = OK last ->
  item_chars (SrcStr s) = comprehension chr (codepoints first last).
Proof.
  intros Hs Ha Hb. unfold item_chars. simpl. rewrite Hs. simpl.
  rewrite Ha, Hb. simpl. rewrite range_codepoints.
  destruct (comprehension chr (codepoints first last)); reflexivity.
Qed.

Lemma codepoints_inverted (a b : Z) : b < a -> codepoints a b = [].
Proof.
  intros H. unfold codepoints.
  replace (Z.to_nat (b - a + 1)) with 0%nat by lia. reflexivity.
Qed.

Lemma comprehension_length {A B : Type} (f : A -> result B) (l : list A)
  (ys : list B) :
  comprehension f l = OK ys -> length ys = length l.
Proof.
  intros H. apply comprehension_OK in H.
  symmetry. eapply Forall2_length. exact H.
Qed.

Lemma int16_error (p : pystr) : raises (int16 p) -> int16 p = Err ValueError.
Proof.
  intros [e H]. rewrite H. f_equal. revert H. unfold int16.
  repeat match goal with
         | |- context [match ?x with _ => _ end] => destruct x
         | |- context [if ?x then _ else _] => destruct x
         end; intros H; try discriminate H; injection H as <-; reflexivity.
Qed.

(** The declarations on which one round of the loop raises are the bad
    ones. *)
Lemma bad_item_raises (src : src_item) :
  bad_item src <-> raises (item_chars src).
Proof.
  split.
  - intros H. destruct H as [i H | s H | s p Hin Hp | s a b first last Hs Ha Hb Hle H].
    + unfold item_chars. simpl. apply chr_raises in H. destruct H as [e ->].
      exists e. reflexivity.
    + unfold item_chars. simpl.
      destruct (comprehension int16 (split HYPHEN s)) as [ints | e] eqn:E;
        simpl; [| exists e; reflexivity].
      apply comprehension_length in E.
      destruct ints as [| x [| y [| z r]]]; simpl;
        try (exists ValueError; reflexivity).
      exfalso. apply H. rewrite <- E. reflexivity.
    + unfold item_chars. simpl.
      assert (R : raises (comprehension int16 (split HYPHEN s))).
      { apply comprehension_raises, Exists_exists. exists p.
        split; [exact Hin | exists ValueError; exact Hp]. }
      destruct R as [e ->]. exists e. reflexivity.
    + rewrite (item_chars_range s a b first last) by assumption.
      apply comprehension_raises, Exists_exists. destruct H as [H | H].
      * exists first. split; [apply in_codepoints; lia |].
        apply chr_raises. lia.
      * exists last. split; [apply in_codepoints; lia |].
        apply chr_raises. lia.
  - destruct src as [i | s]; intros H.
    + apply bad_single, chr_raises. unfold item_chars in H. simpl in H.
      destruct (chr i) as [c | e]; [| exists e; reflexivity].
      destruct H as [e H]. discriminate H.
    + destruct (result_cases (comprehension int16 (split HYPHEN s)))
        as [[ints E] | R].
      * pose proof (comprehension_OK _ _ _ E) as F.
        pose proof (comprehension_length _ _ _ E) as L.
        destruct ints as [| first [| last [| z r]]];
          try (apply bad_pieces; rewrite <- L; simpl; lia).
        inversion F as [| a x l1 l1' Ha F1 Hl]; subst.
        inversion F1 as [| b y l2 l2' Hb F2 Hl']; subst.
        inversion F2; subst.
        rewrite (item_chars_range s a b first last) in H by (auto).
        apply comprehension_raises, Exists_exists in H.
        destruct H as (x & Hx & Hr).
        apply in_codepoints in Hx. apply chr_raises in Hr.
        apply (bad_codepoint s a b first last); auto; lia.
      * apply comprehension_raises, Exists_exists in R.
        destruct R as (p & Hin & Hr).
        apply (bad_integer s p); [exact Hin | apply int16_error; exact Hr].
Qed.

(** ** Range strings made of hexadecimal digits *)

Lemma hex_digit_char (c d : Z) :
  hex_digit c = Some d ->
  (48 <= c <= 57 \/ 65 <= c <= 70 \/ 97 <= c <= 102) /\ 0 <= d < 16.
Proof.
  unfold hex_digit.
  destruct (Z.leb_spec 48 c), (Z.leb_spec c 57),
    (Z.leb_spec 97 c), (Z.leb_spec c 102),
    (Z.leb_spec 65 c), (Z.leb_spec c 70); simpl;
    intros E; try discriminate E; injection E as <-; lia.
Qed.

Lemma hex_digits_value_chars (s : pystr) (acc v : Z) :
  hex_digits_value acc s = Some v ->
  Forall (fun c => 48 <= c <= 57 \/ 65 <= c <= 70 \/ 97 <= c <= 102) s.
Proof.
  revert acc. induction s as [| c s IH]; intros acc H; [constructor |].
  simpl in H. destruct (hex_digit c) as [d |] eqn:E; [| discriminate H].
  constructor; [apply (hex_digit_char c d E) | apply (IH _ H)].
Qed.

Lemma hex_digits_value_nonneg (s : pystr) (acc v : Z) :
  0 <= acc -> hex_digits_value acc s = Some v -> 0 <= v.
Proof.
  revert acc. induction s as [| c s IH]; intros acc Hacc H; simpl in H.
  - injection H as <-. exact Hacc.
  - destruct (hex_digit c) as [d |] eqn:E; [| discriminate H].
    apply hex_digit_char in E. apply (IH (16 * acc + d)); [lia | exact H].
Qed.

Lemma scan_hex_digits (s : pystr) (acc : option Z) (v : Z) :
  s <> [] ->
  hex_digits_value (match acc with Some a => a | None => 0 end) s = Some v ->
  scan_digits false acc s = Some (Some v, []).
Proof.
  revert acc. induction s as [| c s IH]; intros acc Hne H; [congruence |].
  simpl in H. destruct (hex_digit c) as [d |] eqn:E; [| discriminate H].
  cbn [scan_digits]. pose proof (hex_digit_char c d E) as [Hc _].
  destruct (Z.eqb_spec c 95); [lia |]. rewrite E.
  destruct s as [| c' s'].
  - simpl in H. injection H as <-. reflexivity.
  - apply IH; [discriminate | exact H].
Qed.

Lemma hex_char_tests (c : Z) :
  48 <= c <= 57 \/ 65 <= c <= 70 \/ 97 <= c <= 102 ->
  Py_ISSPACE c = false /\ (c =? 43) = false /\ (c =? 45) = false
  /\ (c =? 95) = false /\ (c =? 120) = false /\ (c =? 88) = false
  /\ (c <? 128) = true.
Proof.
  intros H. unfold Py_ISSPACE.
  destruct (Z.leb_spec 9 c), (Z.leb_spec c 13), (Z.eqb_spec c 32),
    (Z.eqb_spec c 43), (Z.eqb_spec c 45), (Z.eqb_spec c 95),
    (Z.eqb_spec c 120), (Z.eqb_spec c 88), (Z.ltb_spec c 128);
    simpl; repeat split; lia.
Qed.

(** [int(x, 16)] reads a string of hexadecimal digits as the
    specification does. *)
Lemma int16_hex_value (s : pystr) (v : Z) :
  hex_value s = Some v -> int16 s = OK v.
Proof.
  intros H. destruct s as [| c s]; [discriminate H |].
  unfold hex_value in H.
  pose proof (hex_digits_value_chars _ _ _ H) as F.
  assert (Hascii : is_ascii (c :: s) = true).
  { unfold is_ascii. apply forallb_forall. intros x Hx.
    rewrite Forall_forall in F. apply (hex_char_tests x (F x Hx)). }
  inversion F as [| c' s' Hc Fs]; subst.
  destruct (hex_char_tests c Hc) as (Hsp & Hplus & Hminus & Hus & _).
  unfold int16. rewrite Hascii. cbn [skip_spaces]. rewrite Hsp, Hplus, Hminus.
  cbv beta iota zeta.
  assert (Hscan : scan_digits false None (c :: s) = Some (Some v, [])).
  { apply scan_hex_digits; [discriminate | exact H]. }
  destruct s as [| c1 r].
  - rewrite Hus, Hscan. cbn [skip_spaces]. rewrite Z.mul_1_l. reflexivity.
  - inversion Fs as [| c1' r' Hc1 _]; subst.
    destruct (hex_char_tests c1 Hc1) as (_ & _ & _ & _ & Hx & HX & _).
    rewrite Hx, HX, andb_false_r. cbv iota.
    rewrite Hus, Hscan. cbn [skip_spaces]. rewrite Z.mul_1_l. reflexivity.
Qed.

Lemma hex_value_nonneg (s : pystr) (v : Z) : hex_value s = Some v -> 0 <= v.
Proof.
  destruct s as [| c s]; [discriminate |]. unfold hex_value.
  apply hex_digits_value_nonneg. lia.
Qed.

Lemma hex_value_no_hyphen (s : pystr) (v : Z) :
  hex_value s = Some v -> ~ In HYPHEN s.
Proof.
  destruct s as [| c s]; [intros _ [] |]. unfold hex_value. intros H Hin.
  pose proof (hex_digits_value_chars _ _ _ H) as F.
  rewrite Forall_forall in F. specialize (F HYPHEN Hin).
  unfold HYPHEN in F. lia.
Qed.

Lemma split_no_separator (sep : char) (s : pystr) :
  ~ In sep s -> split sep s = [s].
Proof.
  induction s as [| c s IH]; intros H; [reflexivity |].
  simpl. destruct (Z.eqb_spec c sep) as [-> | _].
  - exfalso. apply H. left. reflexivity.
  - rewrite IH by (intros Hin; apply H; right; exact Hin). reflexivity.
Qed.

Lemma split_at_separator (sep : char) (a b : pystr) :
  ~ In sep a -> split sep (a ++ sep :: b) = a :: split sep b.
Proof.
  induction a as [| c a IH]; intros H.
  - simpl. rewrite Z.eqb_refl. reflexivity.
  - simpl. destruct (Z.eqb_spec c sep) as [-> | _].
    + exfalso. apply H. left. reflexivity.
    + rewrite IH by (intros Hin; apply H; right; exact Hin). reflexivity.
Qed.

Lemma split_range_string (a b : pystr) (A B : Z) :
  hex_value a = Some A -> hex_value b = Some B ->
  split HYPHEN (a ++ HYPHEN :: b) = [a; b].
Proof.
  intros Ha Hb.
  rewrite split_at_separator by (eapply hex_value_no_hyphen; exact Ha).
  rewrite split_no_separator by (eapply hex_value_no_hyphen; exact Hb).
  reflexivity.
Qed.

(** ** Expansion of valid declarations *)

Lemma codepoints_single (c : Z) : codepoints c c = [c].
Proof.
  unfold codepoints. replace (c - c + 1) with 1 by lia. simpl.
  rewrite Z.add_0_r. reflexivity.
Qed.

Lemma declares_item_chars (src : src_item) (A B : Z) :
  declares src A B ->
  item_chars src = OK (map (fun c => [c]) (codepoints A B)).
Proof.
  intros H. destruct H as [c Hc | a b A B Ha Hb Hle Hmax].
  - rewrite codepoints_single. apply item_chars_single. exact Hc.
  - rewrite (item_chars_range _ a b A B).
    + apply comprehension_chr_codepoints; [| exact Hmax].
      eapply hex_value_nonneg. exact Ha.
    + eapply split_range_string; eassumption.
    + apply int16_hex_value. exact Ha.
    + apply int16_hex_value. exact Hb.
Qed.

Lemma declares_ordered (src : src_item) (A B : Z) :
  declares src A B -> A <= B.
Proof. intros H. destruct H; lia. Qed.

Lemma expand_declared (l : list src_item) (bounds : list (Z * Z)) :
  Forall2 (fun src ab => declares src (fst ab) (snd ab)) l bounds ->
  _unicode_def_src_to_str l = OK (expansion bounds).
Proof.
  intros F. rewrite expander_item_chars.
  assert (H : exists css, comprehension item_chars l = OK css
                          /\ join (concat css) = expansion bounds).
  { induction F as [| src ab l bounds Hd F IH].
    - exists []. split; reflexivity.
    - destruct IH as (css & Hcss & Hj). simpl.
      rewrite (declares_item_chars _ _ _ Hd), Hcss. simpl.
      eexists. split; [reflexivity |].
      unfold join in *. simpl. rewrite concat_app, Hj.
      f_equal. apply join_singletons. }
  destruct H as (css & -> & Hj). simpl. rewrite Hj. reflexivity.
Qed.

Lemma expansion_len (l : list src_item) (bounds : list (Z * Z)) :
  Forall2 (fun src ab => declares src (fst ab) (snd ab)) l bounds ->
  len (expansion bounds) = expansion_length bounds.
Proof.
  intros F. induction F as [| src ab l bounds Hd F IH]; [reflexivity |].
  unfold expansion, len in *. simpl. rewrite length_app, Nat2Z.inj_add, IH.
  f_equal. apply length_codepoints. apply declares_ordered in Hd. lia.
Qed.

(** C4. For a list of valid declarations (a representable single code
    point, or a range string of two hexadecimal integers [A <= B] around
    one hyphen), the expander returns the concatenation, in list order, of
    the code points [A] to [B] in ascending order of each declaration (one
    code point for a single one), so its length is the sum of [B - A + 1]
    over the declarations.  The range [0041-0043] gives [ABC], the
    integer [0x61] gives [a], and the category Alphabetic has more than
    100,000 characters. *)
Theorem expand_valid_declarations :
  (forall l bounds,
     Forall2 (fun src ab => declares src (fst ab) (snd ab)) l bounds ->
     _unicode_def_src_to_str l = OK (expansion bounds)
     /\ len (expansion bounds) = expansion_length bounds)
  /\ _unicode_def_src_to_str [SrcStr (py "0041-0043")] = OK (py "ABC")
  /\ _unicode_def_src_to_str [SrcInt 0x61] = OK (py "a")
  /\ exists n, (s <- get_unicode_characters (py "Alphabetic") ;; OK (len s))
               = OK n /\ 100000 < n.
Proof.
  split; [| split; [| split]].
  - intros l bounds F. split.
    + apply expand_declared. exact F.
    + eapply expansion_len. exact F.
  - reflexivity.
  - reflexivity.
  - exists 118240. split; [vm_compute; reflexivity | lia].
Qed.

Lemma expand_valid_declarations_witness :
  _unicode_def_src_to_str [SrcInt 0x5F; SrcStr (py "0061" ++ HYPHEN :: py "0063")]
  = OK (expansion [(0x5F, 0x5F); (0x61, 0x63)])
  /\ len (expansion [(0x5F, 0x5F); (0x61, 0x63)])
     = expansion_length [(0x5F, 0x5F); (0x61, 0x63)].
Proof.
  apply (proj1 expand_valid_declarations).
  constructor; [| constructor; [| constructor]].
  - apply declares_single. simpl. lia.
  - apply declares_range; simpl; [reflexivity | reflexivity | lia | lia].
Defined.

(** ** Declarations on which the expander raises *)

Lemma comprehension_error {A B : Type} (f : A -> result B) (l : list A)
  (e : exn) :
  comprehension f l = Err e -> exists x, In x l /\ f x = Err e.
Proof.
  induction l as [| x l IH]; simpl; intros H; [discriminate H |].
  destruct (f x) as [y | e'] eqn:E; simpl in H.
  - destruct (comprehension f l) as [ys | e'']; simpl in H; [discriminate H |].
    injection H as ->. destruct IH as (x' & Hin & Hx'); [reflexivity |].
    exists x'. split; [right; exact Hin | exact Hx'].
  - injection H as ->. exists x. split; [left; reflexivity | exact E].
Qed.

Lemma inverted_range_chars (s a b : pystr) (first last : Z) :
  split HYPHEN s = [a; b] -> int16 a = OK first -> int16 b = OK last ->
  last < first -> item_chars (SrcStr s) = OK [].
Proof.
  intros Hs Ha Hb Hlt. rewrite (item_chars_range s a b first last) by assumption.
  rewrite codepoints_inverted by exact Hlt. reflexivity.
Qed.

(** ** Dictionaries *)

Lemma str_eqb_eq (a b : pystr) : str_eqb a b = true <-> a = b.
Proof.
  revert b. induction a as [| x a IH]; intros [| y b]; simpl;
    try (split; [discriminate | discriminate]); [tauto |].
  rewrite andb_true_iff, Z.eqb_eq, IH. split.
  - intros [-> ->]. reflexivity.
  - intros H. injection H as -> ->. split; reflexivity.
Qed.

Lemma str_eqb_neq (a b : pystr) : str_eqb a b = false <-> a <> b.
Proof.
  rewrite <- str_eqb_eq. destruct (str_eqb a b); split; congruence.
Qed.

Section Dict.

Context {V : Type}.

Lemma dict_getitem_absent (d : dict V) (k : pystr) :
  ~ In k (keys d) -> dict_getitem d k = Err (KeyError k).
Proof.
  induction d as [| [k' v] d IH]; intros H; [reflexivity |].
  simpl. destruct (str_eqb k' k) eqn:E.
  - apply str_eqb_eq in E. exfalso. apply H. left. exact E.
  - apply IH. intros Hin. apply H. right. exact Hin.
Qed.

Lemma dict_getitem_present (d : dict V) (k : pystr) :
  In k (keys d) -> exists v, dict_getitem d k = OK v.
Proof.
  induction d as [| [k' v] d IH]; intros H; [destruct H |].
  simpl. destruct (str_eqb k' k) eqn:E.
  - exists v. reflexivity.
  - apply IH. destruct H as [H | H]; [| exact H].
    apply str_eqb_neq in E. contradiction.
Qed.

Lemma dict_setitem_new (d : dict V) (k : pystr) (v : V) :
  ~ In k (keys d) -> dict_setitem k v d = d ++ [(k, v)].
Proof.
  induction d as [| [k' v'] d IH]; intros H; [reflexivity |].
  simpl. destruct (str_eqb k' k) eqn:E.
  - apply str_eqb_eq in E. exfalso. apply H. left. exact E.
  - rewrite IH by (intros Hin; apply H; right; exact Hin). reflexivity.
Qed.

End Dict.

Section DictComprehension.

Context {V W : Type}.
Variable f : V -> result W.
Variable g : V -> W.

Lemma keys_mapped (l : list (pystr * V)) : keys (mapped g l) = keys l.
Proof. unfold keys, mapped. rewrite map_map. reflexivity. Qed.

Lemma dict_getitem_mapped (l : dict V) (k : pystr) :
  dict_getitem (mapped g l) k = (v <- dict_getitem l k ;; OK (g v)).
Proof.
  induction l as [| [k' v] l IH]; [reflexivity |].
  simpl. destruct (str_eqb k' k); [reflexivity | exact IH].
Qed.

Lemma dict_comprehension_loop (l : list (pystr * V)) (d : dict W) :
  NoDup (keys d ++ keys l) ->
  (forall kv, In kv l -> f (snd kv) = OK (g (snd kv))) ->
  for_in (fun kv d => w <- f (snd kv) ;; OK (dict_setitem (fst kv) w d)) l d
  = OK (d ++ mapped g l).
Proof.
  revert d. induction l as [| [k v] l IH]; intros d Hnd Hf.
  - simpl. rewrite app_nil_r. reflexivity.
  - cbn [for_in]. rewrite (Hf (k, v)) by (left; reflexivity).
    cbn [bind fst snd].
    rewrite dict_setitem_new.
    + rewrite IH.
      * rewrite <- app_assoc. reflexivity.
      * unfold keys in *. rewrite map_app, <- app_assoc. exact Hnd.
      * intros kv Hin. apply Hf. right. exact Hin.
    + apply NoDup_remove_2 in Hnd. intros Hin. apply Hnd.
      apply in_or_app. left. exact Hin.
Qed.

Lemma dict_comprehension_mapped (l : list (pystr * V)) :
  NoDup (keys l) ->
  (forall kv, In kv l -> f (snd kv) = OK (g (snd kv))) ->
  dict_comprehension f l = OK (mapped g l).
Proof.
  intros Hnd Hf. unfold dict_comprehension.
  rewrite dict_comprehension_loop; [reflexivity | exact Hnd | exact Hf].
Qed.

End DictComprehension.

(** ** The category table *)

Lemma item_okb_sound (src : src_item) :
  item_okb src = true -> exists cs, item_chars src = OK cs.
Proof.
  destruct src as [i | s]; cbn [item_okb]; intros H.
  - exists [[i]]. apply item_chars_single. lia.
  - destruct (comprehension int16 (split HYPHEN s)) as [ints | e] eqn:E;
      [| discriminate H].
    destruct ints as [| first [| last [| z r]]]; try discriminate H.
    apply comprehension_OK in E.
    inversion E as [| a x l1 l1' Ha F1 Hl]; subst.
    inversion F1 as [| b y l2 l2' Hb F2 Hl']; subst.
    inversion F2; subst.
    rewrite (item_chars_range s a b first last) by auto.
    destruct (Z.ltb_spec last first) as [Hlt | Hge].
    + rewrite codepoints_inverted by exact Hlt. exists []. reflexivity.
    + simpl in H. eexists. apply comprehension_chr_codepoints; lia.
Qed.

Lemma items_okb_sound (l : list src_item) :
  forallb item_okb l = true ->
  _unicode_def_src_to_str l = OK (category_string l).
Proof.
  intros H. unfold category_string.
  destruct (result_cases (_unicode_def_src_to_str l)) as [[s ->] | R];
    [reflexivity |].
  exfalso. apply expander_raises, Exists_exists in R.
  destruct R as (src & Hin & [e He]).
  rewrite forallb_forall in H.
  destruct (item_okb_sound src (H src Hin)) as [cs Hcs]. congruence.
Qed.

Lemma table_is_display :
  _UNICODE_CATEGORY_SRC = CategoryTable.category_items.
Proof. vm_compute. reflexivity. Qed.

Lemma table_keys :
  keys _UNICODE_CATEGORY_SRC =
    [py "ASCII"; py "Alphabetic"; py "Any"; py "Default_Ignorable_Code_Point";
     py "Lowercase"; py "Noncharacter_Code_Point"; py "Uppercase";
     py "White_Space"; py "Latin"; py "Latin_Alphabetic"].
Proof. vm_compute. reflexivity. Qed.

Lemma table_keys_distinct : NoDup (keys _UNICODE_CATEGORY_SRC).
Proof.
  rewrite table_keys.
  repeat (constructor; [vm_compute; intuition discriminate |]).
  constructor.
Qed.

Lemma table_declarations_ok :
  forallb (fun kv => forallb item_okb (snd kv)) _UNICODE_CATEGORY_SRC = true.
Proof. vm_compute. reflexivity. Qed.

(** C3. For a name that is not a key of the category table,
    [get_unicode_characters] raises [KeyError] with that name and returns
    no string, the empty one included; so it does for [NotACategory]. *)
Theorem unknown_category_raises_KeyError :
  (forall name, ~ In name (keys _UNICODE_CATEGORY_SRC) ->
     get_unicode_characters name = Err (KeyError name)
     /\ forall s, get_unicode_characters name <> OK s)
  /\ get_unicode_characters (py "NotACategory")
     = Err (KeyError (py "NotACategory")).
Proof.
  split; [| reflexivity].
  intros name H. unfold get_unicode_characters.
  rewrite dict_getitem_absent by exact H. simpl.
  split; [reflexivity | discriminate].
Qed.

Lemma unknown_category_raises_KeyError_witness :
  get_unicode_characters (py "whitespace") = Err (KeyError (py "whitespace"))
  /\ forall s, get_unicode_characters (py "whitespace") <> OK s.
Proof.
  apply (proj1 unknown_category_raises_KeyError).
  rewrite table_keys. vm_compute. intuition discriminate.
Defined.

(** C7. The category ASCII has exactly 128 characters; the category
    White_Space contains the space character and does not contain the
    letter A. *)
Theorem ascii_and_white_space_categories :
  (s <- get_unicode_characters (py "ASCII") ;; OK (len s)) = OK 128
  /\ exists ws, get_unicode_characters (py "White_Space") = OK ws
                /\ In 0x20 ws /\ ~ In 0x41 ws.
Proof.
  split; [vm_compute; reflexivity |].
  eexists. split; [vm_compute; reflexivity |].
  split; [simpl; tauto | simpl; lia].
Qed.

(** ** The batch operation and the single lookup *)

Lemma table_category_string (kv : pystr * list src_item) :
  In kv (items _UNICODE_CATEGORY_SRC) ->
  _unicode_def_src_to_str (snd kv) = OK (category_string (snd kv)).
Proof.
  intros H. apply items_okb_sound.
  pose proof table_declarations_ok as T. rewrite forallb_forall in T.
  apply (T kv H).
Qed.

Lemma get_unicode_category_strings_mapped :
  get_unicode_category_strings
  = OK (mapped category_string _UNICODE_CATEGORY_SRC).
Proof.
  unfold get_unicode_category_strings.
  apply dict_comprehension_mapped.
  - exact table_keys_distinct.
  - exact table_category_string.
Qed.

(** C8. [get_unicode_category_strings] returns a dictionary with the keys
    of the category table, and its value at each key [k] is what
    [get_unicode_characters k] returns. *)
Theorem batch_agrees_with_single_lookup :
  exists m,
    get_unicode_category_strings = OK m
    /\ keys m = keys _UNICODE_CATEGORY_SRC
    /\ forall k, In k (keys _UNICODE_CATEGORY_SRC) ->
         exists v, dict_getitem m k = OK v
                   /\ get_unicode_characters k = OK v.
Proof.
  exists (mapped category_string _UNICODE_CATEGORY_SRC).
  split; [exact get_unicode_category_strings_mapped |].
  split; [apply keys_mapped |].
  intros k Hk. unfold get_unicode_characters.
  rewrite dict_getitem_mapped.
  destruct (dict_getitem_present _UNICODE_CATEGORY_SRC k Hk) as [v Hv].
  rewrite Hv. cbn [bind]. exists (category_string v).
  split; [reflexivity |].
  apply (table_category_string (k, v)).
  clear Hk. unfold items.
  induction _UNICODE_CATEGORY_SRC as [| [k' v'] d IH]; [discriminate Hv |].
  simpl in Hv. destruct (str_eqb k' k) eqn:E.
  - apply str_eqb_eq in E. injection Hv as ->. subst k'. left. reflexivity.
  - right. apply IH. exact Hv.
Qed.

Lemma batch_agrees_with_single_lookup_witness :
  exists m,
    get_unicode_category_strings = OK m
    /\ exists v, dict_getitem m (py "Latin") = OK v
                 /\ get_unicode_characters (py "Latin") = OK v.
Proof.
  destruct batch_agrees_with_single_lookup as (m & Hm & _ & H).
  exists m. split; [exact Hm |].
  apply H. rewrite table_keys. simpl. tauto.
Defined.

(** ** The category Any *)

Lemma any_declaration :
  dict_getitem _UNICODE_CATEGORY_SRC (py "Any") = OK [SrcStr (py "0000-10FFFF")].
Proof. vm_compute. reflexivity. Qed.

Lemma any_declares :
  declares (SrcStr (py "0000-10FFFF")) 0 0x10FFFF.
Proof.
  change (py "0000-10FFFF") with (py "0000" ++ HYPHEN :: py "10FFFF").
  apply declares_range; [reflexivity | reflexivity | lia | lia].
Qed.

(** C10. The category Any is declared as the one range [0000-10FFFF];
    [get_unicode_characters] returns for it the 1,114,112 code points
    from 0 to 0x10FFFF in ascending order, the surrogates 0xD800 to 0xDFFF
    included. *)
Theorem any_category_has_every_code_point :
  dict_getitem _UNICODE_CATEGORY_SRC (py "Any") = OK [SrcStr (py "0000-10FFFF")]
  /\ get_unicode_characters (py "Any") = OK (codepoints 0 0x10FFFF)
  /\ len (codepoints 0 0x10FFFF) = 1114112
  /\ (forall c, 0 <= c <= 0x10FFFF ->
        nth_error (codepoints 0 0x10FFFF) (Z.to_nat c) = Some c)
  /\ (forall c, 0xD800 <= c <= 0xDFFF -> In c (codepoints 0 0x10FFFF)).
Proof.
  split; [exact any_declaration |].
  split; [| split; [| split]].
  - unfold get_unicode_characters. rewrite any_declaration. cbn [bind].
    rewrite (expand_declared _ [(0, 0x10FFFF)]).
    + unfold expansion. cbn [flat_map fst snd]. rewrite app_nil_r. reflexivity.
    + constructor; [exact any_declares | constructor].
  - rewrite length_codepoints; lia.
  - intros c Hc. rewrite nth_codepoints; [f_equal; lia | lia].
  - intros c Hc. apply in_codepoints. lia.
Qed.

Lemma any_category_has_every_code_point_witness :
  nth_error (codepoints 0 0x10FFFF) (Z.to_nat 0xD800) = Some 0xD800
  /\ In 0xDFFF (codepoints 0 0x10FFFF).
Proof.
  split.
  - apply (proj1 (proj2 (proj2 (proj2 any_category_has_every_code_point)))).
    lia.
  - apply (proj2 (proj2 (proj2 (proj2 any_category_has_every_code_point)))).
    lia.
Defined.

(** * Further properties of the escape functions *)

(** X1. The successive replacements of [escape_newlines] amount to one
    pass that maps a backslash to two backslashes, LF to backslash n, CR to
    backslash r and any other character to itself; [escape_tabs_newlines]
    is the same pass with TAB mapped to backslash t.  No replacement
    re-escapes the output of an earlier one. *)
Theorem escape_is_one_pass (s : pystr) :
  escape_newlines s =
    flat_map (fun c => if c =? BACKSLASH then [BACKSLASH; BACKSLASH]
                       else if c =? LF then [BACKSLASH; 110]
                       else if c =? CR then [BACKSLASH; 114]
                       else [c]) s
  /\ escape_tabs_newlines s =
    flat_map (fun c => if c =? BACKSLASH then [BACKSLASH; BACKSLASH]
                       else if c =? LF then [BACKSLASH; 110]
                       else if c =? CR then [BACKSLASH; 114]
                       else if c =? TAB then [BACKSLASH; 116]
                       else [c]) s.
Proof.
  split.
  - rewrite escape_newlines_flat_map. apply flat_map_ext.
    exact escape_newlines_char_cases.
  - rewrite escape_tabs_newlines_flat_map. apply flat_map_ext.
    exact escape_tabs_newlines_char_cases.
Qed.

(** X2. Escaping distributes over concatenation: the escape of [s ++ t]
    is the escape of [s] followed by the escape of [t], for both escape
    functions. *)
Theorem escape_app (s t : pystr) :
  escape_newlines (s ++ t) = escape_newlines s ++ escape_newlines t
  /\ escape_tabs_newlines (s ++ t)
     = escape_tabs_newlines s ++ escape_tabs_newlines t.
Proof.
  rewrite !escape_newlines_flat_map, !escape_tabs_newlines_flat_map.
  split; apply flat_map_app.
Qed.

Lemma escape_newlines_char_length (c : char) :
  len (escape_newlines_char c) = if is_special c then 2 else 1.
Proof.
  rewrite escape_newlines_char_cases. unfold is_special.
  destruct (c =? BACKSLASH); [reflexivity |].
  destruct (c =? LF); [reflexivity |].
  destruct (c =? CR); reflexivity.
Qed.

Lemma escape_tabs_newlines_char_length (c : char) :
  len (escape_tabs_newlines_char c) = if is_special_tabs c then 2 else 1.
Proof.
  rewrite escape_tabs_newlines_char_cases. unfold is_special_tabs, is_special.
  destruct (c =? BACKSLASH); [reflexivity |].
  destruct (c =? LF); [reflexivity |].
  destruct (c =? CR); [reflexivity |].
  destruct (c =? TAB); reflexivity.
Qed.

Lemma len_app (s t : pystr) : len (s ++ t) = len s + len t.
Proof. unfold len. rewrite length_app. lia. Qed.

Lemma len_cons (c : char) (s : pystr) : len (c :: s) = 1 + len s.
Proof. unfold len. cbn [length]. lia. Qed.

Lemma len_nonneg (s : pystr) : 0 <= len s.
Proof. unfold len. lia. Qed.

Lemma len_flat_map_special (special : char -> bool) (f : char -> pystr)
  (s : pystr) :
  (forall c, len (f c) = if special c then 2 else 1) ->
  len (flat_map f s) = len s + len (filter special s).
Proof.
  intros Hf. induction s as [| c s IH]; [reflexivity |].
  cbn [flat_map filter]. rewrite len_app, Hf, IH, len_cons.
  destruct (special c); [rewrite len_cons |]; lia.
Qed.

Lemma len_filter_le (p : char -> bool) (s : pystr) : len (filter p s) <= len s.
Proof.
  induction s as [| c s IH]; [apply Z.le_refl |].
  cbn [filter]. destruct (p c); rewrite ?len_cons; lia.
Qed.

(** X3. The escape of [s] is longer than [s] by one character for each
    character that is escaped (backslash, LF, CR; TAB as well for the tab
    variant), so its length lies between the length of [s] and twice that
    length. *)
Theorem escape_length (s : pystr) :
  (len (escape_newlines s) = len s + len (filter is_special s)
   /\ len s <= len (escape_newlines s) <= 2 * len s)
  /\ (len (escape_tabs_newlines s) = len s + len (filter is_special_tabs s)
      /\ len s <= len (escape_tabs_newlines s) <= 2 * len s).
Proof.
  rewrite escape_newlines_flat_map, escape_tabs_newlines_flat_map.
  rewrite (len_flat_map_special is_special)
    by exact escape_newlines_char_length.
  rewrite (len_flat_map_special is_special_tabs)
    by exact escape_tabs_newlines_char_length.
  pose proof (len_filter_le is_special s).
  pose proof (len_filter_le is_special_tabs s).
  pose proof (len_nonneg (filter is_special s)).
  pose proof (len_nonneg (filter is_special_tabs s)).
  repeat split; lia.
Qed.

(** X4. Both escape functions are injective: two strings with the same
    escape are equal. *)
Theorem escape_injective (s t : pystr) :
  (escape_newlines s = escape_newlines t -> s = t)
  /\ (escape_tabs_newlines s = escape_tabs_newlines t -> s = t).
Proof.
  split; intros H.
  - assert (E : forall u, unescape_newlines (escape_newlines u) = OK u).
    { intros u. rewrite unescape_newlines_fold, escape_newlines_flat_map,
        unescape_newlines_escaped. reflexivity. }
    pose proof (E s) as Hs. rewrite H, E in Hs. congruence.
  - assert (E : forall u,
               unescape_tabs_newlines (escape_tabs_newlines u) = OK u).
    { intros u. rewrite unescape_tabs_newlines_fold,
        escape_tabs_newlines_flat_map, unescape_tabs_newlines_escaped.
      reflexivity. }
    pose proof (E s) as Hs. rewrite H, E in Hs. congruence.
Qed.

Lemma escape_injective_witness :
  [97; LF] ++ [BACKSLASH] = [97; LF; BACKSLASH]
  /\ [TAB] ++ [98] = [TAB; 98].
Proof.
  split.
  - apply (proj1 (escape_injective ([97; LF] ++ [BACKSLASH])
                    [97; LF; BACKSLASH])).
    reflexivity.
  - apply (proj2 (escape_injective ([TAB] ++ [98]) [TAB; 98])).
    reflexivity.
Defined.

Lemma filter_nil_not_in (p : char -> bool) (s : pystr) (x : char) :
  len (filter p s) = 0 -> p x = true -> ~ In x s.
Proof.
  induction s as [| c s IH]; intros H Hx Hin; [destruct Hin |].
  cbn [filter] in H. destruct (p c) eqn:E.
  - rewrite len_cons in H. pose proof (len_nonneg (filter p s)). lia.
  - destruct Hin as [-> | Hin]; [congruence | exact (IH H Hx Hin)].
Qed.

(** X5. [escape_newlines] returns its argument unchanged exactly when the
    argument has no backslash, LF or CR, and [escape_tabs_newlines]
    exactly when it has no TAB either. *)
Theorem escape_fixed_points (s : pystr) :
  (escape_newlines s = s
   <-> ~ In BACKSLASH s /\ ~ In LF s /\ ~ In CR s)
  /\ (escape_tabs_newlines s = s
      <-> ~ In BACKSLASH s /\ ~ In LF s /\ ~ In CR s /\ ~ In TAB s).
Proof.
  split; split.
  - intros H.
    assert (L : len (filter is_special s) = 0).
    { pose proof (len_flat_map_special is_special escape_newlines_char s
                    escape_newlines_char_length) as E.
      rewrite <- escape_newlines_flat_map, H in E. lia. }
    repeat split; apply (filter_nil_not_in is_special s _ L); reflexivity.
  - intros (Hb & Hn & Hr). unfold escape_newlines.
    destruct (not_ s); [reflexivity |]. cbv zeta.
    rewrite (replace_absent BACKSLASH) by assumption.
    rewrite (replace_absent LF) by assumption.
    apply replace_absent. assumption.
  - intros H.
    assert (L : len (filter is_special_tabs s) = 0).
    { pose proof (len_flat_map_special is_special_tabs
                    escape_tabs_newlines_char s
                    escape_tabs_newlines_char_length) as E.
      rewrite <- escape_tabs_newlines_flat_map, H in E. lia. }
    repeat split; apply (filter_nil_not_in is_special_tabs s _ L); reflexivity.
  - intros (Hb & Hn & Hr & Ht). unfold escape_tabs_newlines.
    destruct (not_ s); [reflexivity |]. cbv zeta.
    rewrite (replace_absent BACKSLASH) by assumption.
    rewrite (replace_absent LF) by assumption.
    rewrite (replace_absent CR) by assumption.
    apply replace_absent. assumption.
Qed.

Lemma escape_fixed_points_witness :
  (~ In BACKSLASH (py "a b") /\ ~ In LF (py "a b") /\ ~ In CR (py "a b"))
  /\ escape_tabs_newlines (py "a b") = py "a b".
Proof.
  split.
  - apply (proj1 (proj1 (escape_fixed_points (py "a b")))). reflexivity.
  - apply (proj2 (proj2 (escape_fixed_points (py "a b")))).
    simpl. unfold BACKSLASH, LF, CR, TAB. lia.
Defined.

(** * Further properties of the unescape functions *)

Lemma unescape_tabs_newlines_step_plain_char (c : char) (d rest : pystr) :
  fold_left unescape_tabs_newlines_step (escape_newlines_char c ++ rest)
    (d, false)
  = fold_left unescape_tabs_newlines_step rest (d ++ [c], false).
Proof.
  rewrite escape_newlines_char_cases. unfold BACKSLASH, LF, CR.
  destruct (Z.eqb_spec c 92) as [-> | H1]; [reflexivity |].
  destruct (Z.eqb_spec c 10) as [-> | H2]; [reflexivity |].
  destruct (Z.eqb_spec c 13) as [-> | H3]; [reflexivity |].
  simpl. unfold BACKSLASH. destruct (Z.eqb_spec c 92); [lia | reflexivity].
Qed.

Lemma unescape_newlines_step_tabs_char (c : char) (d rest : pystr) :
  fold_left unescape_newlines_step (escape_tabs_newlines_char c ++ rest)
    (d, false)
  = fold_left unescape_newlines_step rest (d ++ [tab_to_t c], false).
Proof.
  rewrite escape_tabs_newlines_char_cases. unfold tab_to_t, BACKSLASH, LF, CR, TAB.
  destruct (Z.eqb_spec c 92) as [-> | H1]; [reflexivity |].
  destruct (Z.eqb_spec c 10) as [-> | H2]; [reflexivity |].
  destruct (Z.eqb_spec c 13) as [-> | H3]; [reflexivity |].
  destruct (Z.eqb_spec c 9) as [-> | H4]; [reflexivity |].
  simpl. unfold BACKSLASH. destruct (Z.eqb_spec c 92); [lia | reflexivity].
Qed.

(** X6. [unescape_tabs_newlines] also reverses [escape_newlines]: for
    every string [s], decoding with the tab variant what the plain
    variant encoded returns [s]. *)
Theorem unescape_tabs_reverses_escape_newlines (s : pystr) :
  unescape_tabs_newlines (escape_newlines s) = OK s.
Proof.
  rewrite unescape_tabs_newlines_fold, escape_newlines_flat_map.
  assert (E : forall d,
    fold_left unescape_tabs_newlines_step (flat_map escape_newlines_char s)
      (d, false) = (d ++ s, false)).
  { induction s as [| c s IH]; intros d.
    - simpl. rewrite app_nil_r. reflexivity.
    - cbn [flat_map].
      rewrite unescape_tabs_newlines_step_plain_char, IH, <- app_assoc.
      reflexivity. }
  rewrite E. reflexivity.
Qed.

Lemma map_tab_to_t_fixed (s : pystr) : map tab_to_t s = s <-> ~ In TAB s.
Proof.
  induction s as [| c s IH]; [simpl; tauto |].
  cbn [map In]. unfold tab_to_t at 1. unfold TAB in *.
  destruct (Z.eqb_spec c 9) as [-> | Hc].
  - split; [intros H; injection H as H _; lia | intros H; tauto].
  - split.
    + intros H. injection H as H. rewrite IH in H. intros [E | E]; tauto.
    + intros H. f_equal. apply IH. tauto.
Qed.

(** X7. The two variants are not interchangeable the other way round:
    [unescape_newlines] applied to [escape_tabs_newlines s] returns [s]
    with every TAB replaced by the letter t, so it returns [s] exactly
    when [s] has no TAB. *)
Theorem unescape_newlines_of_escape_tabs (s : pystr) :
  unescape_newlines (escape_tabs_newlines s) = OK (map tab_to_t s)
  /\ (unescape_newlines (escape_tabs_newlines s) = OK s <-> ~ In TAB s).
Proof.
  assert (E : unescape_newlines (escape_tabs_newlines s) = OK (map tab_to_t s)).
  { rewrite unescape_newlines_fold, escape_tabs_newlines_flat_map.
    assert (F : forall d,
      fold_left unescape_newlines_step
        (flat_map escape_tabs_newlines_char s) (d, false)
      = (d ++ map tab_to_t s, false)).
    { induction s as [| c s IH]; intros d.
      - simpl. rewrite app_nil_r. reflexivity.
      - cbn [flat_map map].
        rewrite unescape_newlines_step_tabs_char, IH, <- app_assoc.
        reflexivity. }
    rewrite F. reflexivity. }
  split; [exact E |].
  rewrite E, <- map_tab_to_t_fixed.
  split; [intros H; injection H as H; exact H | intros ->; reflexivity].
Qed.

Lemma unescape_newlines_of_escape_tabs_witness :
  unescape_newlines (escape_tabs_newlines (py "a b")) = OK (py "a b")
  /\ ~ In TAB (py "a b").
Proof.
  split.
  - apply (proj2 (proj2 (unescape_newlines_of_escape_tabs (py "a b")))).
    simpl. unfold TAB. lia.
  - apply (proj1 (proj2 (unescape_newlines_of_escape_tabs (py "a b")))).
    reflexivity.
Defined.

Section NoBackslash.

Variable step : unescape_state -> char -> unescape_state.
Hypothesis step_plain :
  forall d c, c <> BACKSLASH -> step (d, false) c = (d ++ [c], false).

Lemma scan_without_backslash (s d : pystr) :
  ~ In BACKSLASH s -> fold_left step s (d, false) = (d ++ s, false).
Proof.
  revert d. induction s as [| c s IH]; intros d H.
  - simpl. rewrite app_nil_r. reflexivity.
  - cbn [fold_left]. rewrite step_plain.
    + rewrite IH, <- app_assoc; [reflexivity |].
      intros Hin. apply H. right. exact Hin.
    + intros ->. apply H. left. reflexivity.
Qed.

End NoBackslash.

Lemma unescape_newlines_step_plain (d : pystr) (c : char) :
  c <> BACKSLASH -> unescape_newlines_step (d, false) c = (d ++ [c], false).
Proof.
  intros H. simpl. destruct (Z.eqb_spec c BACKSLASH); [contradiction |].
  reflexivity.
Qed.

Lemma unescape_tabs_newlines_step_plain (d : pystr) (c : char) :
  c <> BACKSLASH ->
  unescape_tabs_newlines_step (d, false) c = (d ++ [c], false).
Proof.
  intros H. simpl. destruct (Z.eqb_spec c BACKSLASH); [contradiction |].
  reflexivity.
Qed.

(** X8. Both unescape functions return unchanged a string that has no
    backslash. *)
Theorem unescape_identity_without_backslash (s : pystr) :
  ~ In BACKSLASH s ->
  unescape_newlines s = OK s /\ unescape_tabs_newlines s = OK s.
Proof.
  intros H. rewrite unescape_newlines_fold, unescape_tabs_newlines_fold.
  rewrite (scan_without_backslash _ unescape_newlines_step_plain) by exact H.
  rewrite (scan_without_backslash _ unescape_tabs_newlines_step_plain)
    by exact H.
  split; reflexivity.
Qed.

Lemma unescape_identity_without_backslash_witness :
  unescape_newlines [97; LF; TAB; 110] = OK [97; LF; TAB; 110]
  /\ unescape_tabs_newlines [97; LF; TAB; 110] = OK [97; LF; TAB; 110].
Proof.
  apply (unescape_identity_without_backslash [97; LF; TAB; 110]).
  simpl. unfold BACKSLASH, LF, TAB. lia.
Defined.

Section ScanShape.

Variable step : unescape_state -> char -> unescape_state.
Hypothesis step_prefix :
  forall d e c,
    step (d, e) c = (d ++ fst (step ([], e) c), snd (step ([], e) c)).
Hypothesis step_growth :
  forall e c, len (fst (step ([], e) c)) + Z.b2z (snd (step ([], e) c))
              <= Z.b2z e + 1.

(** The scan only appends to the destination string it starts from. *)
Lemma scan_prefix (t d : pystr) (e : bool) :
  fold_left step t (d, e)
  = (d ++ fst (fold_left step t ([], e)), snd (fold_left step t ([], e))).
Proof.
  revert d e. induction t as [| c t IH]; intros d e.
  - simpl. rewrite app_nil_r. reflexivity.
  - cbn [fold_left]. rewrite (step_prefix d e c), IH.
    destruct (step ([], e) c) as [x e'] eqn:E. cbn [fst snd].
    rewrite (IH x e'), <- app_assoc. reflexivity.
Qed.

(** One character read adds at most one to the length of the destination
    string, counting a pending escape as one. *)
Lemma scan_growth (t : pystr) (e : bool) :
  len (fst (fold_left step t ([], e))) + Z.b2z (snd (fold_left step t ([], e)))
  <= Z.b2z e + len t.
Proof.
  revert e. induction t as [| c t IH]; intros e.
  - simpl. unfold len. simpl. lia.
  - cbn [fold_left]. rewrite len_cons.
    pose proof (step_growth e c) as G.
    destruct (step ([], e) c) as [x e'] eqn:E. cbn [fst snd] in G.
    rewrite scan_prefix. cbn [fst snd]. rewrite len_app.
    specialize (IH e'). lia.
Qed.

End ScanShape.

Lemma unescape_newlines_step_prefix (d : pystr) (e : bool) (c : char) :
  unescape_newlines_step (d, e) c
  = (d ++ fst (unescape_newlines_step ([], e) c),
     snd (unescape_newlines_step ([], e) c)).
Proof.
  destruct e; simpl.
  - destruct (c =? 114); [reflexivity |]. destruct (c =? 110); reflexivity.
  - destruct (c =? BACKSLASH); simpl; rewrite ?app_nil_r; reflexivity.
Qed.

Lemma unescape_tabs_newlines_step_prefix (d : pystr) (e : bool) (c : char) :
  unescape_tabs_newlines_step (d, e) c
  = (d ++ fst (unescape_tabs_newlines_step ([], e) c),
     snd (unescape_tabs_newlines_step ([], e) c)).
Proof.
  destruct e; simpl.
  - destruct (c =? 114); [reflexivity |]. destruct (c =? 110); [reflexivity |].
    destruct (c =? 116); reflexivity.
  - destruct (c =? BACKSLASH); simpl; rewrite ?app_nil_r; reflexivity.
Qed.

Lemma unescape_newlines_step_growth (e : bool) (c : char) :
  len (fst (unescape_newlines_step ([], e) c))
  + Z.b2z (snd (unescape_newlines_step ([], e) c))
  <= Z.b2z e + 1.
Proof.
  destruct e; simpl.
  - destruct (c =? 114); [unfold len; simpl; lia |].
    destruct (c =? 110); unfold len; simpl; lia.
  - destruct (c =? BACKSLASH); unfold len; simpl; lia.
Qed.

Lemma unescape_tabs_newlines_step_growth (e : bool) (c : char) :
  len (fst (unescape_tabs_newlines_step ([], e) c))
  + Z.b2z (snd (unescape_tabs_newlines_step ([], e) c))
  <= Z.b2z e + 1.
Proof.
  destruct e; simpl.
  - destruct (c =? 114); [unfold len; simpl; lia |].
    destruct (c =? 110); [unfold len; simpl; lia |].
    destruct (c =? 116); unfold len; simpl; lia.
  - destruct (c =? BACKSLASH); unfold len; simpl; lia.
Qed.

(** X9. Unescaping never lengthens: the result of either unescape
    function is at most as long as its argument. *)
Theorem unescape_never_lengthens (s d : pystr) :
  (unescape_newlines s = OK d -> len d <= len s)
  /\ (unescape_tabs_newlines s = OK d -> len d <= len s).
Proof.
  split; intros H.
  - rewrite unescape_newlines_fold in H. injection H as <-.
    pose proof (scan_growth _ unescape_newlines_step_prefix
                  unescape_newlines_step_growth s false) as G.
    destruct (snd (fold_left unescape_newlines_step s ([], false)));
      simpl in G; lia.
  - rewrite unescape_tabs_newlines_fold in H. injection H as <-.
    pose proof (scan_growth _ unescape_tabs_newlines_step_prefix
                  unescape_tabs_newlines_step_growth s false) as G.
    destruct (snd (fold_left unescape_tabs_newlines_step s ([], false)));
      simpl in G; lia.
Qed.

Lemma unescape_never_lengthens_witness :
  len [97; LF; 98] <= len (py "a\nb")
  /\ len [97; TAB] <= len (py "a\t\").
Proof.
  split.
  - apply (proj1 (unescape_never_lengthens (py "a\nb") [97; LF; 98])).
    reflexivity.
  - apply (proj2 (unescape_never_lengthens (py "a\t\") [97; TAB])).
    reflexivity.
Defined.

(** X10. Unescaping distributes over a concatenation cut outside an
    escape sequence: when the scan of [s] ends in normal state with
    destination string [d1] and [t] unescapes to [d2], then [s ++ t]
    unescapes to [d1 ++ d2]; for both unescape functions. *)
Theorem unescape_app :
  (forall s t d1 d2,
     unescape_newlines_loop s = OK (d1, false) ->
     unescape_newlines t = OK d2 ->
     unescape_newlines (s ++ t) = OK (d1 ++ d2))
  /\ (forall s t d1 d2,
     unescape_tabs_newlines_loop s = OK (d1, false) ->
     unescape_tabs_newlines t = OK d2 ->
     unescape_tabs_newlines (s ++ t) = OK (d1 ++ d2)).
Proof.
  split; intros s t d1 d2 Hs Ht.
  - rewrite unescape_newlines_loop_fold in Hs. injection Hs as Hs.
    rewrite unescape_newlines_fold in Ht. injection Ht as <-.
    rewrite unescape_newlines_fold, fold_left_app, Hs.
    rewrite (scan_prefix _ unescape_newlines_step_prefix). reflexivity.
  - rewrite unescape_tabs_newlines_loop_fold in Hs. injection Hs as Hs.
    rewrite unescape_tabs_newlines_fold in Ht. injection Ht as <-.
    rewrite unescape_tabs_newlines_fold, fold_left_app, Hs.
    rewrite (scan_prefix _ unescape_tabs_newlines_step_prefix). reflexivity.
Qed.

Lemma unescape_app_witness :
  unescape_newlines (py "a\n" ++ py "\\b") = OK ([97; LF] ++ py "\b")
  /\ unescape_tabs_newlines (py "a\t" ++ py "\rb") = OK ([97; TAB] ++ [CR; 98]).
Proof.
  split.
  - apply (proj1 unescape_app); reflexivity.
  - apply (proj2 unescape_app); reflexivity.
Defined.

(** * Further properties of the Unicode expander *)

Lemma chr_OK (i : Z) (c : pystr) :
  chr i = OK c -> c = [i] /\ 0 <= i <= 0x10FFFF.
Proof.
  unfold chr.
  destruct ((i <? -2147483648) || (2147483647 <? i)); [discriminate |].
  destruct (Z.ltb_spec i 0) as [Hlo | Hlo]; [discriminate |].
  destruct (Z.ltb_spec 0x10FFFF i) as [Hhi | Hhi]; simpl; [discriminate |].
  intros E. injection E as <-. split; [reflexivity | lia].
Qed.

Lemma comprehension_chr_OK (xs : list Z) (ys : list pystr) :
  comprehension chr xs = OK ys ->
  ys = map (fun c => [c]) xs /\ Forall (fun c => 0 <= c <= 0x10FFFF) xs.
Proof.
  intros H. apply comprehension_OK in H.
  induction H as [| x y xs ys Hxy F IH]; [split; constructor |].
  destruct IH as [-> IH]. apply chr_OK in Hxy. destruct Hxy as [-> Hx].
  split; [reflexivity | constructor; assumption].
Qed.

Lemma item_bounds_range (s : pystr) (first last : Z) :
  item_bounds (SrcStr s) = Some (first, last) ->
  exists a b, split HYPHEN s = [a; b]
              /\ int16 a = OK first /\ int16 b = OK last.
Proof.
  cbn [item_bounds].
  destruct (comprehension int16 (split HYPHEN s)) as [ints | e] eqn:E;
    [| discriminate].
  destruct ints as [| x [| y [| z r]]]; try discriminate.
  intros H. injection H as -> ->.
  apply comprehension_OK in E.
  inversion E as [| a x l1 l1' Ha F1 Hl]; subst.
  inversion F1 as [| b y l2 l2' Hb F2 Hl']; subst.
  inversion F2; subst.
  exists a, b. auto.
Qed.

Lemma item_chars_bounds (src : src_item) (first last : Z) :
  item_bounds src = Some (first, last) ->
  item_chars src = comprehension chr (codepoints first last).
Proof.
  destruct src as [i | s]; intros H.
  - cbn [item_bounds] in H. injection H as <- <-.
    rewrite codepoints_single. unfold item_chars. simpl.
    destruct (chr i); reflexivity.
  - apply item_bounds_range in H. destruct H as (a & b & Hs & Ha & Hb).
    apply (item_chars_range s a b); assumption.
Qed.

Lemma item_bounds_none (src : src_item) :
  item_bounds src = None -> raises (item_chars src).
Proof.
  destruct src as [i | s]; cbn [item_bounds]; [discriminate |].
  intros H. unfold item_chars. simpl.
  destruct (comprehension int16 (split HYPHEN s)) as [ints | e];
    [| exists e; reflexivity].
  destruct ints as [| x [| y [| z r]]]; try discriminate H;
    exists ValueError; reflexivity.
Qed.

Lemma item_chars_OK (src : src_item) (cs : list pystr) :
  item_chars src = OK cs ->
  cs = map (fun c => [c]) (item_string src)
  /\ Forall (fun c => 0 <= c <= 0x10FFFF) (item_string src).
Proof.
  intros H. unfold item_string.
  destruct (item_bounds src) as [[first last] |] eqn:E.
  - rewrite (item_chars_bounds src first last E) in H.
    apply comprehension_chr_OK. exact H.
  - apply item_bounds_none in E. destruct E as [e E]. congruence.
Qed.

Lemma expander_OK (l : list src_item) (s : pystr) :
  _unicode_def_src_to_str l = OK s ->
  s = flat_map item_string l
  /\ Forall (fun src => Forall (fun c => 0 <= c <= 0x10FFFF) (item_string src)) l.
Proof.
  rewrite expander_item_chars.
  destruct (comprehension item_chars l) as [css | e] eqn:E; [| discriminate].
  simpl. intros H. injection H as <-.
  apply comprehension_OK in E.
  induction E as [| src cs l css Hsrc F IH]; [split; constructor |].
  destruct IH as [IH1 IH2]. apply item_chars_OK in Hsrc.
  destruct Hsrc as [-> Hr]. split.
  - unfold join in *. cbn [concat flat_map]. rewrite concat_app, IH1.
    f_equal. apply join_singletons.
  - constructor; assumption.
Qed.

(** X11. Whenever the expander returns, also on declarations that are
    read leniently or have inverted endpoints, its result is the
    concatenation in list order of the code points from the first to the
    last endpoint of each declaration (none for an inverted one), and
    every character of the result is a code point between 0 and
    0x10FFFF. *)
Theorem expander_result (l : list src_item) (s : pystr) :
  _unicode_def_src_to_str l = OK s ->
  s = flat_map item_string l
  /\ Forall (fun c => 0 <= c <= 0x10FFFF) s.
Proof.
  intros H. apply expander_OK in H. destruct H as [-> F].
  split; [reflexivity |].
  apply Forall_flat_map. exact F.
Qed.

Lemma expander_result_witness :
  py "AB" ++ py "a" = flat_map item_string
                        [SrcStr (py " 0x41 -+4_2"); SrcStr (py "5-4"); SrcInt 97]
  /\ Forall (fun c => 0 <= c <= 0x10FFFF) (py "AB" ++ py "a").
Proof.
  apply (expander_result
           [SrcStr (py " 0x41 -+4_2"); SrcStr (py "5-4"); SrcInt 97]).
  reflexivity.
Defined.

(** X12. A character occurs in the result of the expander exactly when
    some declaration of the list covers it: a single code point equal to
    it, or a range whose endpoints enclose it. *)
Theorem expander_membership (l : list src_item) (s : pystr) (c : Z) :
  _unicode_def_src_to_str l = OK s ->
  (In c s <-> Exists (covers c) l).
Proof.
  intros H. apply expander_OK in H. destruct H as [-> _].
  rewrite in_flat_map, Exists_exists. unfold covers, item_string.
  split.
  - intros (src & Hin & Hc). exists src. split; [exact Hin |].
    destruct (item_bounds src) as [[first last] |]; [| destruct Hc].
    exists first, last. split; [reflexivity |].
    apply in_codepoints. exact Hc.
  - intros (src & Hin & first & last & Hb & Hc). exists src.
    split; [exact Hin |]. rewrite Hb. apply in_codepoints. exact Hc.
Qed.

Lemma expander_membership_witness :
  In 0x42 (py "ABCz") <-> Exists (covers 0x42) [SrcStr (py "41-43"); SrcInt 122].
Proof.
  apply (expander_membership [SrcStr (py "41-43"); SrcInt 122]).
  reflexivity.
Defined.

Lemma comprehension_app {A B : Type} (f : A -> result B) (l1 l2 : list A) :
  comprehension f (l1 ++ l2)
  = (ys1 <- comprehension f l1 ;;
     ys2 <- comprehension f l2 ;;
     OK (ys1 ++ ys2)).
Proof.
  induction l1 as [| x l1 IH]; cbn [app comprehension].
  - simpl. destruct (comprehension f l2); reflexivity.
  - destruct (f x) as [y | e]; cbn [bind]; [| reflexivity].
    rewrite IH. destruct (comprehension f l1); cbn [bind]; [| reflexivity].
    destruct (comprehension f l2); reflexivity.
Qed.

(** X13. The expander distributes over concatenation of declaration
    lists: on [l1 ++ l2] it returns the result for [l1] followed by the
    result for [l2], and raises what [l1] raises, or else what [l2]
    raises.  Nothing is deduplicated or reordered across declarations. *)
Theorem expander_app (l1 l2 : list src_item) :
  _unicode_def_src_to_str (l1 ++ l2)
  = (s1 <- _unicode_def_src_to_str l1 ;;
     s2 <- _unicode_def_src_to_str l2 ;;
     OK (s1 ++ s2)).
Proof.
  rewrite !expander_item_chars, comprehension_app.
  destruct (comprehension item_chars l1) as [css1 | e]; cbn [bind];
    [| reflexivity].
  destruct (comprehension item_chars l2) as [css2 | e]; cbn [bind];
    [| reflexivity].
  unfold join. rewrite !concat_app. reflexivity.
Qed.

(** X14. The first bad declaration decides the outcome: when the
    declarations before [src] expand and [src] alone makes the expander
    raise [e], the expander raises [e] on the whole list, whatever
    follows [src]. *)
Theorem expander_fails_fast (pre post : list src_item) (src : src_item)
  (s : pystr) (e : exn) :
  _unicode_def_src_to_str pre = OK s ->
  _unicode_def_src_to_str [src] = Err e ->
  _unicode_def_src_to_str (pre ++ src :: post) = Err e.
Proof.
  intros Hpre Hsrc.
  change (src :: post) with ([src] ++ post).
  rewrite expander_app, Hpre. cbn [bind].
  rewrite expander_app, Hsrc. reflexivity.
Qed.

Lemma expander_fails_fast_witness :
  _unicode_def_src_to_str
    ([SrcStr (py "41-43")] ++ SrcInt 0x80000000 :: [SrcStr (py "x")])
  = Err OverflowError.
Proof.
  apply (expander_fails_fast [SrcStr (py "41-43")] [SrcStr (py "x")]
           (SrcInt 0x80000000) (py "ABC") OverflowError); reflexivity.
Defined.

(** * Further properties of the category lookup *)

Lemma dict_getitem_In {V : Type} (d : dict V) (k : pystr) (v : V) :
  dict_getitem d k = OK v -> In (k, v) d.
Proof.
  induction d as [| [k' v'] d IH]; [discriminate |].
  simpl. destruct (str_eqb k' k) eqn:E.
  - apply str_eqb_eq in E. intros H. injection H as ->. subst k'.
    left. reflexivity.
  - intros H. right. apply IH. exact H.
Qed.

(** X15. [get_unicode_characters] returns a string exactly for the keys
    of the category table, and the only exception it raises is the
    [KeyError] of its argument: no declaration of the table makes the
    expander raise. *)
Theorem lookup_succeeds_exactly_on_keys (name : pystr) :
  ((exists s, get_unicode_characters name = OK s)
   <-> In name (keys _UNICODE_CATEGORY_SRC))
  /\ (forall e, get_unicode_characters name = Err e -> e = KeyError name).
Proof.
  unfold get_unicode_characters.
  destruct (in_dec (list_eq_dec Z.eq_dec) name (keys _UNICODE_CATEGORY_SRC))
    as [Hin | Hout].
  - destruct (dict_getitem_present _ name Hin) as [v Hv].
    rewrite Hv. cbn [bind].
    pose proof (table_category_string (name, v) (dict_getitem_In _ _ _ Hv))
      as E.
    cbn [snd] in E. rewrite E.
    split; [| discriminate].
    split; [intros _; exact Hin | intros _; eexists; reflexivity].
  - rewrite dict_getitem_absent by exact Hout. cbn [bind].
    split.
    + split; [intros [s H]; discriminate H | contradiction].
    + intros e H. injection H as <-. reflexivity.
Qed.

Lemma lookup_succeeds_exactly_on_keys_witness :
  (exists s, get_unicode_characters (py "Uppercase") = OK s)
  /\ KeyError (py "uppercase") = KeyError (py "uppercase").
Proof.
  split.
  - apply (proj2 (proj1 (lookup_succeeds_exactly_on_keys (py "Uppercase")))).
    rewrite table_keys. simpl. tauto.
  - apply (proj2 (lookup_succeeds_exactly_on_keys (py "uppercase"))).
    reflexivity.
Defined.

(** ** Order inside the category strings *)

Lemma StronglySorted_lt_app (l1 l2 : list Z) :
  StronglySorted Z.lt l1 -> StronglySorted Z.lt l2 ->
  (forall x y, In x l1 -> In y l2 -> x < y) ->
  StronglySorted Z.lt (l1 ++ l2).
Proof.
  intros S1 S2 H. induction S1 as [| x l1 S1 IH F]; [exact S2 |].
  cbn [app]. constructor.
  - apply IH. intros a b Ha Hb. apply H; [right; exact Ha | exact Hb].
  - apply Forall_app. split; [exact F |].
    apply Forall_forall. intros y Hy. apply H; [left; reflexivity | exact Hy].
Qed.

Lemma StronglySorted_lt_NoDup (l : list Z) :
  StronglySorted Z.lt l -> NoDup l.
Proof.
  intros S. induction S as [| x l S IH F]; constructor; [| exact IH].
  intros Hin. rewrite Forall_forall in F. specialize (F x Hin). lia.
Qed.

Lemma range_from_lower (n : nat) (lo : Z) :
  Forall (fun x => lo <= x) (range_from n lo).
Proof.
  revert lo. induction n as [| n IH]; intros lo; cbn [range_from];
    constructor; [lia |].
  eapply Forall_impl; [| apply (IH (lo + 1))]. intros x Hx. cbv beta in Hx. lia.
Qed.

Lemma range_from_sorted (n : nat) (lo : Z) :
  StronglySorted Z.lt (range_from n lo).
Proof.
  revert lo. induction n as [| n IH]; intros lo; cbn [range_from];
    constructor; [apply IH |].
  eapply Forall_impl; [| apply (range_from_lower n (lo + 1))].
  intros x Hx. cbv beta in Hx. lia.
Qed.

Lemma codepoints_sorted (a b : Z) : StronglySorted Z.lt (codepoints a b).
Proof.
  unfold codepoints. rewrite <- range_from_map. apply range_from_sorted.
Qed.

Lemma ascending_item_okb (l : list src_item) (lo : Z) :
  -1 <= lo -> ascending_from lo l = true -> forallb item_okb l = true.
Proof.
  revert lo. induction l as [| src l IH]; intros lo Hlo H; [reflexivity |].
  cbn [ascending_from] in H.
  destruct (item_bounds src) as [[first last] |] eqn:E; [| discriminate H].
  rewrite !andb_true_iff in H. destruct H as [[[H1 H2] H3] H4].
  apply Z.ltb_lt in H1. apply Z.leb_le in H2, H3.
  cbn [forallb]. apply andb_true_iff. split.
  - destruct src as [i | s]; cbn [item_bounds item_okb] in *.
    + injection E as <- <-. apply andb_true_iff.
      split; apply Z.leb_le; lia.
    + destruct (comprehension int16 (split HYPHEN s)) as [ints | e];
        [| discriminate E].
      destruct ints as [| x [| y [| z r]]]; try discriminate E.
      injection E as -> ->. apply orb_true_iff. right.
      apply andb_true_iff. split; apply Z.leb_le; lia.
  - apply (IH last); [lia | exact H4].
Qed.

Lemma ascending_sorted (l : list src_item) (lo : Z) :
  ascending_from lo l = true ->
  StronglySorted Z.lt (flat_map item_string l)
  /\ Forall (fun c => lo < c) (flat_map item_string l).
Proof.
  revert lo. induction l as [| src l IH]; intros lo H;
    [split; constructor |].
  cbn [ascending_from] in H. cbn [flat_map]. unfold item_string at 1 3.
  destruct (item_bounds src) as [[first last] |]; [| discriminate H].
  rewrite !andb_true_iff in H. destruct H as [[[H1 H2] H3] H4].
  apply Z.ltb_lt in H1. apply Z.leb_le in H2, H3.
  destruct (IH last H4) as [S F]. rewrite Forall_forall in F. split.
  - apply StronglySorted_lt_app; [apply codepoints_sorted | exact S |].
    intros x y Hx Hy. apply in_codepoints in Hx. specialize (F y Hy). lia.
  - apply Forall_app. split; apply Forall_forall; intros x Hx.
    + apply in_codepoints in Hx. lia.
    + specialize (F x Hx). lia.
Qed.

Lemma table_declarations_ascending :
  forallb (fun kv => ascending_from (-1) (snd kv)) _UNICODE_CATEGORY_SRC = true.
Proof. vm_compute. reflexivity. Qed.

(** X16. The declarations of every category of the table are
    representable, in order and in ascending sequence without overlap, so
    the string [get_unicode_characters] returns for each key lists its
    characters in strictly ascending code-point order and has no repeated
    character. *)
Theorem category_strings_strictly_ascending (k : pystr) :
  In k (keys _UNICODE_CATEGORY_SRC) ->
  exists s, get_unicode_characters k = OK s
            /\ StronglySorted Z.lt s /\ NoDup s.
Proof.
  intros Hk. unfold get_unicode_characters.
  destruct (dict_getitem_present _ k Hk) as [v Hv]. rewrite Hv. cbn [bind].
  apply dict_getitem_In in Hv.
  pose proof table_declarations_ascending as T.
  rewrite forallb_forall in T. specialize (T (k, v) Hv). cbn [snd] in T.
  pose proof (items_okb_sound v (ascending_item_okb v (-1) (Z.le_refl _) T))
    as E.
  exists (category_string v). split; [exact E |].
  apply expander_OK in E. destruct E as [-> _].
  destruct (ascending_sorted v (-1) T) as [S _].
  split; [exact S | apply StronglySorted_lt_NoDup; exact S].
Qed.

Lemma category_strings_strictly_ascending_witness :
  exists s, get_unicode_characters (py "Lowercase") = OK s
            /\ StronglySorted Z.lt s /\ NoDup s.
Proof.
  apply (category_strings_strictly_ascending (py "Lowercase")).
  rewrite table_keys. simpl. tauto.
Defined.

(** * Escaped strings inside longer strings *)

(** X17. An escaped string can be decoded together with what follows it:
    when [t] unescapes to [d], the string [escape_newlines s ++ t]
    unescapes to [s ++ d], so the escape of [s] never ends inside an
    escape sequence; likewise for the tab variants.  In particular the
    concatenation of two escaped strings unescapes to the concatenation
    of the originals. *)
Theorem unescape_escaped_prefix :
  (forall s t d,
     unescape_newlines t = OK d ->
     unescape_newlines (escape_newlines s ++ t) = OK (s ++ d))
  /\ (forall s t d,
     unescape_tabs_newlines t = OK d ->
     unescape_tabs_newlines (escape_tabs_newlines s ++ t) = OK (s ++ d))
  /\ (forall s t,
     unescape_newlines (escape_newlines s ++ escape_newlines t)
     = OK (s ++ t))
  /\ (forall s t,
     unescape_tabs_newlines (escape_tabs_newlines s ++ escape_tabs_newlines t)
     = OK (s ++ t)).
Proof.
  assert (P1 : forall s t,
    unescape_newlines (escape_newlines s ++ t)
    = OK (s ++ fst (fold_left unescape_newlines_step t ([], false)))).
  { intros s t.
    rewrite unescape_newlines_fold, fold_left_app, escape_newlines_flat_map,
      unescape_newlines_escaped.
    rewrite (scan_prefix _ unescape_newlines_step_prefix). reflexivity. }
  assert (P2 : forall s t,
    unescape_tabs_newlines (escape_tabs_newlines s ++ t)
    = OK (s ++ fst (fold_left unescape_tabs_newlines_step t ([], false)))).
  { intros s t.
    rewrite unescape_tabs_newlines_fold, fold_left_app,
      escape_tabs_newlines_flat_map, unescape_tabs_newlines_escaped.
    rewrite (scan_prefix _ unescape_tabs_newlines_step_prefix). reflexivity. }
  split; [| split; [| split]].
  - intros s t d H. rewrite unescape_newlines_fold in H. injection H as <-.
    apply P1.
  - intros s t d H. rewrite unescape_tabs_newlines_fold in H.
    injection H as <-. apply P2.
  - intros s t. rewrite P1, escape_newlines_flat_map,
      unescape_newlines_escaped. reflexivity.
  - intros s t. rewrite P2, escape_tabs_newlines_flat_map,
      unescape_tabs_newlines_escaped. reflexivity.
Qed.

Lemma unescape_escaped_prefix_witness :
  unescape_newlines (escape_newlines [97; LF; BACKSLASH] ++ py "\rb\")
  = OK ([97; LF; BACKSLASH] ++ [CR; 98])
  /\ unescape_tabs_newlines (escape_tabs_newlines [TAB; BACKSLASH] ++ py "\tb")
     = OK ([TAB; BACKSLASH] ++ [TAB; 98]).
Proof.
  split.
  - apply (proj1 unescape_escaped_prefix). reflexivity.
  - apply (proj1 (proj2 unescape_escaped_prefix)). reflexivity.
Defined.

(** * The integer literals that [int16] accepts *)

Lemma int16_stages (x : pystr) :
  int16 x = (let '(sign, s) := parse_sign (skip_spaces (ascii_form x)) in
             parse_digits sign (strip_prefix s)).
Proof. reflexivity. Qed.

Lemma space_char_tests (c : Z) :
  Py_ISSPACE c = true ->
  hex_digit c = None /\ (c =? 95) = false /\ c <> 120 /\ c <> 88
  /\ c <> 43 /\ c <> 45.
Proof.
  unfold Py_ISSPACE, hex_digit. intros H.
  destruct (Z.leb_spec 9 c), (Z.leb_spec c 13), (Z.eqb_spec c 32),
    (Z.leb_spec 48 c), (Z.leb_spec c 57), (Z.leb_spec 97 c),
    (Z.leb_spec c 102), (Z.leb_spec 65 c), (Z.leb_spec c 70),
    (Z.eqb_spec c 95); simpl in *; try discriminate H;
    repeat split; try reflexivity; lia.
Qed.

Lemma digit_char_tests (c d : Z) :
  hex_digit c = Some d ->
  Py_ISSPACE c = false /\ (c =? 43) = false /\ (c =? 45) = false
  /\ (c =? 95) = false /\ (c =? 120) = false /\ (c =? 88) = false.
Proof.
  intros H. apply hex_digit_char in H. destruct H as [H _].
  destruct (hex_char_tests c H) as (H1 & H2 & H3 & H4 & H5 & H6 & _).
  repeat split; assumption.
Qed.

Lemma skip_spaces_split (s : pystr) :
  exists ws, s = ws ++ skip_spaces s
             /\ Forall (fun x => Py_ISSPACE x = true) ws.
Proof.
  induction s as [| c s IH]; [exists []; split; constructor |].
  cbn [skip_spaces]. destruct (Py_ISSPACE c) eqn:E.
  - destruct IH as (ws & Hs & Hws). exists (c :: ws). split.
    + cbn [app]. rewrite <- Hs. reflexivity.
    + constructor; assumption.
  - exists []. split; constructor.
Qed.

Lemma skip_spaces_nil (s : pystr) :
  skip_spaces s = [] -> Forall (fun x => Py_ISSPACE x = true) s.
Proof.
  induction s as [| c s IH]; [constructor |].
  cbn [skip_spaces]. destruct (Py_ISSPACE c) eqn:E; [| discriminate].
  intros H. constructor; [exact E | exact (IH H)].
Qed.

Lemma skip_spaces_spaces (ws : pystr) :
  Forall (fun x => Py_ISSPACE x = true) ws -> skip_spaces ws = [].
Proof.
  intros H. induction H as [| c ws Hc _ IH]; [reflexivity |].
  cbn [skip_spaces]. rewrite Hc. exact IH.
Qed.

Lemma skip_spaces_app (ws t : pystr) :
  Forall (fun x => Py_ISSPACE x = true) ws ->
  skip_spaces (ws ++ t) = skip_spaces t.
Proof.
  intros H. induction H as [| c ws Hc _ IH]; [reflexivity |].
  cbn [app skip_spaces]. rewrite Hc. exact IH.
Qed.

Lemma skip_spaces_start (c : char) (t : pystr) :
  Py_ISSPACE c = false -> skip_spaces (c :: t) = c :: t.
Proof. intros H. cbn [skip_spaces]. rewrite H. reflexivity. Qed.

Lemma skip_spaces_fixed (t : pystr) :
  (forall c r, t = c :: r -> Py_ISSPACE c = false) -> skip_spaces t = t.
Proof.
  destruct t as [| c r]; intros H; [reflexivity |].
  apply skip_spaces_start. apply (H c r eq_refl).
Qed.

(** ** The digits *)

Lemma scan_digits_sound (s : pystr) :
  forall (b : bool) (a : Z) (res : option Z) (rest : pystr),
    scan_digits b (Some a) s = Some (res, rest) ->
    exists ds v,
      s = ds ++ rest /\ res = Some v
      /\ if b then
           exists c d ds', ds = c :: ds' /\ hex_digit c = Some d
                           /\ more_digits (16 * a + d) ds' v
         else more_digits a ds v.
Proof.
  induction s as [| c r IH]; intros b a res rest H.
  - cbn [scan_digits] in H. destruct b; [discriminate H |].
    injection H as <- <-. exists [], a.
    split; [reflexivity | split; [reflexivity | constructor]].
  - cbn [scan_digits] in H. destruct (Z.eqb_spec c 95) as [-> | Hc].
    + destruct b; [discriminate H |].
      destruct (IH true a res rest H)
        as (ds & v & -> & -> & c' & d & ds' & -> & Hd & Hm).
      exists (95 :: c' :: ds'), v.
      split; [reflexivity | split; [reflexivity |]].
      apply (more_underscore a c' d ds' v Hd Hm).
    + destruct (hex_digit c) as [d |] eqn:E.
      * destruct (IH false (16 * a + d) res rest H)
          as (ds & v & -> & -> & Hm).
        exists (c :: ds), v.
        split; [reflexivity | split; [reflexivity |]].
        destruct b.
        -- exists c, d, ds. auto.
        -- apply (more_digit a c d ds v E Hm).
      * destruct b; [discriminate H |].
        injection H as <- <-. exists [], a.
        split; [reflexivity | split; [reflexivity | constructor]].
Qed.

Lemma scan_digits_complete (a : Z) (ds : pystr) (v : Z) (ws : pystr) :
  more_digits a ds v ->
  Forall (fun x => Py_ISSPACE x = true) ws ->
  scan_digits false (Some a) (ds ++ ws) = Some (Some v, ws).
Proof.
  intros Hm Hws. induction Hm as [acc | acc c d s v Hd Hm IH | acc c d s v Hd Hm IH].
  - cbn [app]. destruct Hws as [| w ws Hw Hws]; [reflexivity |].
    cbn [scan_digits].
    destruct (space_char_tests w Hw) as (Hn & Hu & _).
    rewrite Hu, Hn. reflexivity.
  - cbn [app scan_digits].
    destruct (digit_char_tests c d Hd) as (_ & _ & _ & Hu & _).
    rewrite Hu, Hd. exact IH.
  - cbn [app scan_digits]. rewrite Z.eqb_refl.
    destruct (digit_char_tests c d Hd) as (_ & _ & _ & Hu & _).
    rewrite Hu, Hd. exact IH.
Qed.

Lemma more_digits_head (a : Z) (ds : pystr) (v : Z) (ws : pystr)
  (c1 : char) (r : pystr) :
  more_digits a ds v ->
  Forall (fun x => Py_ISSPACE x = true) ws ->
  ds ++ ws = c1 :: r -> (c1 =? 120) = false /\ (c1 =? 88) = false.
Proof.
  intros Hm Hws E. destruct Hm as [acc | acc c d s v Hd Hm | acc c d s v Hd Hm].
  - cbn [app] in E. subst ws. inversion Hws as [| w ws' Hw _]; subst.
    destruct (space_char_tests c1 Hw) as (_ & _ & H1 & H2 & _).
    split; apply Z.eqb_neq; assumption.
  - injection E as <- _.
    destruct (digit_char_tests c d Hd) as (_ & _ & _ & _ & H1 & H2).
    split; assumption.
  - injection E as <- _. split; reflexivity.
Qed.

(** ** The sign, the prefix and the digits *)

Lemma parse_sign_sound (s t : pystr) (sign : Z) :
  parse_sign s = (sign, t) -> exists sg, s = sg ++ t /\ sign_of sg sign.
Proof.
  unfold parse_sign. destruct s as [| c r].
  - intros H. injection H as <- <-. exists []. split; constructor.
  - destruct (Z.eqb_spec c 43) as [-> | H43].
    + intros H. injection H as <- <-. exists [43]. split; constructor.
    + destruct (Z.eqb_spec c 45) as [-> | H45]; intros H; injection H as <- <-.
      * exists [45]. split; constructor.
      * exists []. split; constructor.
Qed.

Lemma parse_sign_complete (sg t : pystr) (sign : Z) :
  sign_of sg sign ->
  (forall c r, t = c :: r -> (c =? 43) = false /\ (c =? 45) = false) ->
  parse_sign (sg ++ t) = (sign, t).
Proof.
  intros Hsg Ht. destruct Hsg; cbn [app]; [| reflexivity | reflexivity].
  unfold parse_sign. destruct t as [| c r]; [reflexivity |].
  destruct (Ht c r eq_refl) as [-> ->]. reflexivity.
Qed.

Lemma strip_prefix_sound (s : pystr) :
  exists pfx, s = pfx ++ strip_prefix s /\ prefix16 pfx.
Proof.
  unfold strip_prefix.
  destruct s as [| c0 [| c1 r]]; try (exists []; split; constructor).
  destruct (Z.eqb_spec c0 48) as [-> | H0]; cbn [andb];
    [| exists []; split; constructor].
  destruct ((c1 =? 120) || (c1 =? 88)) eqn:E;
    [| exists []; split; constructor].
  assert (Hx : c1 = 120 \/ c1 = 88).
  { apply orb_true_iff in E. destruct E as [E | E]; apply Z.eqb_eq in E; auto. }
  destruct r as [| c2 r'].
  - exists [48; c1]. split; [reflexivity | constructor; exact Hx].
  - destruct (Z.eqb_spec c2 95) as [-> | H2].
    + exists [48; c1; 95]. split; [reflexivity | constructor; exact Hx].
    + exists [48; c1]. split; [reflexivity | constructor; exact Hx].
Qed.

Lemma strip_prefix_complete (pfx : pystr) (c d : Z) (rest : pystr) :
  prefix16 pfx -> hex_digit c = Some d ->
  (forall c1 r, rest = c1 :: r -> (c1 =? 120) = false /\ (c1 =? 88) = false) ->
  strip_prefix (pfx ++ c :: rest) = c :: rest.
Proof.
  intros Hp Hc Hrest.
  destruct (digit_char_tests c d Hc) as (_ & _ & _ & Hu & _).
  destruct Hp as [| x Hx | x Hx]; cbn [app]; unfold strip_prefix.
  - destruct rest as [| c1 r]; [reflexivity |].
    destruct (Hrest c1 r eq_refl) as [-> ->].
    rewrite andb_false_r. reflexivity.
  - rewrite Hu. destruct Hx as [-> | ->]; reflexivity.
  - destruct Hx as [-> | ->]; reflexivity.
Qed.

Lemma parse_digits_sound (sign : Z) (t : pystr) (v : Z) :
  parse_digits sign t = OK v ->
  exists c d ds m ws2,
    t = (c :: ds) ++ ws2 /\ hex_digit c = Some d /\ more_digits d ds m
    /\ Forall (fun x => Py_ISSPACE x = true) ws2 /\ v = sign * m.
Proof.
  unfold parse_digits. destruct t as [| c r]; [discriminate |].
  destruct (Z.eqb_spec c 95) as [-> | Hc]; [discriminate |].
  cbn [scan_digits]. destruct (Z.eqb_spec c 95) as [E | _]; [contradiction |].
  destruct (hex_digit c) as [d |] eqn:Hd; [| discriminate].
  destruct (scan_digits false (Some (16 * 0 + d)) r) as [[[m |] rest] |] eqn:S;
    try discriminate.
  destruct (skip_spaces rest) eqn:R; [| discriminate].
  intros H. injection H as <-.
  destruct (scan_digits_sound r false (16 * 0 + d) (Some m) rest S)
    as (ds & m' & -> & Em & Hm).
  injection Em as <-.
  replace (16 * 0 + d) with d in Hm by lia.
  exists c, d, ds, m, rest.
  split; [reflexivity |]. split; [exact Hd |]. split; [exact Hm |].
  split; [apply skip_spaces_nil; exact R | reflexivity].
Qed.

Lemma parse_digits_complete (sign c d : Z) (ds : pystr) (m : Z) (ws2 : pystr) :
  hex_digit c = Some d -> more_digits d ds m ->
  Forall (fun x => Py_ISSPACE x = true) ws2 ->
  parse_digits sign ((c :: ds) ++ ws2) = OK (sign * m).
Proof.
  intros Hc Hm Hws. cbn [app]. unfold parse_digits.
  destruct (digit_char_tests c d Hc) as (_ & _ & _ & Hu & _).
  rewrite Hu. cbn [scan_digits]. rewrite Hu, Hc.
  replace (16 * 0 + d) with d by lia.
  pose proof (scan_digits_complete d ds m ws2 Hm Hws) as Q.
  match goal with
  | |- context [scan_digits false (Some d) ?l] =>
      replace (scan_digits false (Some d) l) with (Some (Some m, ws2))
        by (symmetry; exact Q)
  end.
  rewrite (skip_spaces_spaces ws2 Hws). reflexivity.
Qed.

(** [int16] returns [v] exactly on the integer literals of value [v]. *)
Lemma int16_int_literal (p : pystr) (v : Z) :
  int16 p = OK v <-> int_literal (ascii_form p) v.
Proof.
  rewrite int16_stages. split.
  - intros H.
    destruct (skip_spaces_split (ascii_form p)) as (ws1 & Hs & Hws1).
    destruct (parse_sign (skip_spaces (ascii_form p))) as [sign t] eqn:Esign.
    destruct (parse_sign_sound _ _ _ Esign) as (sg & Hsg & Ssg).
    destruct (strip_prefix_sound t) as (pfx & Ht & Hpfx).
    destruct (parse_digits_sound sign (strip_prefix t) v H)
      as (c & d & ds & m & ws2 & Hbody & Hc & Hm & Hws2 & ->).
    rewrite Hs, Hsg, Ht, Hbody.
    apply (int_literal_intro ws1 sg pfx ds ws2 sign c d m); assumption.
  - intros H.
    inversion H as [ws1 sg pfx ds ws2 sign c d m Hws1 Hsg Hpfx Hc Hm Hws2 Es Ev].
    destruct (digit_char_tests c d Hc) as (Cs & C43 & C45 & _).
    assert (Hhead : forall c1 r, pfx ++ c :: ds ++ ws2 = c1 :: r ->
              Py_ISSPACE c1 = false
              /\ (c1 =? 43) = false /\ (c1 =? 45) = false).
    { intros c1 r E. destruct Hpfx; cbn [app] in E; injection E as <- _;
        repeat split; (assumption || reflexivity). }
    assert (Hskip : skip_spaces (ws1 ++ sg ++ pfx ++ c :: ds ++ ws2)
                    = sg ++ pfx ++ c :: ds ++ ws2).
    { rewrite skip_spaces_app by exact Hws1.
      apply skip_spaces_fixed. intros c1 r E.
      destruct Hsg; cbn [app] in E.
      - apply (Hhead c1 r E).
      - injection E as <- _. reflexivity.
      - injection E as <- _. reflexivity. }
    rewrite Hskip.
    rewrite (parse_sign_complete sg _ sign Hsg)
      by (intros c1 r E; apply (Hhead c1 r E)).
    cbv beta iota zeta.
    assert (Q : strip_prefix (pfx ++ c :: ds ++ ws2) = c :: ds ++ ws2).
    { apply (strip_prefix_complete pfx c d (ds ++ ws2) Hpfx Hc).
      intros c1 r E. apply (more_digits_head d ds m ws2 c1 r Hm Hws2 E). }
    etransitivity;
      [| apply (parse_digits_complete sign c d ds m ws2 Hc Hm Hws2)].
    f_equal. exact Q.
Qed.

Lemma int16_rejects (p : pystr) :
  int16 p = Err ValueError <-> (forall v, ~ int_literal (ascii_form p) v).
Proof.
  split.
  - intros H v Hv. apply int16_int_literal in Hv. congruence.
  - intros H. destruct (result_cases (int16 p)) as [[v Hv] | R].
    + exfalso. apply (H v), int16_int_literal. exact Hv.
    + apply int16_error. exact R.
Qed.

(** * The declarations on which the expander raises, and what it raises *)

Lemma chr_exception_raised (i : Z) :
  i < 0 \/ 0x10FFFF < i -> chr i = Err (chr_exception i).
Proof.
  intros H. unfold chr, chr_exception.
  destruct ((i <? -2147483648) || (2147483647 <? i)); [reflexivity |].
  destruct (Z.ltb_spec i 0) as [Hlo | Hlo]; [reflexivity |].
  destruct (Z.ltb_spec 0x10FFFF i) as [Hhi | Hhi]; [reflexivity | lia].
Qed.

Lemma codepoints_cons (a b : Z) :
  a <= b -> codepoints a b = a :: codepoints (a + 1) b.
Proof.
  intros H. unfold codepoints. rewrite <- !range_from_map.
  replace (Z.to_nat (b - a + 1)) with (S (Z.to_nat (b - (a + 1) + 1))) by lia.
  reflexivity.
Qed.

Lemma comprehension_chr_out_of_range (a b : Z) :
  a <= b -> a < 0 \/ 0x10FFFF < a ->
  comprehension chr (codepoints a b) = Err (chr_exception a).
Proof.
  intros Hab Ha. rewrite codepoints_cons by exact Hab.
  cbn [comprehension]. rewrite chr_exception_raised by exact Ha. reflexivity.
Qed.

Lemma comprehension_chr_past_the_end (n : nat) (a b : Z) :
  n = Z.to_nat (0x110000 - a) -> 0 <= a <= 0x10FFFF -> 0x10FFFF < b ->
  comprehension chr (codepoints a b) = Err ValueError.
Proof.
  revert a. induction n as [| n IH]; intros a Hn Ha Hb; [lia |].
  rewrite codepoints_cons by lia. cbn [comprehension].
  rewrite chr_representable by exact Ha. cbn [bind].
  destruct (Z.eq_dec a 0x10FFFF) as [-> | Hne].
  - rewrite comprehension_chr_out_of_range by lia. reflexivity.
  - rewrite (IH (a + 1)) by lia. reflexivity.
Qed.

Lemma comprehension_chr_error (first last : Z) :
  first <= last -> first < 0 \/ 0x10FFFF < last ->
  comprehension chr (codepoints first last)
  = Err (if (0 <=? first) && (first <=? 0x10FFFF) then ValueError
         else chr_exception first).
Proof.
  intros Hle H.
  destruct (Z.leb_spec 0 first) as [H0 | H0];
    destruct (Z.leb_spec first 0x10FFFF) as [H1 | H1]; cbn [andb].
  - apply (comprehension_chr_past_the_end (Z.to_nat (0x110000 - first)));
      [reflexivity | lia | lia].
  - apply comprehension_chr_out_of_range; [exact Hle | lia].
  - apply comprehension_chr_out_of_range; [exact Hle | lia].
  - apply comprehension_chr_out_of_range; [exact Hle | lia].
Qed.

Lemma comprehension_int16_error (l : list pystr) (e : exn) :
  comprehension int16 l = Err e -> e = ValueError.
Proof.
  intros H. apply comprehension_error in H. destruct H as (p & _ & Hp).
  assert (R : int16 p = Err ValueError) by (apply int16_error; exists e; exact Hp).
  congruence.
Qed.

(** A declaration in error makes one round of the loop raise that
    exception. *)
Lemma declaration_error_raised (src : src_item) (e : exn) :
  declaration_error src e -> item_chars src = Err e.
Proof.
  intros H.
  destruct H as [i H | s H | s p Hin Hp | s a b first last Hs Ha Hb Hle H].
  - unfold item_chars. cbn [_unicode_def_src_to_str_body].
    rewrite chr_exception_raised by exact H. reflexivity.
  - unfold item_chars. cbn [_unicode_def_src_to_str_body].
    destruct (comprehension int16 (split HYPHEN s)) as [ints | e] eqn:E;
      cbn [bind].
    + apply comprehension_length in E.
      destruct ints as [| x [| y [| z r]]]; try reflexivity.
      exfalso. apply H. rewrite <- E. reflexivity.
    + rewrite (comprehension_int16_error _ e E). reflexivity.
  - unfold item_chars. cbn [_unicode_def_src_to_str_body].
    assert (R : raises (comprehension int16 (split HYPHEN s))).
    { apply comprehension_raises, Exists_exists. exists p.
      split; [exact Hin |]. exists ValueError. apply int16_rejects. exact Hp. }
    destruct R as [e R]. rewrite R. cbn [bind].
    rewrite (comprehension_int16_error _ e R). reflexivity.
  - apply int16_int_literal in Ha, Hb.
    rewrite (item_chars_range s a b first last Hs Ha Hb).
    apply comprehension_chr_error; assumption.
Qed.

Lemma bad_item_declaration_error (src : src_item) :
  bad_item src <-> exists e, declaration_error src e.
Proof.
  split.
  - intros H.
    destruct H as [i H | s H | s p Hin Hp | s a b first last Hs Ha Hb Hle H].
    + eexists. apply error_single. exact H.
    + eexists. apply error_pieces. exact H.
    + eexists. apply (error_literal s p Hin). apply int16_rejects. exact Hp.
    + eexists. apply (error_codepoint s a b first last Hs); try assumption;
        apply int16_int_literal; assumption.
  - intros [e H]. apply bad_item_raises. exists e.
    apply declaration_error_raised. exact H.
Qed.

Lemma declaration_error_iff (src : src_item) (e : exn) :
  item_chars src = Err e <-> declaration_error src e.
Proof.
  split; [| apply declaration_error_raised].
  intros H.
  assert (B : bad_item src) by (apply bad_item_raises; exists e; exact H).
  apply bad_item_declaration_error in B. destruct B as [e' D].
  pose proof (declaration_error_raised src e' D) as H'.
  assert (e = e') by congruence. subst e'. exact D.
Qed.

Lemma comprehension_first_error {A B : Type} (f : A -> result B)
  (l : list A) (e : exn) :
  comprehension f l = Err e
  <-> exists pre x post,
        l = pre ++ x :: post
        /\ Forall (fun y => ~ raises (f y)) pre /\ f x = Err e.
Proof.
  induction l as [| x l IH].
  - split; [discriminate |].
    intros (pre & y & post & E & _). destruct pre; discriminate E.
  - cbn [comprehension]. destruct (f x) as [y | e'] eqn:Ex; cbn [bind].
    + split.
      * intros H.
        destruct (comprehension f l) as [ys | e''] eqn:El; cbn [bind] in H;
          [discriminate H |].
        injection H as ->.
        destruct (proj1 IH eq_refl) as (pre & z & post & -> & Hpre & Hz).
        exists (x :: pre), z, post. split; [reflexivity |]. split; [| exact Hz].
        constructor; [| exact Hpre]. intros [e1 H1]. congruence.
      * intros (pre & z & post & E & Hpre & Hz).
        destruct pre as [| x' pre]; cbn [app] in E; injection E as <- ->.
        -- congruence.
        -- inversion Hpre as [| ? ? _ Hpre']; subst.
           assert (El : comprehension f (pre ++ z :: post) = Err e).
           { apply IH. exists pre, z, post. auto. }
           rewrite El. reflexivity.
    + split.
      * intros H. injection H as ->. exists [], x, l.
        split; [reflexivity |]. split; [constructor | exact Ex].
      * intros (pre & z & post & E & Hpre & Hz).
        destruct pre as [| x' pre]; cbn [app] in E; injection E as <- ->.
        -- congruence.
        -- inversion Hpre as [| ? ? Hx _]; subst.
           exfalso. apply Hx. exists e'. exact Ex.
Qed.

Lemma expander_first_error (l : list src_item) (e : exn) :
  _unicode_def_src_to_str l = Err e
  <-> exists pre src post,
        l = pre ++ src :: post
        /\ Forall (fun x => forall e', ~ declaration_error x e') pre
        /\ declaration_error src e.
Proof.
  rewrite expander_item_chars.
  assert (E : (css <- comprehension item_chars l ;; OK (join (concat css)))
              = Err e <-> comprehension item_chars l = Err e).
  { destruct (comprehension item_chars l); cbn [bind]; split; congruence. }
  rewrite E, comprehension_first_error.
  split; intros (pre & src & post & Hl & Hpre & Hsrc);
    exists pre, src, post; (split; [exact Hl |]); split.
  - eapply Forall_impl; [| exact Hpre]. intros x Hx e' D. apply Hx.
    exists e'. apply declaration_error_raised. exact D.
  - apply declaration_error_iff. exact Hsrc.
  - eapply Forall_impl; [| exact Hpre]. intros x Hx [e' R].
    apply (Hx e'). apply declaration_error_iff. exact R.
  - apply declaration_error_iff. exact Hsrc.
Qed.

Lemma expander_single_integer (i : Z) (e : exn) :
  _unicode_def_src_to_str [SrcInt i] = Err e
  <-> (i < 0 \/ 0x10FFFF < i) /\ e = chr_exception i.
Proof.
  rewrite expander_item_chars. cbn [comprehension].
  unfold item_chars at 1. cbn [_unicode_def_src_to_str_body].
  split.
  - intros H. destruct (chr i) as [c | e'] eqn:E; [discriminate H |].
    cbn [bind] in H. injection H as ->.
    assert (R : i < 0 \/ 0x10FFFF < i) by (apply chr_raises; exists e; exact E).
    split; [exact R |]. rewrite (chr_exception_raised i R) in E. congruence.
  - intros [R ->]. rewrite (chr_exception_raised i R). reflexivity.
Qed.

Lemma declaration_error_kind (src : src_item) (e : exn) :
  declaration_error src e -> e = ValueError \/ e = OverflowError.
Proof.
  intros H. destruct H; unfold chr_exception;
    repeat match goal with
           | |- context [if ?b then _ else _] => destruct b
           end; auto.
Qed.

(** C2, as the code has it.  The expander raises exactly when some
    declaration is bad, and raises the exception of the first bad one.
    A declaration is bad when it is an integer outside 0..0x10FFFF; a
    string that does not split at hyphens into two pieces; a string with
    a piece that is no integer literal in base 16 as [int] reads it
    (white space, an optional sign, an optional prefix 0x or 0X with one
    optional underscore, hexadecimal digits with single underscores
    between them, white space); or a range with first <= last that has a
    code point outside 0..0x10FFFF.  The exception is [ValueError], except
    that it is [OverflowError] when the offending integer, or the first
    endpoint of the range when that is the offending code point, does not
    fit a C [int].  A range whose first endpoint exceeds the second is
    not an error: it contributes no character, and the list with the one
    range [0010-0005] gives the empty string. *)
Theorem expander_raises_on_bad_declarations :
  (forall l, raises (_unicode_def_src_to_str l) <-> Exists bad_item l)
  /\ (forall src, bad_item src <-> exists e, declaration_error src e)
  /\ (forall l e,
        _unicode_def_src_to_str l = Err e
        <-> exists pre src post,
              l = pre ++ src :: post
              /\ Forall (fun x => forall e', ~ declaration_error x e') pre
              /\ declaration_error src e)
  /\ (forall l e, _unicode_def_src_to_str l = Err e ->
        e = ValueError \/ e = OverflowError)
  /\ (forall i,
        (_unicode_def_src_to_str [SrcInt i] = Err OverflowError
         <-> i < -2147483648 \/ 2147483647 < i)
        /\ (_unicode_def_src_to_str [SrcInt i] = Err ValueError
            <-> -2147483648 <= i < 0 \/ 0x10FFFF < i <= 2147483647))
  /\ (forall p v, int16 p = OK v <-> int_literal (ascii_form p) v)
  /\ (forall p, int16 p = Err ValueError
                <-> forall v, ~ int_literal (ascii_form p) v)
  /\ (forall s a b first last,
        split HYPHEN s = [a; b] -> int16 a = OK first -> int16 b = OK last ->
        last < first ->
        forall pre post,
          _unicode_def_src_to_str (pre ++ SrcStr s :: post)
          = _unicode_def_src_to_str (pre ++ post))
  /\ _unicode_def_src_to_str [SrcStr (py "0010-0005")] = OK [].
Proof.
  split; [| split; [| split; [| split; [| split; [| split; [| split; [| split]]]]]]].
  - intros l. rewrite expander_raises. split; intros H;
      (eapply Exists_impl; [| exact H]); intros src; apply bad_item_raises.
  - exact bad_item_declaration_error.
  - exact expander_first_error.
  - intros l e H. apply expander_first_error in H.
    destruct H as (pre & src & post & _ & _ & D).
    apply (declaration_error_kind src e D).
  - intros i. rewrite !expander_single_integer. unfold chr_exception.
    destruct (Z.ltb_spec i (-2147483648)) as [H1 | H1];
      destruct (Z.ltb_spec 2147483647 i) as [H2 | H2]; cbn [orb];
      (split;
       (split;
        [ intros [H E]; try discriminate E; lia
        | intros H; split; [lia | first [reflexivity | exfalso; lia]] ])).
  - exact int16_int_literal.
  - exact int16_rejects.
  - intros s a b first last Hs Ha Hb Hlt pre post.
    rewrite !expander_item_chars, !comprehension_app.
    cbn [comprehension].
    rewrite (inverted_range_chars s a b first last) by assumption.
    destruct (comprehension item_chars pre) as [css1 | e]; cbn [bind];
      [| reflexivity].
    destruct (comprehension item_chars post) as [css2 | e]; cbn [bind];
      [| reflexivity].
    unfold join. rewrite !concat_app. reflexivity.
  - reflexivity.
Qed.

Lemma expander_raises_on_bad_declarations_witness :
  raises (_unicode_def_src_to_str [SrcInt 0x41; SrcStr (py "0041"); SrcInt 0x42])
  /\ (exists pre src post,
        [SrcStr (py "41-43"); SrcInt 0x80000000; SrcStr (py "00G1-0043")]
        = pre ++ src :: post
        /\ Forall (fun x => forall e', ~ declaration_error x e') pre
        /\ declaration_error src OverflowError)
  /\ (OverflowError = ValueError \/ OverflowError = OverflowError)
  /\ _unicode_def_src_to_str [SrcInt 0x110000] = Err ValueError
  /\ int_literal (ascii_form (py " 0x_4_1 ")) 65
  /\ (forall v, ~ int_literal (ascii_form (py "00G1")) v)
  /\ _unicode_def_src_to_str
       ([SrcInt 0x41] ++ SrcStr (py "0010-0005") :: [SrcInt 0x42])
     = _unicode_def_src_to_str ([SrcInt 0x41] ++ [SrcInt 0x42]).
Proof.
  pose proof expander_raises_on_bad_declarations
    as (T1 & _ & T3 & T3' & T4 & T5 & T6 & T7 & _).
  split; [| split; [| split; [| split; [| split; [| split]]]]].
  - apply (proj2 (T1 _)).
    apply Exists_cons_tl, Exists_cons_hd, bad_pieces.
    vm_compute. discriminate.
  - apply (proj1 (T3 _ OverflowError)). reflexivity.
  - apply (T3' [SrcStr (py "80000000-80000001")] OverflowError). reflexivity.
  - apply (proj2 (proj2 (T4 0x110000))). lia.
  - apply (proj1 (T5 (py " 0x_4_1 ") 65)). reflexivity.
  - apply (proj1 (T6 (py "00G1"))). reflexivity.
  - apply (T7 (py "0010-0005") (py "0010") (py "0005") 16 5);
      [reflexivity | reflexivity | reflexivity | lia].
Defined.

(** The claim C2 as stated fails on two inputs.  The range [0010-0005]
    is inverted, first endpoint 16 and second endpoint 5, and the
    expander returns the empty string instead of raising.  The range
    [0x41-0x43] is not made of two strings of hexadecimal digits, and the
    expander returns [ABC] instead of raising. *)
Lemma claimed_failures_do_not_raise :
  (split HYPHEN (py "0010-0005") = [py "0010"; py "0005"]
   /\ int16 (py "0010") = OK 16 /\ int16 (py "0005") = OK 5
   /\ _unicode_def_src_to_str [SrcStr (py "0010-0005")] = OK []
   /\ ~ raises (_unicode_def_src_to_str [SrcStr (py "0010-0005")]))
  /\ (split HYPHEN (py "0x41-0x43") = [py "0x41"; py "0x43"]
      /\ hex_value (py "0x41") = None /\ hex_value (py "0x43") = None
      /\ _unicode_def_src_to_str [SrcStr (py "0x41-0x43")] = OK (py "ABC")
      /\ ~ raises (_unicode_def_src_to_str [SrcStr (py "0x41-0x43")])).
Proof.
  split; repeat split; intros [e H]; discriminate H.
Qed.
